(** * plotplus: the partial-geometry cache ([MapSet] and the partial features)

    A shallow embedding of [MapSet], [PartialShapelyFeature] and
    [PartialNaturalEarthFeature] of [plotplus.py], and the properties of the
    cache that the specification states.

    Conventions of the embedding.
    - Coordinates are Python numbers; they are modelled as rationals [Q].  The
      only arithmetic the cache does on them is the chained comparison
      [extent[0] < 180 < extent[1]] and the subtraction [extent[1] - 360.].
    - A tuple of coordinates ([georange], [extent]) is a [list Q]; indexing
      out of range raises [IndexError], slicing never raises.
    - Geometries are opaque shapely objects: a type [G].  The spatial
      predicate [sgeom.box(minx, miny, maxx, maxy).intersects(geom)] of the
      geospatial library is the parameter [box_intersects].
    - Code that reads or writes the outside world runs in the monad [M]: a
      state ([World]: the shapefiles on disk, the pickle files, the number of
      open file handles) and an exception.
    - The methods of [Plot] that set the map up, draw the features, write
      the time stamp and collect the notes run in the monad [Plot.PM]: the
      attributes of the plot, the calls into matplotlib and cartopy in the
      order they are made, the world, and an exception.  Strings are ASCII,
      hours are integers, and the floating-point numbers of the figure and
      of the data are kept abstract. *)

From Stdlib Require Import QArith.
From stdpp Require Import gmap strings list fin_maps countable pretty.

Local Open Scope string_scope.
Local Open Scope list_scope.

(** ** Python values and exceptions *)

(** The exceptions the modelled code can raise. *)
Inductive exn : Set :=
  | TypeError          (* subscripting [None] *)
  | IndexError         (* tuple index out of range *)
  | DatasetError       (* [ciosr.natural_earth]: no such dataset *)
  | ShapefileError     (* [ciosr.Reader]: the shapefile cannot be read *)
  | FileNotFoundError  (* [open(filename, 'rb')] on a missing path *)
  | OSError            (* [open(filename, 'wb')] or a write fails *)
  | UnpicklingError    (* [pickle.load] on a stream it cannot decode *)
  | ValueError.        (* a value that the callee does not accept *)

(** [x < y] on numbers, as a boolean. *)
Definition Qltb (x y : Q) : bool := negb (Qle_bool y x).

(** What the operating system does during one [save]: nothing unusual, a
    failure to open the file for writing, or a write error after [k] bytes
    were accepted. *)
Inductive io_fault : Set :=
  | NoFault
  | OpenFails
  | WriteFailsAfter (k : nat).

(** ** The world and the monad of effects *)

Section Runtime.
Context {G : Type}.

Record World : Type := mkWorld {
  (** [ciosr.natural_earth(resolution, category, name)]: the path of the
      dataset, for the datasets that exist upstream. *)
  natural_earth_paths : gmap (string * string * string) string;
  (** [ciosr.Reader(path).geometries()]: the geometries of a shapefile, in
      the order the reader yields them. *)
  shapefiles : gmap string (list G);
  (** The ordinary files, by path. *)
  files : gmap string (list Byte.byte);
  (** Number of file handles currently open. *)
  open_handles : nat
}.

Definition M (A : Type) : Type := World → (exn + A) * World.

Definition ret {A} (x : A) : M A := λ w, (inr x, w).

Definition bind {A B} (c : M A) (k : A → M B) : M B :=
  λ w, match c w with
       | (inl e, w') => (inl e, w')
       | (inr x, w') => k x w'
       end.

Definition raise {A} (e : exn) : M A := λ w, (inl e, w).

Definition get : M World := λ w, (inr w, w).

Definition put (w' : World) : M unit := λ _, (inr tt, w').

(** A computation that leaves the world as it found it. *)
Definition read_only {A} (c : M A) : Prop := ∀ w, snd (c w) = w.

(** [try: c finally: h]: [h] runs on both exits of [c]; an exception of [c]
    is raised again after it. *)
Definition try_finally {A} (c : M A) (h : M unit) : M A :=
  λ w, match c w with
       | (inl e, w') => match h w' with
                        | (inl e', w'') => (inl e', w'')
                        | (inr _, w'') => (inl e, w'')
                        end
       | (inr x, w') => match h w' with
                        | (inl e', w'') => (inl e', w'')
                        | (inr _, w'') => (inr x, w'')
                        end
       end.
End Runtime.

Arguments World : clear implicits.
Arguments M : clear implicits.

Notation "'let*' x := c 'in' k" := (bind c (λ x, k))
  (at level 10, x name, c at level 100, k at level 200, only parsing).
Notation "'do' c 'in' k" := (bind c (λ _, k))
  (at level 10, c at level 100, k at level 200, only parsing).

Section Primitives.
Context {G : Type}.

(** [t[i]] on a tuple. *)
Definition getitem (t : list Q) (i : nat) : M G Q :=
  match t !! i with
  | Some x => ret x
  | None => raise IndexError
  end.

(** [georange[2:] + georange[:2]]; subscripting [None] is a [TypeError]. *)
Definition rotate_georange (georange : option (list Q)) : M G (list Q) :=
  match georange with
  | None => raise TypeError
  | Some t => ret (drop 2 t ++ take 2 t)%list
  end.

(** [a < 180 < b] with [a = extent[0]], [b = extent[1]]: a chained
    comparison, [extent[1]] is only evaluated when [extent[0] < 180]. *)
Definition straddles (extent : list Q) : M G bool :=
  let* a := getitem extent 0 in
  if Qltb a 180 then
    let* b := getitem extent 1 in ret (Qltb 180 b)
  else ret false.

(** [path = ciosr.natural_earth(resolution=..., category=..., name=...)]. *)
Definition natural_earth (resolution category name : string) : M G string :=
  let* w := get in
  match natural_earth_paths w !! (resolution, category, name) with
  | Some path => ret path
  | None => raise DatasetError
  end.

(** [tuple(ciosr.Reader(path).geometries())]. *)
Definition Reader_geometries (path : string) : M G (list G) :=
  let* w := get in
  match shapefiles w !! path with
  | Some gs => ret gs
  | None => raise ShapefileError
  end.
End Primitives.

(** ** The base class of the features (geospatial library) *)

Module Feature.
Section Feature.
Context {G : Type}.
Variable box_intersects : Q → Q → Q → Q → G → bool.

(** [Feature.intersecting_geometries(extent)], the method that
    [super().intersecting_geometries] reaches: the geometries of the
    feature that intersect [sgeom.box(extent[0], extent[2], extent[1],
    extent[3])], in the order of [self.geometries()]. *)
Definition intersecting_geometries (geometries : list G) (extent : list Q)
    : M G (list G) :=
  let* minx := getitem extent 0 in
  let* miny := getitem extent 2 in
  let* maxx := getitem extent 1 in
  let* maxy := getitem extent 3 in
  ret (List.filter (box_intersects minx miny maxx maxy) geometries).
End Feature.
End Feature.

(** ** [NaturalEarthFeature] (geospatial library) *)

Module NaturalEarthFeature.
Section NaturalEarthFeature.
Context {G : Type}.

(** The scales of Natural Earth. *)
Definition valid_scales : list string := ["110m"; "50m"; "10m"].

(** [NaturalEarthFeature.__init__(category, name, scale)]: it keeps the
    three names, reads no dataset, and ends with [self._validate_scale()],
    which raises [ValueError] for a scale that is not one of the three. *)
Definition __init__ (category name scale : string) : M G unit :=
  if decide (scale ∈ valid_scales) then ret tt else raise ValueError.
End NaturalEarthFeature.
End NaturalEarthFeature.

(** ** [PartialShapelyFeature] *)

Module PartialShapelyFeature.
Section PartialShapelyFeature.
Context {G : Type}.
Variable box_intersects : Q → Q → Q → Q → G → bool.

(** The attributes of an instance: [_geoms] and [_crs] are set by
    [ShapelyFeature.__init__], [extent] by the subclass. *)
Record t : Type := mk {
  _crs : string;
  extent : list Q;
  _geoms : list G
}.

(** [ShapelyFeature.geometries]: [iter(self._geoms)]. *)
Definition geometries (self : t) : list G := _geoms self.

Definition intersecting_geometries (self : t) (extent : list Q) : list G :=
  geometries self.

(** [make_partial]: the new value of [self._geoms]. *)
Definition make_partial (self : t) : M G t :=
  let* s := straddles (extent self) in
  if s then
    let* e0 := getitem (extent self) 0 in
    let* e2 := getitem (extent self) 2 in
    let* e3 := getitem (extent self) 3 in
    let extent1 := [e0; 180%Q; e2; e3] in
    let* e1 := getitem (extent self) 1 in
    let* e2' := getitem (extent self) 2 in
    let* e3' := getitem (extent self) 3 in
    let extent2 := [(-180)%Q; (e1 - 360)%Q; e2'; e3'] in
    let* l1 := Feature.intersecting_geometries box_intersects
                 (geometries self) extent1 in
    let* l2 := Feature.intersecting_geometries box_intersects
                 (geometries self) extent2 in
    ret {| _crs := _crs self; extent := extent self;
           _geoms := (l1 ++ l2)%list |}
  else
    let* l := Feature.intersecting_geometries box_intersects
                (geometries self) (extent self) in
    ret {| _crs := _crs self; extent := extent self; _geoms := l |}.

(** [PartialShapelyFeature(geometries, crs, georange=georange)]. *)
Definition __init__ (geoms : list G) (crs : string)
    (georange : option (list Q)) : M G t :=
  let* ext := rotate_georange georange in
  make_partial {| _crs := crs; extent := ext; _geoms := geoms |}.

Definition from_shp (directory : string) (georange : option (list Q))
    : M G t :=
  let* geoms := Reader_geometries directory in
  __init__ geoms "PlateCarree" georange.
End PartialShapelyFeature.
End PartialShapelyFeature.

(** ** [PartialNaturalEarthFeature] *)

Module PartialNaturalEarthFeature.
Section PartialNaturalEarthFeature.
Context {G : Type}.
Variable box_intersects : Q → Q → Q → Q → G → bool.

(** The attributes of an instance: [category], [name] and [scale] are set
    by [NaturalEarthFeature.__init__], [extent] and [_geoms] by the
    subclass. *)
Record t : Type := mk {
  category : string;
  name : string;
  scale : string;
  extent : list Q;
  _geoms : list G
}.

Definition set_geoms (self : t) (geoms : list G) : t :=
  {| category := category self; name := name self; scale := scale self;
     extent := extent self; _geoms := geoms |}.

(** [geometries]: [iter(self._geoms)]. *)
Definition geometries (self : t) : list G := _geoms self.

Definition intersecting_geometries (self : t) (extent : list Q) : list G :=
  geometries self.

Definition make_partial (self : t) : M G t :=
  let* path := natural_earth (scale self) (category self) (name self) in
  let* all := Reader_geometries path in
  let self := set_geoms self all in
  let* s := straddles (extent self) in
  if s then
    let* e0 := getitem (extent self) 0 in
    let* e2 := getitem (extent self) 2 in
    let* e3 := getitem (extent self) 3 in
    let extent1 := [e0; 180%Q; e2; e3] in
    let* e1 := getitem (extent self) 1 in
    let* e2' := getitem (extent self) 2 in
    let* e3' := getitem (extent self) 3 in
    let extent2 := [(-180)%Q; (e1 - 360)%Q; e2'; e3'] in
    let* l1 := Feature.intersecting_geometries box_intersects
                 (geometries self) extent1 in
    let* l2 := Feature.intersecting_geometries box_intersects
                 (geometries self) extent2 in
    ret (set_geoms self (l1 ++ l2)%list)
  else
    let* l := Feature.intersecting_geometries box_intersects
                (geometries self) (extent self) in
    ret (set_geoms self l).

(** The body of [__init__] once the call of [super().__init__] has
    returned, that is, for one of the three scales that the base class
    accepts: [self.extent], [self._geoms = ()] and [make_partial()]. *)
Definition __init__ (category name scale : string)
    (georange : option (list Q)) : M G t :=
  let* ext := rotate_georange georange in
  make_partial {| category := category; name := name; scale := scale;
                  extent := ext; _geoms := [] |}.

(** [PartialNaturalEarthFeature(category, name, scale, georange=georange)]
    for any scale: the constructor of the base class, which validates the
    scale, and then the body above. *)
Definition new (category name scale : string) (georange : option (list Q))
    : M G t :=
  do NaturalEarthFeature.__init__ category name scale in
  __init__ category name scale georange.
End PartialNaturalEarthFeature.
End PartialNaturalEarthFeature.

(** ** File primitives *)

Section Files.
Context {G : Type}.

Definition set_files (w : World G) (fs : gmap string (list Byte.byte))
    (handles : nat) : World G :=
  {| natural_earth_paths := natural_earth_paths w;
     shapefiles := shapefiles w;
     files := fs;
     open_handles := handles |}.

(** [open(filename, 'rb')]: the content of the file, which must exist. *)
Definition open_rb (filename : string) : M G (list Byte.byte) :=
  let* w := get in
  match files w !! filename with
  | None => raise FileNotFoundError
  | Some content =>
      do put (set_files w (files w) (S (open_handles w))) in ret content
  end.

(** [open(filename, 'wb')]: creates the file or truncates it to length 0. *)
Definition open_wb (io : io_fault) (filename : string) : M G unit :=
  match io with
  | OpenFails => raise OSError
  | _ =>
      let* w := get in
      put (set_files w (<[filename := []]> (files w)) (S (open_handles w)))
  end.

(** Appending [bytes] to the file open at [filename]. *)
Definition write (filename : string) (bytes : list Byte.byte) : M G unit :=
  let* w := get in
  put (set_files w
         (<[filename := (default [] (files w !! filename) ++ bytes)%list]>
            (files w))
         (open_handles w)).

(** Leaving the [with] block: the handle is closed. *)
Definition close : M G unit :=
  let* w := get in
  put (set_files w (files w) (pred (open_handles w))).
End Files.

(** ** [MapSet] *)

Module MapSet.
Section MapSet.
Context {G : Type}.
Variable box_intersects : Q → Q → Q → Q → G → bool.

Record t : Type := mk {
  proj : option string;
  georange : option (list Q);
  scale : option string;
  coastline : option (@PartialNaturalEarthFeature.t G);
  country : option (@PartialNaturalEarthFeature.t G);
  land : option (@PartialNaturalEarthFeature.t G);
  ocean : option (@PartialNaturalEarthFeature.t G);
  province : option (@PartialShapelyFeature.t G);
  city : option (@PartialShapelyFeature.t G);
  county : option (@PartialShapelyFeature.t G);
  proj_params : option (list (string * Q))
}.

Definition __init__ (proj : option string) (georange : option (list Q))
    (coastline country land ocean : option (@PartialNaturalEarthFeature.t G))
    (province city county : option (@PartialShapelyFeature.t G))
    (scale : option string) (proj_params : option (list (string * Q))) : t :=
  {| proj := proj; georange := georange; scale := scale;
     coastline := coastline; country := country; land := land;
     ocean := ocean; province := province; city := city; county := county;
     proj_params := proj_params |}.

Definition set_coastline (ins : t) (f : @PartialNaturalEarthFeature.t G) : t :=
  __init__ (proj ins) (georange ins) (Some f) (country ins) (land ins)
    (ocean ins) (province ins) (city ins) (county ins) (scale ins)
    (proj_params ins).

Definition set_country (ins : t) (f : @PartialNaturalEarthFeature.t G) : t :=
  __init__ (proj ins) (georange ins) (coastline ins) (Some f) (land ins)
    (ocean ins) (province ins) (city ins) (county ins) (scale ins)
    (proj_params ins).

Definition set_land (ins : t) (f : @PartialNaturalEarthFeature.t G) : t :=
  __init__ (proj ins) (georange ins) (coastline ins) (country ins) (Some f)
    (ocean ins) (province ins) (city ins) (county ins) (scale ins)
    (proj_params ins).

Definition set_ocean (ins : t) (f : @PartialNaturalEarthFeature.t G) : t :=
  __init__ (proj ins) (georange ins) (coastline ins) (country ins) (land ins)
    (Some f) (province ins) (city ins) (county ins) (scale ins)
    (proj_params ins).

(** [MapSet.from_natural_earth(georange, scale, proj, coastline, country,
    land, ocean, proj_params)]; the defaults of the keyword arguments are
    [scale='50m'], [proj='P'], [coastline=True], [country=True],
    [land=False], [ocean=False], [proj_params=None]. *)
Definition from_natural_earth (georange : option (list Q)) (scale : string)
    (proj : option string) (coastline country land ocean : bool)
    (proj_params : option (list (string * Q))) : M G t :=
  let ins := __init__ proj georange None None None None None None None
               (Some scale) proj_params in
  let* ins :=
    if coastline then
      let* f := PartialNaturalEarthFeature.__init__ box_intersects
                  "physical" "coastline" scale georange in
      ret (set_coastline ins f)
    else ret ins in
  let* ins :=
    if country then
      let* f := PartialNaturalEarthFeature.__init__ box_intersects
                  "cultural" "admin_0_boundary_lines_land" scale georange in
      ret (set_country ins f)
    else ret ins in
  let* ins :=
    if land then
      let* f := PartialNaturalEarthFeature.__init__ box_intersects
                  "physical" "land" scale georange in
      ret (set_land ins f)
    else ret ins in
  let* ins :=
    if ocean then
      let* f := PartialNaturalEarthFeature.__init__ box_intersects
                  "physical" "ocean" scale georange in
      ret (set_ocean ins f)
    else ret ins in
  ret ins.

(** What [pickle.load] can return: any Python object.  Beside a [MapSet],
    two other kinds of object stand for the rest. *)
Inductive pyobj : Type :=
  | PyMapSet (m : t)
  | PyInt (n : Z)
  | PyNone.

(** The serialization library: [pickle.dumps] and [pickle.loads] on byte
    strings ([None]: the stream cannot be decoded). *)
Variable pickle_dumps : pyobj → list Byte.byte.
Variable pickle_loads : list Byte.byte → option pyobj.

(** [pickle.load(f)] on the content of [f]. *)
Definition pickle_load (content : list Byte.byte) : M G pyobj :=
  match pickle_loads content with
  | Some obj => ret obj
  | None => raise UnpicklingError
  end.

(** [pickle.dump(obj, f)] with [f] open at [filename]: the stream is
    written to the file; on a write error the bytes accepted so far stay
    in it. *)
Definition pickle_dump (io : io_fault) (obj : pyobj) (filename : string)
    : M G unit :=
  match io with
  | WriteFailsAfter k =>
      do write filename (take k (pickle_dumps obj)) in raise OSError
  | _ => write filename (pickle_dumps obj)
  end.

Definition load (filename : string) : M G pyobj :=
  let* f := open_rb filename in
  try_finally (pickle_load f) close.

Definition save (io : io_fault) (self : t) (filename : string) : M G unit :=
  do open_wb io filename in
  try_finally (pickle_dump io (PyMapSet self) filename) close.
End MapSet.
End MapSet.

(** ** The stored sequence in closed form *)

Section ClosedForm.
Context {G : Type}.
Variable box_intersects : Q → Q → Q → Q → G → bool.

(** What [make_partial] stores for the extent
    [(lonMin, lonMax, latMin, latMax)] when the geometries of the source
    are [all]; shown equal to the code in [PNE_init_run] and
    [PSF_init_run]. *)
Definition region_matches (lonMin lonMax latMin latMax : Q) (all : list G)
    : list G :=
  if Qltb lonMin 180 && Qltb 180 lonMax then
    (List.filter (box_intersects lonMin latMin 180 latMax) all ++
     List.filter (box_intersects (-180) latMin (lonMax - 360) latMax) all)%list
  else List.filter (box_intersects lonMin latMin lonMax latMax) all.
End ClosedForm.

(** ** Keyword dictionaries *)

(** The Python values that the modelled code passes in keyword
    dictionaries: [None], a number, a string, a tuple of numbers. *)
Inductive pyval : Type :=
  | VNone
  | VNum (q : Q)
  | VStr (s : string)
  | VTuple (t : list Q).

(** [merge_dict(a, b)]: for every item of [b] whose key is not in [a], the
    item is added to [a]; the updated [a] is returned.  A [dict] is a finite
    map; the order in which the items of [b] are visited does not change
    the result. *)
Definition merge_dict {V : Type} (a b : gmap string V) : gmap string V :=
  map_fold (λ k v a, match a !! k with
                     | Some _ => a
                     | None => <[k := v]> a
                     end) a b.

(** ** Strings *)

(** Strings are ASCII.  [str.upper] and [str.lower] change the letters,
    [str.split()] cuts at white space. *)
Definition upper_ascii (c : Ascii.ascii) : Ascii.ascii :=
  let n := Ascii.nat_of_ascii c in
  if (97 <=? n)%nat && (n <=? 122)%nat then Ascii.ascii_of_nat (n - 32)
  else c.

Definition lower_ascii (c : Ascii.ascii) : Ascii.ascii :=
  let n := Ascii.nat_of_ascii c in
  if (65 <=? n)%nat && (n <=? 90)%nat then Ascii.ascii_of_nat (n + 32)
  else c.

Fixpoint upper (s : string) : string :=
  match s with
  | EmptyString => EmptyString
  | String c s => String (upper_ascii c) (upper s)
  end.

Fixpoint lower (s : string) : string :=
  match s with
  | EmptyString => EmptyString
  | String c s => String (lower_ascii c) (lower s)
  end.

(** White space for [str.split()]: tab, line feed, vertical tab, form
    feed, carriage return, the four separators 28 to 31, and the space. *)
Definition is_whitespace (c : Ascii.ascii) : bool :=
  let n := Ascii.nat_of_ascii c in
  ((9 <=? n)%nat && (n <=? 13)%nat) || ((28 <=? n)%nat && (n <=? 32)%nat).

(** [' ' in s]. *)
Fixpoint contains_space (s : string) : bool :=
  match s with
  | EmptyString => false
  | String c s => Ascii.eqb c (Ascii.ascii_of_nat 32) || contains_space s
  end.

(** [s.split()]: [cur] is the word being read, if one was begun. *)
Fixpoint split_go (cur : option string) (s : string) : list string :=
  match s with
  | EmptyString => option_list cur
  | String c s =>
      if is_whitespace c then option_list cur ++ split_go None s
      else split_go (Some (default EmptyString cur +:+ String c EmptyString)) s
  end.

Definition split (s : string) : list string := split_go None s.

(** [s[2:] + s[:2]] and [s[i]] on a string. *)
Definition string_rotate (s : string) : string :=
  String.string_of_list_ascii
    (drop 2 (String.list_ascii_of_string s) ++
     take 2 (String.list_ascii_of_string s)).

(** A string that [lower] leaves as it is. *)
Definition is_lower (s : string) : Prop := lower s = s.

(** [chars P s]: every character of [s] satisfies [P]. *)
Fixpoint chars (P : Ascii.ascii → Prop) (s : string) : Prop :=
  match s with
  | EmptyString => True
  | String c s => P c ∧ chars P s
  end.

(** A word: not empty, and without white space. *)
Definition word (w : string) : Prop :=
  w ≠ "" ∧ chars (λ c, is_whitespace c = false) w.

(** ** The state-and-exception monad of the plotting methods *)

Section StateExn.
Context {S E : Type}.

Definition SE (A : Type) : Type := S → (E + A) * S.

Definition sret {A} (x : A) : SE A := λ s, (inr x, s).

Definition sbind {A B} (c : SE A) (k : A → SE B) : SE B :=
  λ s, match c s with
       | (inl e, s') => (inl e, s')
       | (inr x, s') => k x s'
       end.

Definition sraise {A} (e : E) : SE A := λ s, (inl e, s).

Definition sget : SE S := λ s, (inr s, s).

Definition sput (s' : S) : SE unit := λ _, (inr tt, s').

(** [for x in l: body(x)]. *)
Fixpoint for_each {A} (l : list A) (body : A → SE unit) : SE unit :=
  match l with
  | [] => sret tt
  | x :: l => sbind (body x) (λ _, for_each l body)
  end.
End StateExn.

Arguments SE : clear implicits.

Notation "'let+' x := c 'in' k" := (sbind c (λ x, k))
  (at level 10, x name, c at level 100, k at level 200, only parsing).
Notation "'do+' c 'in' k" := (sbind c (λ _, k))
  (at level 10, c at level 100, k at level 200, only parsing).

(** The exceptions of the plotting methods: those of the cache, and the
    ones the methods raise themselves. *)
Inductive pyexn : Set :=
  | Raised (e : exn)
  | AttributeError     (* an attribute that the object does not have *)
  | KeyError           (* [d[k]] with [k] not in [d] *)
  | PlotError          (* [raise PlotError(...)] *)
  | UnboundLocalError  (* a local variable read before it is assigned *)
  | RecursionError     (* the recursion limit of the interpreter *)
  | OverflowError.     (* a date out of the range of [datetime] *)

(** ** [Plot] *)

Module Plot.
Section Plot.
Context {G C F : Type}.

(** The library behind the methods.  [ccrs_new name kwargs] is
    [getattr(ccrs, name)] called with the keywords [kwargs], which can raise; [crs_name c] is
    [type(c).__name__].  The figure's sizes and the aspect ratios are
    floating-point numbers, kept abstract in [F]: [float_of] converts a
    number, [aspect_auto height deltalon width deltalat] is
    [(height * deltalon) / (width * deltalat)], [aspect_cos midlat] is
    [1 / np.cos(np.deg2rad(midlat))] and
    [cos_height width deltalat deltalon ratio] is
    [width * deltalat / deltalon * ratio]. *)
Variable ccrs_new : string → gmap string pyval → pyexn + C.
Variable crs_name : C → string.
Variable float_of : Q → F.
Variable aspect_auto : F → Q → F → Q → F.
Variable aspect_cos : Q → F.
Variable cos_height : F → Q → Q → F → F.
(** [_CountryDir], the path of the shapefile of countries shipped with the
    package. *)
Variable _CountryDir : string.

(** The [proj] argument: [None], a name, or an instance of
    [ccrs.Projection]. *)
Inductive projarg : Type :=
  | ProjNone
  | ProjName (s : string)
  | ProjCrs (c : C).

(** What is handed to [add_feature]: a feature held by the mapset, or one
    made for the call. *)
Inductive feature : Type :=
  | Cached (f : @PartialNaturalEarthFeature.t G)
  | CachedShapely (f : @PartialShapelyFeature.t G)
  | NaturalEarth (category name scale : string) (kwargs : gmap string pyval)
  | Predefined (name scale : string)
  | Shapely (geoms : list G) (crs : string) (kwargs : gmap string pyval).

(** The calls into matplotlib and cartopy, and the printed lines, in the
    order they are made.  These calls are taken to return. *)
Inductive call : Type :=
  | Warn (msg : string)
  | Print (msg : string)
  | PltAxes (projection : C)
  | SetFacecolor (color : pyval)
  | SetExtent (extent : pyval)
  | SetAspect (a : pyval + F)
  | SetSizeInches (width height : F)
  | PatchSetLinewidth (lw : Q)
  | UpdateKwargs (f : feature) (facecolor edgecolor : pyval)
  | AddFeature (f : feature) (kwargs : gmap string pyval)
  | AxText (x y : Q) (s : string) (kwargs : gmap string pyval).

(** The attributes of a [Plot] that the modelled methods read or assign.
    [georange], [map_georange], [proj], [trans], [scale] and [style_colors]
    do not exist on a new object ([None] here): reading one of them before
    it is assigned is an [AttributeError].  [figsize] is the size of
    [self.fig]; [ax] is [None] or the axes, known by their projection. *)
Record t : Type := mk {
  mmnote : string;
  family : string;
  dpi : Q;
  figsize : F * F;
  ax : option C;
  facecolor : pyval;
  mpstep : Q;
  mapset : option (@MapSet.t G);
  aspect : pyval;
  boundary : pyval;
  inside_axis : bool;
  no_parameri : bool;
  fontsize : gmap string Q;
  linecolor : gmap string pyval;
  linewidth : gmap string Q;
  georange : option pyval;
  map_georange : option pyval;
  proj : option string;
  trans : option bool;
  scale : option string;
  style_colors : option (list string)
}.

Definition with_mmnote (v : string) (self : t) : t :=
  mk v (family self) (dpi self) (figsize self) (ax self) (facecolor self)
    (mpstep self) (mapset self) (aspect self) (boundary self) (inside_axis
    self) (no_parameri self) (fontsize self) (linecolor self) (linewidth
    self) (georange self) (map_georange self) (proj self) (trans self)
    (scale self) (style_colors self).

Definition with_figsize (v : F * F) (self : t) : t :=
  mk (mmnote self) (family self) (dpi self) v (ax self) (facecolor self)
    (mpstep self) (mapset self) (aspect self) (boundary self) (inside_axis
    self) (no_parameri self) (fontsize self) (linecolor self) (linewidth
    self) (georange self) (map_georange self) (proj self) (trans self)
    (scale self) (style_colors self).

Definition with_ax (v : option C) (self : t) : t :=
  mk (mmnote self) (family self) (dpi self) (figsize self) v (facecolor
    self) (mpstep self) (mapset self) (aspect self) (boundary self)
    (inside_axis self) (no_parameri self) (fontsize self) (linecolor self)
    (linewidth self) (georange self) (map_georange self) (proj self) (trans
    self) (scale self) (style_colors self).

Definition with_facecolor (v : pyval) (self : t) : t :=
  mk (mmnote self) (family self) (dpi self) (figsize self) (ax self) v
    (mpstep self) (mapset self) (aspect self) (boundary self) (inside_axis
    self) (no_parameri self) (fontsize self) (linecolor self) (linewidth
    self) (georange self) (map_georange self) (proj self) (trans self)
    (scale self) (style_colors self).

Definition with_mapset (v : option (@MapSet.t G)) (self : t) : t :=
  mk (mmnote self) (family self) (dpi self) (figsize self) (ax self)
    (facecolor self) (mpstep self) v (aspect self) (boundary self)
    (inside_axis self) (no_parameri self) (fontsize self) (linecolor self)
    (linewidth self) (georange self) (map_georange self) (proj self) (trans
    self) (scale self) (style_colors self).

Definition with_no_parameri (v : bool) (self : t) : t :=
  mk (mmnote self) (family self) (dpi self) (figsize self) (ax self)
    (facecolor self) (mpstep self) (mapset self) (aspect self) (boundary
    self) (inside_axis self) v (fontsize self) (linecolor self) (linewidth
    self) (georange self) (map_georange self) (proj self) (trans self)
    (scale self) (style_colors self).

Definition with_linecolor (v : gmap string pyval) (self : t) : t :=
  mk (mmnote self) (family self) (dpi self) (figsize self) (ax self)
    (facecolor self) (mpstep self) (mapset self) (aspect self) (boundary
    self) (inside_axis self) (no_parameri self) (fontsize self) v (linewidth
    self) (georange self) (map_georange self) (proj self) (trans self)
    (scale self) (style_colors self).

Definition with_georange (v : option pyval) (self : t) : t :=
  mk (mmnote self) (family self) (dpi self) (figsize self) (ax self)
    (facecolor self) (mpstep self) (mapset self) (aspect self) (boundary
    self) (inside_axis self) (no_parameri self) (fontsize self) (linecolor
    self) (linewidth self) v (map_georange self) (proj self) (trans self)
    (scale self) (style_colors self).

Definition with_map_georange (v : option pyval) (self : t) : t :=
  mk (mmnote self) (family self) (dpi self) (figsize self) (ax self)
    (facecolor self) (mpstep self) (mapset self) (aspect self) (boundary
    self) (inside_axis self) (no_parameri self) (fontsize self) (linecolor
    self) (linewidth self) (georange self) v (proj self) (trans self) (scale
    self) (style_colors self).

Definition with_proj (v : option string) (self : t) : t :=
  mk (mmnote self) (family self) (dpi self) (figsize self) (ax self)
    (facecolor self) (mpstep self) (mapset self) (aspect self) (boundary
    self) (inside_axis self) (no_parameri self) (fontsize self) (linecolor
    self) (linewidth self) (georange self) (map_georange self) v (trans
    self) (scale self) (style_colors self).

Definition with_trans (v : option bool) (self : t) : t :=
  mk (mmnote self) (family self) (dpi self) (figsize self) (ax self)
    (facecolor self) (mpstep self) (mapset self) (aspect self) (boundary
    self) (inside_axis self) (no_parameri self) (fontsize self) (linecolor
    self) (linewidth self) (georange self) (map_georange self) (proj self) v
    (scale self) (style_colors self).

Definition with_scale (v : option string) (self : t) : t :=
  mk (mmnote self) (family self) (dpi self) (figsize self) (ax self)
    (facecolor self) (mpstep self) (mapset self) (aspect self) (boundary
    self) (inside_axis self) (no_parameri self) (fontsize self) (linecolor
    self) (linewidth self) (georange self) (map_georange self) (proj self)
    (trans self) v (style_colors self).

Definition with_style_colors (v : option (list string)) (self : t) : t :=
  mk (mmnote self) (family self) (dpi self) (figsize self) (ax self)
    (facecolor self) (mpstep self) (mapset self) (aspect self) (boundary
    self) (inside_axis self) (no_parameri self) (fontsize self) (linecolor
    self) (linewidth self) (georange self) (map_georange self) (proj self)
    (trans self) (scale self) v.

Record state : Type := mkState {
  self : t;
  calls : list call;
  world : World G
}.

Definition PM (A : Type) : Type := SE state pyexn A.

Definition emit (c : call) : PM unit :=
  λ s, (inr (), mkState (self s) (calls s ++ [c]) (world s)).

Definition get_self : PM t := λ s, (inr (self s), s).

Definition modify_self (f : t → t) : PM unit :=
  λ s, (inr (), mkState (f (self s)) (calls s) (world s)).

(** Reading an attribute that may not exist yet, and [self.ax.method]. *)
Definition attr {A} (o : option A) : PM A :=
  match o with
  | Some x => sret x
  | None => sraise AttributeError
  end.

Definition the_ax : PM C := let+ p := get_self in attr (ax p).

(** A computation of the cache, run on the world of the plot. *)
Definition lift_world {A} (c : M G A) : PM A :=
  λ s, match c (world s) with
       | (inl e, w) => (inl (Raised e), mkState (self s) (calls s) w)
       | (inr x, w) => (inr x, mkState (self s) (calls s) w)
       end.

(** [d[k]]. *)
Definition getkey {V} (d : gmap string V) (k : string) : PM V :=
  match d !! k with
  | Some v => sret v
  | None => sraise KeyError
  end.

(** [v[i]], [a + b], [a - b] and [a / 2] on the values of a keyword
    dictionary. *)
Definition subscript (v : pyval) (i : nat) : PM pyval :=
  match v with
  | VTuple t => match t !! i with
                | Some q => sret (VNum q)
                | None => sraise (Raised IndexError)
                end
  | VStr s => match String.get i s with
              | Some c => sret (VStr (String c EmptyString))
              | None => sraise (Raised IndexError)
              end
  | _ => sraise (Raised TypeError)
  end.

Definition add (a b : pyval) : PM pyval :=
  match a, b with
  | VNum x, VNum y => sret (VNum (x + y))
  | VStr x, VStr y => sret (VStr (x +:+ y))
  | _, _ => sraise (Raised TypeError)
  end.

Definition sub (a b : pyval) : PM Q :=
  match a, b with
  | VNum x, VNum y => sret (x - y)%Q
  | _, _ => sraise (Raised TypeError)
  end.

Definition half (a : pyval) : PM Q :=
  match a with
  | VNum x => sret (x / 2)%Q
  | _ => sraise (Raised TypeError)
  end.

(** [v[2:] + v[:2]]. *)
Definition rotate (v : pyval) : PM pyval :=
  match v with
  | VTuple t => sret (VTuple (drop 2 t ++ take 2 t))
  | VStr s => sret (VStr (string_rotate s))
  | _ => sraise (Raised TypeError)
  end.

Definition _projshort : gmap string string :=
  list_to_map
    [("P", "PlateCarree"); ("L", "LambertConformal"); ("ML", "Miller");
     ("M", "Mercator"); ("N", "NorthPolarStereo");
     ("S", "SouthPolarStereo"); ("G", "Geostationary")].

Definition _scaleshort : gmap string string :=
  list_to_map [("l", "110m"); ("i", "50m"); ("h", "10m")].

(** [_proj_dict], local to [setmap]. *)
Definition _proj_dict : gmap string string :=
  list_to_map
    [("cyl", "P"); ("merc", "M"); ("lcc", "L"); ("geos", "G");
     ("npaeqd", "N"); ("spaeqd", "S")].

(** [Plot(figsize, dpi, aspect, inside_axis, boundary)]; the defaults are
    [None], [180], [None], [False], [None]. *)
Definition __init__ (figsize : option (Q * Q)) (dpi : Q) (aspect : pyval)
    (inside_axis : bool) (boundary : pyval) : t :=
  let figsize := default (7, 5)%Q figsize in
  {| mmnote := "";
     family := "Lato";
     dpi := dpi;
     figsize := (float_of (fst figsize), float_of (snd figsize));
     ax := None;
     facecolor := VNone;
     mpstep := 10;
     mapset := None;
     aspect := aspect;
     boundary := boundary;
     inside_axis := inside_axis;
     no_parameri := false;
     fontsize :=
       list_to_map
         [("title", 6.5); ("timestamp", 5); ("mmnote", 5); ("clabel", 5);
          ("cbar", 5); ("gridvalue", 5); ("mmfilter", 6); ("parameri", 4);
          ("legend", 6); ("marktext", 6); ("boxtext", 6); ("footer", 6)]%Q;
     linecolor :=
       list_to_map
         [("coastline", VStr "#222222"); ("lakes", VStr "#222222");
          ("rivers", VStr "#222222"); ("country", VStr "#222222");
          ("province", VStr "#222222"); ("city", VStr "#444444");
          ("county", VStr "#444444"); ("parameri", VStr "k")];
     linewidth :=
       list_to_map
         [("coastline", 0.3); ("lakes", 0.2); ("rivers", 0.2);
          ("country", 0.3); ("province", 0.3); ("city", 0.1);
          ("county", 0.1); ("parameri", 0.3)]%Q;
     georange := None;
     map_georange := None;
     proj := None;
     trans := None;
     scale := None;
     style_colors := None |}.

(** The [if]/[elif] chain of [_from_map_key]: the projection and the
    keyword arguments of the built-in maps. *)
Definition builtin_map (key : string) : option (string * gmap string pyval) :=
  if decide (key = "chinaproper") then
    Some ("P", {["georange" := VTuple [20; 40; 100; 130]%Q]})
  else if decide (key = "chinamerc") then
    Some ("M", {["georange" := VTuple [15; 50; 72.5; 135]%Q]})
  else if decide (key = "chinalambert") then
    Some ("L",
          list_to_map
            [("georange", VTuple [15; 55; 80; 125]%Q);
             ("central_longitude", VNum 102.5);
             ("central_latitude", VNum 40);
             ("standard_parallels", VTuple [40; 40]%Q)])
  else if decide (key = "euroasia") then
    Some ("L",
          list_to_map
            [("georange", VTuple [5; 75; 55; 145]%Q);
             ("central_longitude", VNum 100);
             ("central_latitude", VNum 40);
             ("standard_parallels", VTuple [40; 40]%Q)])
  else if decide (key = "europe") then
    Some ("ML",
          list_to_map
            [("georange", VTuple [30; 70; -25; 45]%Q);
             ("central_longitude", VNum 0)])
  else if decide (key = "northpac") then
    Some ("L",
          list_to_map
            [("georange", VTuple [-5; 70; 120; 250]%Q);
             ("central_longitude", VNum 185);
             ("central_latitude", VNum 42.5);
             ("standard_parallels", VTuple [0; 40]%Q)])
  else if decide (key = "northamerica") then
    Some ("L",
          list_to_map
            [("georange", VTuple [5; 75; -145; -55]%Q);
             ("central_longitude", VNum (-100));
             ("central_latitude", VNum 40);
             ("standard_parallels", VTuple [40; 40]%Q)])
  else if decide (key = "northpolar") then
    Some ("N",
          list_to_map
            [("georange", VTuple [15; 90; -180; 180]%Q);
             ("central_longitude", VNum 105)])
  else if decide (key = "southpolar") then
    Some ("S",
          list_to_map
            [("georange", VTuple [-90; -15; -180; 180]%Q);
             ("central_longitude", VNum 105)])
  else None.

(** [_from_map_key(key)].  The last branch assigns neither [proj] nor
    [kwargs], so the [return] that follows it raises.  A key that is not a
    string is equal to none of the names. *)
Definition _from_map_key (key : pyval) : PM (string * gmap string pyval) :=
  do+ modify_self (with_no_parameri true) in
  match (match key with VStr k => builtin_map k | _ => None end) with
  | Some r => sret r
  | None =>
      do+ modify_self (with_no_parameri false) in
      sraise UnboundLocalError
  end.

(** [self.proj]. *)
Definition get_proj : PM string := let+ p := get_self in attr (proj p).

(** [setmap(key, proj, projection, resolution, **kwargs)]; the defaults are
    [key=None], [proj='ML'], [projection=None], [resolution='i']. *)
Definition setmap (key : pyval) (proj : projarg) (projection : pyval)
    (resolution : pyval) (kwargs : gmap string pyval) : PM unit :=
  let+ kwargs :=
    match kwargs !! "resolution" with
    | Some _ =>
        do+ emit (Warn "Param `resolution` is ignored in plotplus2.") in
        sret (delete "resolution" kwargs)
    | None => sret kwargs
    end in
  let+ pk :=
    match key with
    | VNone => sret (proj, kwargs)
    | _ =>
        let+ r := _from_map_key key in
        (* [kwargs.update(other_kwargs)] *)
        sret (ProjName (fst r), snd r ∪ kwargs)
    end in
  let proj := fst pk in
  let kwargs := snd pk in
  let+ proj :=
    match proj, projection with
    | ProjNone, VNone => sret proj
    | ProjNone, _ =>
        match (match projection with
               | VStr name => _proj_dict !! name
               | _ => None
               end) with
        | Some short => sret (ProjName short)
        | None => sraise PlotError
        end
    | _, _ => sret proj
    end in
  let georange :=
    default (VTuple [-90; 90; -180; 180]%Q) (kwargs !! "georange") in
  let kwargs := delete "georange" kwargs in
  do+ modify_self (with_georange (Some georange)) in
  let map_georange := default georange (kwargs !! "map_georange") in
  let kwargs := delete "map_georange" kwargs in
  do+ modify_self (with_map_georange (Some map_georange)) in
  do+ match kwargs !! "facecolor" with
      | Some color => modify_self (with_facecolor color)
      | None => sret ()
      end in
  let kwargs := delete "facecolor" kwargs in
  let+ _proj :=
    match proj with
    | ProjCrs c =>
        do+ modify_self (with_proj (Some (crs_name c))) in
        sret c
    | ProjName name =>
        let name := default name (_projshort !! upper name) in
        do+ modify_self (with_proj (Some name)) in
        let+ kwargs :=
          match kwargs !! "central_longitude" with
          | Some _ => sret kwargs
          | None =>
              let+ lonmin := subscript georange 2 in
              let+ lonmax := subscript georange 3 in
              let+ total := add lonmin lonmax in
              let+ central_longitude := half total in
              sret (<["central_longitude" := VNum central_longitude]> kwargs)
          end in
        match ccrs_new name kwargs with
        | inl e => sraise e
        | inr c => sret c
        end
    | ProjNone => sraise AttributeError (* [None.upper()] *)
    end in
  let+ name := get_proj in
  do+ modify_self
        (with_trans (Some (negb (bool_decide (name = "PlateCarree"))))) in
  do+ emit (PltAxes _proj) in
  do+ modify_self (with_ax (Some _proj)) in
  let+ p := get_self in
  do+ match facecolor p with
      | VNone => sret ()
      | color => emit (SetFacecolor color)
      end in
  let+ scale :=
    match resolution with
    | VStr r => getkey _scaleshort r
    | _ => sraise KeyError
    end in
  do+ modify_self (with_scale (Some scale)) in
  let+ extent := rotate map_georange in
  do+ emit (SetExtent extent) in
  let+ p := get_self in
  let width := fst (figsize p) in
  let height := snd (figsize p) in
  let+ lon1 := subscript map_georange 3 in
  let+ lon0 := subscript map_georange 2 in
  let+ deltalon := sub lon1 lon0 in
  let+ lat1 := subscript map_georange 1 in
  let+ lat0 := subscript map_georange 0 in
  let+ deltalat := sub lat1 lat0 in
  do+ match aspect p with
      | VNone => sret ()
      | VStr a =>
          if decide (a = "auto") then
            emit (SetAspect (inr (aspect_auto height deltalon width deltalat)))
          else if decide (a = "cos") then
            let+ lat0 := subscript map_georange 0 in
            let+ lat1 := subscript map_georange 1 in
            let+ total := add lat0 lat1 in
            let+ midlat := half total in
            let aspect_ratio := aspect_cos midlat in
            let height' := cos_height width deltalat deltalon aspect_ratio in
            do+ emit (SetSizeInches width height') in
            do+ modify_self (with_figsize (width, height')) in
            emit (SetAspect (inr aspect_ratio))
          else emit (SetAspect (inl (VStr a)))
      | a => emit (SetAspect (inl a))
      end in
  match boundary p with
  | VNone => emit (PatchSetLinewidth 0)
  | VStr b =>
      if decide (b = "rect") then emit (PatchSetLinewidth 0.5)
      else if decide (b = "round") then
        (* [self.ax.set_boundary(circle, transform=self.ax.transAxes,
           linewidth=0.5)]: [GeoAxes.set_boundary] has no parameter
           [linewidth], so that the call raises before the method runs. *)
        sraise (Raised TypeError)
      else sraise PlotError
  | _ => sraise PlotError
  end.

(** [bool(v)] for the values of [proj]: [None] and the empty string are
    false. *)
Definition proj_truthy (proj : projarg) : bool :=
  match proj with
  | ProjNone => false
  | ProjName s => negb (bool_decide (s = ""))
  | ProjCrs _ => true
  end.

(** [dict] from the items of [proj_params]; a later item replaces an
    earlier one with the same key. *)
Definition dict_of_items (items : list (string * Q)) : gmap string pyval :=
  foldl (λ d kv, <[kv.1 := VNum kv.2]> d) ∅ items.

Definition tuple_or_none (t : option (list Q)) : pyval :=
  match t with
  | Some t => VTuple t
  | None => VNone
  end.

(** [self.setmap(proj=projection, georange=georange, **proj_params)]: the
    keys [key], [projection] and [resolution] of [proj_params] bind the
    parameters of these names; the keys [self], [proj] and [georange] are
    given twice, which is a [TypeError]. *)
Definition setmap_call (projection : projarg) (georange : pyval)
    (proj_params : gmap string pyval) : PM unit :=
  match proj_params !! "self", proj_params !! "proj",
        proj_params !! "georange" with
  | None, None, None =>
      setmap (default VNone (proj_params !! "key")) projection
        (default VNone (proj_params !! "projection"))
        (default (VStr "i") (proj_params !! "resolution"))
        (<["georange" := georange]>
           (delete "key" (delete "projection"
              (delete "resolution" proj_params))))
  | _, _, _ => sraise (Raised TypeError)
  end.

(** [usemapset(mapset, proj)]; the default of [proj] is [None]. *)
Definition usemapset (m : @MapSet.t G) (proj : projarg) : PM unit :=
  do+ modify_self (with_mapset (Some m)) in
  let projection :=
    if proj_truthy proj then proj
    else match MapSet.proj m with
         | Some s => ProjName s
         | None => ProjNone
         end in
  let+ p := get_self in
  match ax p with
  | None =>
      if proj_truthy projection then
        let proj_params :=
          match MapSet.proj_params m with
          | Some (item :: items) => dict_of_items (item :: items)
          | _ => ∅
          end in
        setmap_call projection (tuple_or_none (MapSet.georange m))
          proj_params
      else sret ()
  | Some _ => sret ()
  end.

(** [usefeature(feature, facecolor, edgecolor, **kwargs)]. *)
Definition usefeature (f : feature) (facecolor edgecolor : pyval)
    (kwargs : gmap string pyval) : PM unit :=
  do+ emit (UpdateKwargs f facecolor edgecolor) in
  do+ the_ax in
  emit (AddFeature f kwargs).

(** [self.mapset.lakes] and [self.mapset.rivers]: [MapSet] has no such
    attributes. *)
Definition mapset_lakes (m : @MapSet.t G)
    : PM (option (@PartialNaturalEarthFeature.t G)) :=
  sraise AttributeError.

Definition mapset_rivers (m : @MapSet.t G)
    : PM (option (@PartialNaturalEarthFeature.t G)) :=
  sraise AttributeError.

(** [usefeature] on an attribute of the mapset that may be [None]:
    [None._kwargs] does not exist. *)
Definition usefeature_opt (f : option (@PartialNaturalEarthFeature.t G))
    (facecolor edgecolor : pyval) (kwargs : gmap string pyval) : PM unit :=
  match f with
  | Some f => usefeature (Cached f) facecolor edgecolor kwargs
  | None => sraise AttributeError
  end.

(** [x if x is not None else d[k]]. *)
Definition or_key {V} (x : option V) (d : gmap string V) (k : string)
    : PM V :=
  match x with
  | Some x => sret x
  | None => getkey d k
  end.

Definition or_color (x : pyval) (d : gmap string pyval) (k : string)
    : PM pyval :=
  match x with
  | VNone => getkey d k
  | x => sret x
  end.

(** [res if res else self.scale]. *)
Definition or_scale (res : option string) : PM string :=
  match res with
  | Some (String c r) => sret (String c r)
  | _ => let+ p := get_self in attr (scale p)
  end.

(** [drawcoastline(lw_coast, lw_river, lw_lake, color_coast, color_river,
    color_lake, res, rivers, lakes)]; the defaults are [None] seven times,
    [rivers=False] and [lakes=True]. *)
Definition drawcoastline (lw_coast lw_river lw_lake : option Q)
    (color_coast color_river color_lake : pyval) (res : option string)
    (rivers lakes : bool) : PM unit :=
  let+ p := get_self in
  let+ lw_coast := or_key lw_coast (linewidth p) "coastline" in
  let+ lw_river := or_key lw_river (linewidth p) "rivers" in
  let+ lw_lake := or_key lw_lake (linewidth p) "lakes" in
  let+ color_coast := or_color color_coast (linecolor p) "coastline" in
  let+ color_river := or_color color_river (linecolor p) "rivers" in
  let+ color_lake := or_color color_lake (linecolor p) "lakes" in
  let+ res := or_scale res in
  match mapset p with
  | Some (MapSet.mk _ _ _ (Some coastline) _ _ _ _ _ _ _ as m) =>
      do+ usefeature (Cached coastline) (VStr "none") color_coast
            {["linewidth" := VNum lw_coast]} in
      let+ lk := mapset_lakes m in
      do+ (if bool_decide (is_Some lk) || lakes then
             let+ lk := mapset_lakes m in
             usefeature_opt lk (VStr "none") color_lake
               {["linewidth" := VNum lw_lake]}
           else sret ()) in
      let+ rv := mapset_rivers m in
      if bool_decide (is_Some rv) || rivers then
        let+ rv := mapset_rivers m in
        usefeature_opt rv (VStr "none") color_river
          {["linewidth" := VNum lw_river]}
      else sret ()
  | _ =>
      do+ the_ax in
      do+ emit (AddFeature
                  (NaturalEarth "physical" "coastline" res
                     (list_to_map [("facecolor", VStr "none");
                                   ("edgecolor", color_coast)]))
                  {["linewidth" := VNum lw_coast]}) in
      do+ (if rivers then
             do+ the_ax in
             emit (AddFeature (Predefined "RIVERS" res)
                     (list_to_map [("facecolor", VStr "none");
                                   ("edgecolor", color_river);
                                   ("linewidth", VNum lw_river)]))
           else sret ()) in
      if lakes then
        do+ the_ax in
        emit (AddFeature (Predefined "LAKES" res)
                (list_to_map [("facecolor", VStr "none");
                              ("edgecolor", color_lake);
                              ("linewidth", VNum lw_lake)]))
      else sret ()
  end.

(** [drawcountry(lw, color, res)]; the defaults are [None]. *)
Definition drawcountry (lw : option Q) (color : pyval) (res : option string)
    : PM unit :=
  let+ p := get_self in
  let+ lw := or_key lw (linewidth p) "country" in
  let+ color := or_color color (linecolor p) "country" in
  let+ res := or_scale res in
  match mapset p with
  | Some (MapSet.mk _ _ _ _ (Some country) _ _ _ _ _ _) =>
      usefeature (Cached country) (VStr "none") color
        {["linewidth" := VNum lw]}
  | _ =>
      do+ the_ax in
      let+ geoms := lift_world (Reader_geometries _CountryDir) in
      emit (AddFeature
              (Shapely geoms "PlateCarree"
                 (list_to_map [("facecolor", VStr "none");
                               ("edgecolor", color)]))
              {["linewidth" := VNum lw]})
  end.

(** The colours of a style: the ocean, the land, the new line colours and
    [style_colors]. *)
Definition style_table (s : string)
    : option (string * string * gmap string pyval * list string) :=
  let lines (main minor : string) : gmap string pyval :=
    list_to_map
      [("coastline", VStr main); ("lakes", VStr main);
       ("rivers", VStr main); ("country", VStr main);
       ("parameri", VStr main); ("province", VStr minor);
       ("city", VStr minor)] in
  if decide (s = "jma") then
    Some ("#87A9D2", "#AAAAAA", lines "#666666" "#888888",
          ["#87A9D2"; "#AAAAAA"; "#666666"; "#888888"])
  else if decide (s = "bom") then
    Some ("#E6E6FF", "#E8E1C4", lines "#D0A85E" "#D0A85E",
          ["#E6E6FF"; "#E8E1C4"; "#D0A85E"])
  else if decide (s = "fnmoc") then
    Some ("#CBCBCB", "#A0522E", lines "k" "k", ["#CBCBCB"; "#A0522E"; "k"])
  else if decide (s = "blackBGRadar") then
    Some ("#000000", "#000000", <["lakes" := VStr "k"]> (lines "w" "w"),
          ["#000000"; "#000000"; "w"])
  else None.

(** [self.ax.add_feature(cfeature.NAME.with_scale(self.scale), color=c)]. *)
Definition add_predefined (name color : string) : PM unit :=
  do+ the_ax in
  let+ p := get_self in
  let+ scale := attr (scale p) in
  emit (AddFeature (Predefined name scale) {["color" := VStr color]}).

Definition add_cached (f : @PartialNaturalEarthFeature.t G) (color : string)
    : PM unit :=
  do+ the_ax in
  emit (AddFeature (Cached f) {["color" := VStr color]}).

(** [style(s)]. *)
Definition style (s : string) : PM unit :=
  match style_table s with
  | None =>
      emit (Print ("Unknown style name. Only support jma, bom, fnmoc, " +:+
                   "and blackBGRadar style."))
  | Some (ocean_color, land_color, colors, style_colors) =>
      do+ modify_self (λ p, with_linecolor (colors ∪ linecolor p) p) in
      do+ modify_self (with_style_colors (Some style_colors)) in
      let+ p := get_self in
      do+ match mapset p with
          | Some (MapSet.mk _ _ _ _ _ _ (Some ocean) _ _ _ _) =>
              add_cached ocean ocean_color
          | _ => add_predefined "OCEAN" ocean_color
          end in
      do+ match mapset p with
          | Some (MapSet.mk _ _ _ _ _ (Some land) _ _ _ _ _) =>
              add_cached land land_color
          | _ => add_predefined "LAND" land_color
          end in
      match mapset p with
      | Some m =>
          let+ lk := mapset_lakes m in
          match lk with
          | Some _ =>
              do+ the_ax in
              let+ lk := mapset_lakes m in
              match lk with
              | Some lakes =>
                  emit (AddFeature (Cached lakes)
                          {["color" := VStr ocean_color]})
              | None => sraise AttributeError
              end
          | None => add_predefined "LAKES" ocean_color
          end
      | None => add_predefined "LAKES" ocean_color
      end
  end.

(** [self.ax.add_feature(cfeature.ShapelyFeature(
    ciosr.Reader(directory).geometries(), ccrs.PlateCarree(),
    facecolor='none', edgecolor=color), linewidth=lw)]. *)
Definition add_shapefile (directory : string) (color : pyval) (lw : Q)
    : PM unit :=
  do+ the_ax in
  let+ geoms := lift_world (Reader_geometries directory) in
  emit (AddFeature
          (Shapely geoms "PlateCarree"
             (list_to_map [("facecolor", VStr "none");
                           ("edgecolor", color)]))
          {["linewidth" := VNum lw]}).

(** The paths of the shapefiles of cities and counties shipped with the
    package. *)
Variable _CN_CityDir _CN_CityTWDir _US_CityDir _CN_CountyDir : string.

(** [drawcity(lw, color)]; the defaults are [None]. *)
Definition drawcity (lw : option Q) (color : pyval) : PM unit :=
  let+ p := get_self in
  let+ lw := or_key lw (linewidth p) "city" in
  let+ color := or_color color (linecolor p) "city" in
  do+ add_shapefile _CN_CityDir color lw in
  do+ add_shapefile _CN_CityTWDir color lw in
  add_shapefile _US_CityDir color lw.

(** [drawcounty(lw, color)]; the defaults are [None]. *)
Definition drawcounty (lw : option Q) (color : pyval) : PM unit :=
  let+ p := get_self in
  let+ lw := or_key lw (linewidth p) "county" in
  let+ color := or_color color (linecolor p) "county" in
  add_shapefile _CN_CountyDir color lw.

(** The methods that [draw] calls and that are not modelled here: they
    depend on the grid of the data. *)
Variable drawprovince drawparameri : PM unit.

(** The [else] branch of [draw]: one command. *)
Definition draw_command (cmd : string) : PM unit :=
  if bool_decide (cmd = "coastline" ∨ cmd = "coastlines") then
    drawcoastline None None None VNone VNone VNone None false true
  else if bool_decide (cmd = "country" ∨ cmd = "countries") then
    drawcountry None VNone None
  else if bool_decide (cmd = "province" ∨ cmd = "provinces") then
    drawprovince
  else if bool_decide (cmd = "city" ∨ cmd = "cities") then
    drawcity None VNone
  else if bool_decide (cmd = "county" ∨ cmd = "counties") then
    drawcounty None VNone
  else if bool_decide (cmd = "parameri" ∨ cmd = "meripara") then drawparameri
  else emit (Print ("Illegal draw command: " +:+ cmd)).

(** [draw(cmd)]; [limit] is the depth of recursion that the interpreter
    still allows. *)
Fixpoint draw (limit : nat) (cmd : string) : PM unit :=
  match limit with
  | O => sraise RecursionError
  | S limit =>
      let cmd := lower cmd in
      if contains_space cmd then for_each (split cmd) (draw limit)
      else draw_command cmd
  end.

(** *** The time stamp and the notes *)

(** [self.ax.text(x, y, s, transform=self.ax.transAxes, **kwargs)] is the
    call [AxText x y s kwargs].  [_timestamp(s)]: *)
Definition _timestamp (s : string) : PM unit :=
  do+ the_ax in
  let+ p := get_self in
  let+ size := getkey (fontsize p) "timestamp" in
  emit (AxText 0 1.01 s
          (list_to_map [("fontsize", VNum size);
                        ("family", VStr (family p))])).

(** The [datetime] library.  [D] is the type of the dates;
    [strptime s] is [datetime.strptime(s, '%Y%m%d%H')], which raises on a
    string of another form; [strftime d] is
    [d.strftime('%Y/%m/%d %a %HZ')]; [add_hours d h] is
    [d + timedelta(hours=h)], which raises past the last or before the
    first year; [hour d] is [d.hour] and [replace_hour d h] is
    [d.replace(hour=h)], which raises unless [0 <= h <= 23]. *)
Context {D : Type}.
Variable strptime : string → pyexn + D.
Variable strftime : D → string.
Variable add_hours : D → Z → pyexn + D.
Variable hour : D → Z.
Variable replace_hour : D → Z → pyexn + D.

(** The result of a library call, in the monad. *)
Definition lib {A} (r : pyexn + A) : PM A :=
  match r with
  | inl e => sraise e
  | inr x => sret x
  end.

(** The arguments of [timestamp] that are modelled: [basetime] is a string
    or a date; [fcsthour] is an [int], a string, or a tuple or list of
    [int]s; [duration] is an [int] and [nearest] is [None] or an [int].
    Numbers of another type (a [float], a numpy integer), which are no
    [int] for [isinstance] and which [+] and [-] accept, are not among
    them. *)
Inductive basetime_arg : Type :=
  | BaseStr (s : string)
  | BaseTime (d : D).

Inductive fcsthour_arg : Type :=
  | FcstInt (h : Z)
  | FcstStr (s : string)
  | FcstSeq (t : list Z).

(** The [if duration: ... elif nearest: ...] of [timestamp]: the new value
    of [fcsthour]. *)
Definition timestamp_window (basetime : D) (fcsthour : fcsthour_arg)
    (duration : Z) (nearest : option Z) : PM fcsthour_arg :=
  if decide (duration ≠ 0%Z) then
    match fcsthour with
    | FcstInt f =>
        if decide (0 < duration)%Z then sret (FcstSeq [f; f + duration]%Z)
        else sret (FcstSeq [f + duration; f]%Z)
    | _ => sraise (Raised TypeError)
    end
  else
    match nearest with
    | Some n =>
        if decide (n ≠ 0%Z) then
          match fcsthour with
          | FcstInt f =>
              let+ validtime := lib (add_hours basetime (f - 1)) in
              let+ nearesttime :=
                lib (replace_hour validtime (hour validtime / n * n)) in
              sret (FcstSeq
                      [f + hour nearesttime - hour validtime - 1; f]%Z)
          | _ => sraise (Raised TypeError)
          end
        else sret fcsthour
    | None => sret fcsthour
    end.

(** The text of the time stamp, from the new value of [fcsthour]. *)
Definition timestamp_text (basetime : D) (fcsthour : fcsthour_arg)
    : PM string :=
  match fcsthour with
  | FcstInt f =>
      let+ validtime := lib (add_hours basetime f) in
      sret (strftime basetime +:+ " [+" +:+ pretty f +:+ "h] valid at " +:+
            strftime validtime)
  | FcstStr s =>
      if decide (s = "an") then sret (strftime basetime) else sret ""
  | FcstSeq [fromhour; tohour] =>
      let+ fromtime := lib (add_hours basetime fromhour) in
      let+ totime := lib (add_hours basetime tohour) in
      sret (strftime basetime +:+ " [+" +:+ pretty fromhour +:+ "~" +:+
            pretty tohour +:+ "h] valid from " +:+ strftime fromtime +:+
            " to " +:+ strftime totime)
  | FcstSeq _ => sraise (Raised ValueError)
  end.

(** [timestamp(basetime, fcsthour, duration, nearest)]; the defaults are
    [duration=0] and [nearest=None]. *)
Definition timestamp (basetime : basetime_arg) (fcsthour : fcsthour_arg)
    (duration : Z) (nearest : option Z) : PM unit :=
  let+ basetime :=
    match basetime with
    | BaseStr s => lib (strptime s)
    | BaseTime d => sret d
    end in
  let+ fcsthour := timestamp_window basetime fcsthour duration nearest in
  let+ s := timestamp_text basetime fcsthour in
  _timestamp s.

(** numpy and [str.format].  [Data] is the type of the arrays;
    [nanmax], [nanmin] and [nanmean] are the functions of numpy and
    [format_value fmt v] is [fmt.format(v)]; they can raise. *)
Context {Data : Type}.
Variable nanmax nanmin nanmean : Data → pyexn + F.
Variable format_value : string → F → pyexn + string.

(** The note of one value: ['{:s} {:s}: '.format(typestr, name) +
    fmt.format(notevalue) + ' ' + unit]. *)
Definition notestr (typestr name text unit : string) : string :=
  typestr +:+ " " +:+ name +:+ ": " +:+ text +:+ " " +:+ unit.

(** [maxminnote(data, name, unit, type, fmt)]; the defaults are [unit=''],
    [type='max'] and [fmt='{:.1f}']. *)
Definition maxminnote (data : Data) (name unit type fmt : string)
    : PM () :=
  let type := lower type in
  let+ tv :=
    if decide (type = "max") then
      let+ v := lib (nanmax data) in sret ("Max.", v)
    else if decide (type = "min") then
      let+ v := lib (nanmin data) in sret ("Min.", v)
    else if decide (type = "mean") then
      let+ v := lib (nanmean data) in sret ("Mean", v)
    else sraise PlotError in
  let+ text := lib (format_value fmt (snd tv)) in
  let notestr := notestr (fst tv) name text unit in
  let+ p := get_self in
  if decide (mmnote p ≠ "") then
    modify_self (with_mmnote (mmnote p +:+ " | " +:+ notestr))
  else modify_self (with_mmnote notestr).
End Plot.
End Plot.

(** ** Closed forms used in the statements about [Plot] *)

(** The names that [_from_map_key] knows. *)
Definition map_keys : list string :=
  ["chinaproper"; "chinamerc"; "chinalambert"; "euroasia"; "europe";
   "northpac"; "northamerica"; "northpolar"; "southpolar"].

(** The end of [setmap]: what the [boundary] of the plot leads to. *)
Definition boundary_outcome {G C F : Type} (b : pyval)
    : (pyexn + ()) * list (@Plot.call G C F) :=
  match b with
  | VNone => (inr (), [Plot.PatchSetLinewidth 0])
  | VStr b =>
      if decide (b = "rect") then (inr (), [Plot.PatchSetLinewidth 0.5])
      else if decide (b = "round") then (inl (Raised TypeError), [])
      else (inl PlotError, [])
  | _ => (inl PlotError, [])
  end.

(** ** A concrete instance, for the examples

    Geometries are axis-aligned rectangles and the spatial predicate is the
    overlap of closed rectangles; [sgeom.box] takes its corners in any
    order.  The byte codec is a lawful stand-in for [pickle]. *)

Module Rect.
Record t : Type := mk { minx : Q; miny : Q; maxx : Q; maxy : Q }.

Definition Qmin' (a b : Q) : Q := if Qle_bool a b then a else b.
Definition Qmax' (a b : Q) : Q := if Qle_bool a b then b else a.

(** [sgeom.box(x0, y0, x1, y1).intersects(g)]. *)
Definition intersects (x0 y0 x1 y1 : Q) (g : t) : bool :=
  Qle_bool (minx g) (Qmax' x0 x1) && Qle_bool (Qmin' x0 x1) (maxx g) &&
  Qle_bool (miny g) (Qmax' y0 y1) && Qle_bool (Qmin' y0 y1) (maxy g).

Definition to_tuple (g : t) : Q * Q * Q * Q :=
  (minx g, miny g, maxx g, maxy g).
Definition of_tuple (p : Q * Q * Q * Q) : t :=
  let '(a, b, c, d) := p in mk a b c d.
End Rect.

Module Codec.
(** Self-delimiting byte encodings: [get_] reads back what [put_] wrote and
    returns the bytes that follow it. *)
Class Serial (A : Type) : Type := {
  put_ : A → list Byte.byte;
  get_ : list Byte.byte → option (A * list Byte.byte);
  get_put : ∀ x rest, get_ (put_ x ++ rest)%list = Some (x, rest)
}.

Fixpoint put_pos (p : positive) : list Byte.byte :=
  match p with
  | xH => [Byte.x02]
  | xO p => Byte.x00 :: put_pos p
  | xI p => Byte.x01 :: put_pos p
  end.

Fixpoint get_pos (bs : list Byte.byte) : option (positive * list Byte.byte) :=
  match bs with
  | Byte.x02 :: rest => Some (xH, rest)
  | Byte.x00 :: bs => prod_map xO id <$> get_pos bs
  | Byte.x01 :: bs => prod_map xI id <$> get_pos bs
  | _ => None
  end.

#[global] Program Instance pos_serial : Serial positive :=
  {| put_ := put_pos; get_ := get_pos |}.
Next Obligation.
  intros p rest. induction p as [p IH|p IH|]; simpl; [| |done].
  - by rewrite IH.
  - by rewrite IH.
Qed.

(** Encoding through an injection into a type that has an encoding. *)
Program Definition inj_serial {A B} `{Serial A} (f : B → A) (g : A → B)
    (Hgf : ∀ x, g (f x) = x) : Serial B :=
  {| put_ x := put_ (f x);
     get_ bs := prod_map g id <$> get_ bs |}.
Next Obligation.
  intros A B ? f g Hgf x rest. simpl. rewrite get_put. simpl. by rewrite Hgf.
Qed.

#[global] Program Instance prod_serial {A B} `{Serial A, Serial B}
    : Serial (A * B) :=
  {| put_ p := (put_ (fst p) ++ put_ (snd p))%list;
     get_ bs := match get_ bs with
                | Some (x, bs) => match get_ bs with
                                  | Some (y, bs) => Some ((x, y), bs)
                                  | None => None
                                  end
                | None => None
                end |}.
Next Obligation.
  intros A B ?? [x y] rest. simpl. by rewrite <-app_assoc, !get_put.
Qed.

Definition put_sum {A B} `{Serial A, Serial B} (s : A + B) : list Byte.byte :=
  match s with
  | inl x => Byte.x00 :: put_ x
  | inr y => Byte.x01 :: put_ y
  end.

Definition get_sum {A B} `{Serial A, Serial B} (bs : list Byte.byte)
    : option ((A + B) * list Byte.byte) :=
  match bs with
  | Byte.x00 :: bs => prod_map inl id <$> get_ bs
  | Byte.x01 :: bs => prod_map inr id <$> get_ bs
  | _ => None
  end.

#[global] Program Instance sum_serial {A B} `{Serial A, Serial B}
    : Serial (A + B) :=
  {| put_ := put_sum; get_ := get_sum |}.
Next Obligation. intros A B ?? [x|y] rest; simpl; by rewrite get_put. Qed.

#[global] Program Instance unit_serial : Serial unit :=
  {| put_ _ := []; get_ bs := Some (tt, bs) |}.
Next Obligation. by intros []. Qed.

#[global] Instance option_serial {A} `{Serial A} : Serial (option A) :=
  inj_serial (λ o, match o with Some x => inl x | None => inr tt end)
             (λ s, match s with inl x => Some x | inr _ => None end)
             (λ o, match o with Some _ => eq_refl | None => eq_refl end).

#[global] Instance Z_serial : Serial Z :=
  inj_serial (λ z, match z with
                   | Z0 => None
                   | Zpos p => Some (inl p)
                   | Zneg p => Some (inr p)
                   end)
             (λ o, match o with
                   | None => Z0
                   | Some (inl p) => Zpos p
                   | Some (inr p) => Zneg p
                   end)
             (λ z, match z with
                   | Z0 => eq_refl | Zpos _ => eq_refl | Zneg _ => eq_refl
                   end).

#[global] Instance nat_serial : Serial nat :=
  inj_serial Pos.of_succ_nat (λ p, pred (Pos.to_nat p))
    (λ n, eq_trans (f_equal pred (SuccNat2Pos.id_succ n)) eq_refl).

#[global] Instance Q_serial : Serial Q :=
  inj_serial (λ q, (Qnum q, Qden q)) (λ p, Qmake (fst p) (snd p))
    (λ q, match q with Qmake _ _ => eq_refl end).

(** Lists: the length, then the elements. *)
Fixpoint put_elems {A} `{Serial A} (l : list A) : list Byte.byte :=
  match l with
  | [] => []
  | x :: l => (put_ x ++ put_elems l)%list
  end.

Fixpoint get_elems {A} `{Serial A} (n : nat) (bs : list Byte.byte)
    : option (list A * list Byte.byte) :=
  match n with
  | O => Some ([], bs)
  | S n => match get_ bs with
           | Some (x, bs) => prod_map (cons x) id <$> get_elems n bs
           | None => None
           end
  end.

Definition put_list {A} `{Serial A} (l : list A) : list Byte.byte :=
  (put_ (length l) ++ put_elems l)%list.

Definition get_list {A} `{Serial A} (bs : list Byte.byte)
    : option (list A * list Byte.byte) :=
  match get_ bs with
  | Some (n, bs) => get_elems n bs
  | None => None
  end.

Lemma get_put_elems {A} `{Serial A} (l : list A) (rest : list Byte.byte) :
  get_elems (length l) (put_elems l ++ rest) = Some (l, rest).
Proof.
  induction l as [|x l IH]; [done|].
  cbn [length put_elems get_elems].
  by rewrite <-app_assoc, get_put, IH.
Qed.

#[global] Program Instance list_serial {A} `{Serial A} : Serial (list A) :=
  {| put_ := put_list; get_ := get_list |}.
Next Obligation.
  intros A ? l rest. unfold put_list, get_list.
  rewrite <-app_assoc, get_put. apply get_put_elems.
Qed.

#[global] Instance ascii_serial : Serial Ascii.ascii :=
  inj_serial (λ a, Z.of_N (Ascii.N_of_ascii a))
             (λ z, Ascii.ascii_of_N (Z.to_N z))
             (λ a, eq_trans (f_equal Ascii.ascii_of_N (N2Z.id _))
                            (Ascii.ascii_N_embedding a)).

#[global] Instance string_serial : Serial string :=
  inj_serial String.list_ascii_of_string String.string_of_list_ascii
    String.string_of_list_ascii_of_string.

#[global] Instance Rect_serial : Serial Rect.t :=
  inj_serial Rect.to_tuple Rect.of_tuple
    (λ g, match g with Rect.mk _ _ _ _ => eq_refl end).

Section Codec.
Context {G : Type} `{Serial G}.

#[global] Instance PNE_serial : Serial (@PartialNaturalEarthFeature.t G) :=
  inj_serial
    (λ f : @PartialNaturalEarthFeature.t G,
       (PartialNaturalEarthFeature.category f,
           PartialNaturalEarthFeature.name f,
           PartialNaturalEarthFeature.scale f,
           PartialNaturalEarthFeature.extent f,
           PartialNaturalEarthFeature._geoms f))
    (λ '(c, n, s, e, g), PartialNaturalEarthFeature.mk c n s e g)
    (λ f, match f with
          | PartialNaturalEarthFeature.mk _ _ _ _ _ => eq_refl
          end).

#[global] Instance PSF_serial : Serial (@PartialShapelyFeature.t G) :=
  inj_serial
    (λ f : @PartialShapelyFeature.t G,
       (PartialShapelyFeature._crs f,
           PartialShapelyFeature.extent f,
           PartialShapelyFeature._geoms f))
    (λ '(c, e, g), PartialShapelyFeature.mk c e g)
    (λ f, match f with PartialShapelyFeature.mk _ _ _ => eq_refl end).

#[global] Instance MapSet_serial : Serial (@MapSet.t G) :=
  inj_serial
    (λ m : @MapSet.t G,
       (MapSet.proj m, MapSet.georange m, MapSet.scale m,
           MapSet.coastline m, MapSet.country m, MapSet.land m,
           MapSet.ocean m, MapSet.province m, MapSet.city m,
           MapSet.county m, MapSet.proj_params m))
    (λ '(p, g, s, co, cn, l, o, pr, ci, cy, pp),
       MapSet.mk p g s co cn l o pr ci cy pp)
    (λ m, match m with
          | MapSet.mk _ _ _ _ _ _ _ _ _ _ _ => eq_refl
          end).

#[global] Instance pyobj_serial : Serial (@MapSet.pyobj G) :=
  inj_serial
    (λ o : @MapSet.pyobj G,
       match o with
          | MapSet.PyMapSet m => inl m
          | MapSet.PyInt n => inr (Some n)
          | MapSet.PyNone => inr None
          end)
    (λ s, match s with
          | inl m => MapSet.PyMapSet m
          | inr (Some n) => MapSet.PyInt n
          | inr None => MapSet.PyNone
          end)
    (λ o, match o with
          | MapSet.PyMapSet _ => eq_refl
          | MapSet.PyInt _ => eq_refl
          | MapSet.PyNone => eq_refl
          end).

(** The stand-in for [pickle.dumps] and [pickle.loads]: a stream decodes
    when it is the encoding of an object with nothing after it. *)
Definition dumps (obj : @MapSet.pyobj G) : list Byte.byte := put_ obj.

Definition loads (bs : list Byte.byte) : option (@MapSet.pyobj G) :=
  match get_ bs with
  | Some (obj, []) => Some obj
  | _ => None
  end.
End Codec.
End Codec.

Module Example.
(** Rectangles around the antimeridian region of longitudes 170 to 200 and
    latitudes 0 to 30, and two elsewhere. *)
Definition g_both : Rect.t := Rect.mk (-180) 10 180 20.
Definition g_west : Rect.t := Rect.mk 172 5 178 8.
Definition g_east : Rect.t := Rect.mk (-175) 12 (-165) 18.
Definition g_asia : Rect.t := Rect.mk 115 6 125 9.
Definition g_north : Rect.t := Rect.mk 100 40 120 50.

Definition coastlines : list Rect.t :=
  [g_asia; g_both; g_north; g_west; g_east].

Definition borders : list Rect.t := [g_north; g_asia].

Definition land : list Rect.t := [g_asia; g_west; g_east].

Definition world : World Rect.t :=
  {| natural_earth_paths :=
       list_to_map
         [(("50m", "physical", "coastline"), "ne_50m_coastline.shp");
          (("50m", "cultural", "admin_0_boundary_lines_land"),
           "ne_50m_admin_0_boundary_lines_land.shp");
          (("50m", "physical", "land"), "ne_50m_land.shp")];
     shapefiles :=
       list_to_map
         [("ne_50m_coastline.shp", coastlines);
          ("ne_50m_admin_0_boundary_lines_land.shp", borders);
          ("ne_50m_land.shp", land)];
     files :=
       list_to_map
         [("old.pkl", [Byte.x01; Byte.x00; Byte.x01; Byte.x01]);
          ("garbage.pkl", [Byte.xff; Byte.x00])];
     open_handles := 0 |}.

(** A small [MapSet] to be saved. *)
Definition mapset : @MapSet.t Rect.t :=
  MapSet.mk (Some "P") (Some [15; 35; 110; 135]%Q) (Some "50m")
    (Some (PartialNaturalEarthFeature.mk "physical" "coastline" "50m"
             [110; 135; 15; 35]%Q [g_north]))
    None None None None None None None.
End Example.

(** A stand-in for the plotting library: every projection can be made and
    is known by its name; the floating-point numbers are rationals. *)
Module PlotExample.
Definition ccrs_new (name : string) (kwargs : gmap string pyval)
    : pyexn + string :=
  inr name.

Definition crs_name (c : string) : string := c.

Definition float_of (q : Q) : Q := q.

Definition aspect_auto (height deltalon width deltalat : Q) : Q :=
  ((height * deltalon) / (width * deltalat))%Q.

Definition aspect_cos (midlat : Q) : Q := 1.

Definition cos_height (width deltalat deltalon ratio : Q) : Q :=
  (width * deltalat / deltalon * ratio)%Q.

(** [MapSet.from_natural_earth(georange=(5, 35, 110, 135))] on the example
    world. *)
Definition mapset : @MapSet.t Rect.t :=
  MapSet.mk (Some "P") (Some [5; 35; 110; 135]%Q) (Some "50m")
    (Some (PartialNaturalEarthFeature.mk "physical" "coastline" "50m"
             [110; 135; 5; 35]%Q [Example.g_asia; Example.g_both]))
    (Some (PartialNaturalEarthFeature.mk "cultural"
             "admin_0_boundary_lines_land" "50m"
             [110; 135; 5; 35]%Q [Example.g_asia]))
    None None None None None None.

(** [Plot()], and [Plot(boundary='circle')]. *)
Definition new_plot (boundary : pyval) : @Plot.state Rect.t string Q :=
  Plot.mkState (Plot.__init__ float_of None 180 VNone false boundary) []
    Example.world.

(** The plot after [usemapset(mapset)]. *)
Definition plot_with_mapset : @Plot.state Rect.t string Q :=
  (Plot.usemapset ccrs_new crs_name aspect_auto aspect_cos cos_height
     mapset Plot.ProjNone (new_plot VNone)).2.

(** Dates counted in hours from a midnight, written as that number; no
    string is a date. *)
Definition strptime (s : string) : pyexn + Z := inl (Raised ValueError).

Definition strftime (d : Z) : string := pretty d.

Definition add_hours (d h : Z) : pyexn + Z := inr (d + h)%Z.

Definition hour (d : Z) : Z := (d mod 24)%Z.

Definition replace_hour (d h : Z) : pyexn + Z :=
  if decide (0 ≤ h < 24)%Z then inr (d - d mod 24 + h)%Z
  else inl (Raised ValueError).

(** Arrays as lists of numbers without NaN; a value is written as a
    fraction whatever the format. *)
Definition nanmax (data : list Q) : pyexn + Q :=
  match data with
  | [] => inl (Raised ValueError)
  | x :: l => inr (foldr (λ a b, if Qle_bool b a then a else b) x l)
  end.

Definition nanmin (data : list Q) : pyexn + Q :=
  match data with
  | [] => inl (Raised ValueError)
  | x :: l => inr (foldr (λ a b, if Qle_bool a b then a else b) x l)
  end.

Definition nanmean (data : list Q) : pyexn + Q :=
  match data with
  | [] => inl (Raised ValueError)
  | _ => inr (foldr Qplus 0 data / inject_Z (Z.of_nat (length data)))%Q
  end.

Definition format_value (fmt : string) (v : Q) : pyexn + string :=
  inr (pretty (Qnum (Qred v)) +:+ "/" +:+ pretty (Z.pos (Qden (Qred v)))).
End PlotExample.


(** * Properties *)

(** ** Numbers *)

Lemma Qltb_true (x y : Q) : Qltb x y = true ↔ (x < y)%Q.
Proof.
  unfold Qltb. rewrite negb_true_iff, <-not_true_iff_false, Qle_bool_iff.
  split; [apply Qnot_le_lt | apply Qlt_not_le].
Qed.

Lemma Qltb_false (x y : Q) : Qltb x y = false ↔ ¬ (x < y)%Q.
Proof. rewrite <-Qltb_true. symmetry. apply not_true_iff_false. Qed.

#[local] Instance Qlt_decision (x y : Q) : Decision (x < y)%Q.
Proof.
  destruct (Qlt_le_dec x y) as [Hlt|Hle]; [by left|right].
  by apply Qle_not_lt.
Defined.

(** ** Running the constructors *)

Section Build.
Context {G : Type}.
Variable box_intersects : Q → Q → Q → Q → G → bool.

Abbreviation PNE_init := (PartialNaturalEarthFeature.__init__ box_intersects).
Abbreviation PSF_init := (PartialShapelyFeature.__init__ box_intersects).

(** The constructor of [PartialNaturalEarthFeature] on a [georange] of four
    numbers and a dataset that exists: it returns, with the world
    unchanged. *)
Lemma PNE_init_run (category name scale path : string)
    (latMin latMax lonMin lonMax : Q) (all : list G) (w : World G) :
  natural_earth_paths w !! (scale, category, name) = Some path →
  shapefiles w !! path = Some all →
  PNE_init category name scale (Some [latMin; latMax; lonMin; lonMax]) w =
    (inr (PartialNaturalEarthFeature.mk category name scale
            [lonMin; lonMax; latMin; latMax]
            (region_matches box_intersects lonMin lonMax latMin latMax all)),
     w).
Proof.
  intros Hpath Hshp.
  unfold PartialNaturalEarthFeature.__init__, rotate_georange,
    PartialNaturalEarthFeature.make_partial, natural_earth, Reader_geometries,
    bind, get, ret.
  cbn -[Qltb Qminus]. rewrite Hpath. cbn -[Qltb Qminus]. rewrite Hshp.
  unfold region_matches, straddles, bind, getitem, ret,
    Feature.intersecting_geometries, PartialNaturalEarthFeature.set_geoms,
    PartialNaturalEarthFeature.geometries.
  cbn -[Qltb Qminus].
  destruct (Qltb lonMin 180); cbn -[Qltb Qminus]; [|done].
  by destruct (Qltb 180 lonMax).
Qed.

(** The same for [PartialShapelyFeature], on the geometries it is given. *)
Lemma PSF_init_run (crs : string) (latMin latMax lonMin lonMax : Q)
    (all : list G) (w : World G) :
  PSF_init all crs (Some [latMin; latMax; lonMin; lonMax]) w =
    (inr (PartialShapelyFeature.mk crs [lonMin; lonMax; latMin; latMax]
            (region_matches box_intersects lonMin lonMax latMin latMax all)),
     w).
Proof.
  unfold PartialShapelyFeature.__init__, rotate_georange,
    PartialShapelyFeature.make_partial, region_matches, straddles, bind,
    getitem, ret, Feature.intersecting_geometries,
    PartialShapelyFeature.geometries.
  cbn -[Qltb Qminus].
  destruct (Qltb lonMin 180); cbn -[Qltb Qminus]; [|done].
  by destruct (Qltb 180 lonMax).
Qed.

Lemma region_matches_straddling (lonMin lonMax latMin latMax : Q)
    (all : list G) :
  (lonMin < 180)%Q → (180 < lonMax)%Q →
  region_matches box_intersects lonMin lonMax latMin latMax all =
    (List.filter (box_intersects lonMin latMin 180 latMax) all ++
     List.filter (box_intersects (-180) latMin (lonMax - 360) latMax) all)%list.
Proof.
  intros H1%Qltb_true H2%Qltb_true. unfold region_matches.
  by rewrite H1, H2.
Qed.

Lemma region_matches_ordinary (lonMin lonMax latMin latMax : Q)
    (all : list G) :
  ¬ ((lonMin < 180)%Q ∧ (180 < lonMax)%Q) →
  region_matches box_intersects lonMin lonMax latMin latMax all =
    List.filter (box_intersects lonMin latMin lonMax latMax) all.
Proof.
  intros Hn. unfold region_matches.
  destruct (Qltb lonMin 180) eqn:H1; [|done].
  destruct (Qltb 180 lonMax) eqn:H2; [|done].
  apply Qltb_true in H1, H2. tauto.
Qed.

Lemma elem_of_List_filter (f : G → bool) (l : list G) (g : G) :
  g ∈ List.filter f l ↔ g ∈ l ∧ f g = true.
Proof. rewrite !list_elem_of_In. apply List.filter_In. Qed.

Lemma sublist_List_filter (f : G → bool) (l : list G) :
  List.filter f l `sublist_of` l.
Proof.
  induction l as [|x l IH]; simpl; [constructor|].
  destruct (f x); by constructor.
Qed.

Lemma NoDup_List_filter (f : G → bool) (l : list G) :
  NoDup l → NoDup (List.filter f l).
Proof. intros Hl. exact (sublist_NoDup _ _ Hl (sublist_List_filter f l)). Qed.

(** An element of both passes is at two positions of their concatenation. *)
Lemma twice_in_app (l1 l2 : list G) (g : G) :
  g ∈ l1 → g ∈ l2 →
  ∃ i j, (i < j)%nat ∧ (l1 ++ l2) !! i = Some g ∧ (l1 ++ l2) !! j = Some g.
Proof.
  intros [i Hi]%list_elem_of_lookup [j Hj]%list_elem_of_lookup.
  exists i, (length l1 + j)%nat. split_and!.
  - apply lookup_lt_Some in Hi. lia.
  - by apply lookup_app_l_Some.
  - by rewrite lookup_app_r, Nat.add_comm, Nat.add_sub by lia.
Qed.

(** ** The two passes of a region that straddles the antimeridian *)

(** C1. For a region with [lonMin < 180 < lonMax], both constructors return
    a feature whose stored sequence is the matches of the sub-region
    [[lonMin, 180]] followed by the matches of the sub-region
    [[-180, lonMax - 360]], each pass run on the full collection with the
    same latitude bounds; nothing is removed, so a geometry of the
    collection that overlaps both sub-regions is at two positions of the
    stored sequence. *)
Theorem straddling_build_concatenates_two_passes
    (category name scale path crs : string)
    (latMin latMax lonMin lonMax : Q) (all : list G) (w : World G) :
  natural_earth_paths w !! (scale, category, name) = Some path →
  shapefiles w !! path = Some all →
  (lonMin < 180)%Q → (180 < lonMax)%Q →
  let pass1 := List.filter (box_intersects lonMin latMin 180 latMax) all in
  let pass2 :=
    List.filter (box_intersects (-180) latMin (lonMax - 360) latMax) all in
  PNE_init category name scale (Some [latMin; latMax; lonMin; lonMax]) w =
    (inr (PartialNaturalEarthFeature.mk category name scale
            [lonMin; lonMax; latMin; latMax] (pass1 ++ pass2)), w) ∧
  PSF_init all crs (Some [latMin; latMax; lonMin; lonMax]) w =
    (inr (PartialShapelyFeature.mk crs [lonMin; lonMax; latMin; latMax]
            (pass1 ++ pass2)), w) ∧
  ∀ g, g ∈ all →
    box_intersects lonMin latMin 180 latMax g = true →
    box_intersects (-180) latMin (lonMax - 360) latMax g = true →
    ∃ i j, (i < j)%nat ∧
      (pass1 ++ pass2) !! i = Some g ∧ (pass1 ++ pass2) !! j = Some g.
Proof.
  intros Hpath Hshp Hlo Hhi pass1 pass2. split_and!.
  - rewrite (PNE_init_run _ _ _ path _ _ _ _ all) by done.
    by rewrite region_matches_straddling.
  - rewrite PSF_init_run. by rewrite region_matches_straddling.
  - intros g Hg H1 H2.
    apply twice_in_app; apply elem_of_List_filter; by split.
Qed.

(** ** The single pass of an ordinary region *)

(** C2. For a region that does not straddle the antimeridian, both
    constructors return a feature whose stored sequence is the result of one
    pass: the geometries of the full collection that overlap the region, in
    the order of the collection; a geometry that does not overlap the region
    is not in it. *)
Theorem ordinary_build_single_pass
    (category name scale path crs : string)
    (latMin latMax lonMin lonMax : Q) (all : list G) (w : World G) :
  natural_earth_paths w !! (scale, category, name) = Some path →
  shapefiles w !! path = Some all →
  ¬ ((lonMin < 180)%Q ∧ (180 < lonMax)%Q) →
  let matches := List.filter (box_intersects lonMin latMin lonMax latMax) all in
  PNE_init category name scale (Some [latMin; latMax; lonMin; lonMax]) w =
    (inr (PartialNaturalEarthFeature.mk category name scale
            [lonMin; lonMax; latMin; latMax] matches), w) ∧
  PSF_init all crs (Some [latMin; latMax; lonMin; lonMax]) w =
    (inr (PartialShapelyFeature.mk crs [lonMin; lonMax; latMin; latMax]
            matches), w) ∧
  (∀ g, g ∈ matches ↔
        g ∈ all ∧ box_intersects lonMin latMin lonMax latMax g = true) ∧
  matches `sublist_of` all.
Proof.
  intros Hpath Hshp Hord matches. split_and!.
  - rewrite (PNE_init_run _ _ _ path _ _ _ _ all) by done.
    by rewrite region_matches_ordinary.
  - rewrite PSF_init_run. by rewrite region_matches_ordinary.
  - intros g. apply elem_of_List_filter.
  - apply sublist_List_filter.
Qed.

(** ** What the stored sequence satisfies *)

(** C4, as the code has it.  Every stored geometry is a geometry of the
    collection that overlaps the region when the region is ordinary, and one
    of the two sub-regions when the region straddles the antimeridian.  The
    split removes no duplicate: a geometry of the collection that overlaps
    both sub-regions of a straddling region is stored twice, at two
    positions of the stored sequence; the stored sequence is free of
    duplicates when the collection is and no geometry overlaps both
    sub-regions of a straddling region. *)
Theorem stored_geometries_overlap_region_or_half
    (category name scale path crs : string)
    (latMin latMax lonMin lonMax : Q) (all : list G) (w : World G) :
  natural_earth_paths w !! (scale, category, name) = Some path →
  shapefiles w !! path = Some all →
  ∃ stored,
    PNE_init category name scale (Some [latMin; latMax; lonMin; lonMax]) w =
      (inr (PartialNaturalEarthFeature.mk category name scale
              [lonMin; lonMax; latMin; latMax] stored), w) ∧
    PSF_init all crs (Some [latMin; latMax; lonMin; lonMax]) w =
      (inr (PartialShapelyFeature.mk crs [lonMin; lonMax; latMin; latMax]
              stored), w) ∧
    (∀ g, g ∈ stored →
       g ∈ all ∧
       ((¬ ((lonMin < 180)%Q ∧ (180 < lonMax)%Q) ∧
         box_intersects lonMin latMin lonMax latMax g = true) ∨
        (((lonMin < 180)%Q ∧ (180 < lonMax)%Q) ∧
         (box_intersects lonMin latMin 180 latMax g = true ∨
          box_intersects (-180) latMin (lonMax - 360) latMax g = true)))) ∧
    ((lonMin < 180)%Q → (180 < lonMax)%Q →
     ∀ g, g ∈ all →
       box_intersects lonMin latMin 180 latMax g = true →
       box_intersects (-180) latMin (lonMax - 360) latMax g = true →
       ∃ i j, (i < j)%nat ∧ stored !! i = Some g ∧ stored !! j = Some g) ∧
    (NoDup all →
     ((lonMin < 180)%Q → (180 < lonMax)%Q →
      ∀ g, g ∈ all →
        box_intersects lonMin latMin 180 latMax g = true →
        box_intersects (-180) latMin (lonMax - 360) latMax g = true →
        False) →
     NoDup stored).
Proof.
  intros Hpath Hshp.
  exists (region_matches box_intersects lonMin lonMax latMin latMax all).
  split_and!.
  - by apply PNE_init_run with path.
  - apply PSF_init_run.
  - intros g Hg.
    destruct (decide ((lonMin < 180)%Q ∧ (180 < lonMax)%Q)) as [[H1 H2]|Hn].
    + rewrite region_matches_straddling in Hg by done.
      apply elem_of_app in Hg as [Hg|Hg];
        apply elem_of_List_filter in Hg as [Hin Hb]; split; auto.
    + rewrite region_matches_ordinary in Hg by done.
      apply elem_of_List_filter in Hg as [Hin Hb]. split; auto.
  - intros H1 H2 g Hg Hb1 Hb2.
    rewrite region_matches_straddling by done.
    apply twice_in_app; apply elem_of_List_filter; by split.
  - intros Hnd Hboth.
    destruct (decide ((lonMin < 180)%Q ∧ (180 < lonMax)%Q)) as [[H1 H2]|Hn].
    + rewrite region_matches_straddling by done.
      apply list.NoDup_app. split_and!; [by apply NoDup_List_filter| |
                                    by apply NoDup_List_filter].
      intros g [Hin Hb1]%elem_of_List_filter [_ Hb2]%elem_of_List_filter.
      by apply (Hboth H1 H2 g).
    + rewrite region_matches_ordinary by done. by apply NoDup_List_filter.
Qed.

(** ** No validation of the region *)

(** C5, as the code has it.  The constructors do not validate the region:
    for any four numbers, also with [latMin >= latMax] or
    [lonMin >= lonMax], and a dataset that exists, they return a feature
    that stores these bounds and the matches of the pass or passes run on
    them. *)
Theorem build_does_not_validate_region
    (category name scale path crs : string)
    (latMin latMax lonMin lonMax : Q) (all : list G) (w : World G) :
  natural_earth_paths w !! (scale, category, name) = Some path →
  shapefiles w !! path = Some all →
  PNE_init category name scale (Some [latMin; latMax; lonMin; lonMax]) w =
    (inr (PartialNaturalEarthFeature.mk category name scale
            [lonMin; lonMax; latMin; latMax]
            (region_matches box_intersects lonMin lonMax latMin latMax all)),
     w) ∧
  PSF_init all crs (Some [latMin; latMax; lonMin; lonMax]) w =
    (inr (PartialShapelyFeature.mk crs [lonMin; lonMax; latMin; latMax]
            (region_matches box_intersects lonMin lonMax latMin latMax all)),
     w).
Proof.
  intros Hpath Hshp. split; [by apply PNE_init_run with path|].
  apply PSF_init_run.
Qed.
End Build.

(** ** The constructors only read the world *)

Section ReadOnly.
Context {G : Type}.
Variable box_intersects : Q → Q → Q → Q → G → bool.

Abbreviation PNE_init := (PartialNaturalEarthFeature.__init__ box_intersects).
Abbreviation PSF_init := (PartialShapelyFeature.__init__ box_intersects).

Lemma read_only_ret {A} (x : A) : read_only (ret x : M G A).
Proof. by intros w. Qed.

Lemma read_only_raise {A} (e : exn) : read_only (raise e : M G A).
Proof. by intros w. Qed.

Lemma read_only_get : read_only (get : M G (World G)).
Proof. by intros w. Qed.

Lemma read_only_bind {A B} (c : M G A) (k : A → M G B) :
  read_only c → (∀ x, read_only (k x)) → read_only (bind c k).
Proof.
  intros Hc Hk w. unfold bind. specialize (Hc w).
  destruct (c w) as [[e|x] w']; simpl in *; [done|].
  by rewrite Hk.
Qed.

Ltac read_only_step :=
  first
    [ apply read_only_ret
    | apply read_only_raise
    | apply read_only_get
    | apply read_only_bind; [|intros ?]
    | match goal with
      | |- read_only (if ?b then _ else _) => destruct b
      | |- read_only (match ?x with _ => _ end) => destruct x
      end ].

Lemma read_only_getitem (t : list Q) (i : nat) :
  read_only (getitem t i : M G Q).
Proof. unfold getitem. repeat read_only_step. Qed.

Lemma read_only_rotate_georange (georange : option (list Q)) :
  read_only (rotate_georange georange : M G (list Q)).
Proof. unfold rotate_georange. repeat read_only_step. Qed.

Lemma read_only_straddles (extent : list Q) :
  read_only (straddles extent : M G bool).
Proof.
  unfold straddles.
  repeat first [apply read_only_getitem | read_only_step].
Qed.

Lemma read_only_natural_earth (resolution category name : string) :
  read_only (natural_earth resolution category name : M G string).
Proof. unfold natural_earth. repeat read_only_step. Qed.

Lemma read_only_Reader_geometries (path : string) :
  read_only (Reader_geometries path : M G (list G)).
Proof. unfold Reader_geometries. repeat read_only_step. Qed.

Lemma read_only_Feature_intersecting_geometries (geoms : list G)
    (extent : list Q) :
  read_only (Feature.intersecting_geometries box_intersects geoms extent).
Proof.
  unfold Feature.intersecting_geometries.
  repeat first [apply read_only_getitem | read_only_step].
Qed.

Ltac read_only_auto :=
  repeat first
    [ apply read_only_getitem
    | apply read_only_rotate_georange
    | apply read_only_straddles
    | apply read_only_natural_earth
    | apply read_only_Reader_geometries
    | apply read_only_Feature_intersecting_geometries
    | read_only_step ].

Lemma read_only_PNE_init (category name scale : string)
    (georange : option (list Q)) :
  read_only (PNE_init category name scale georange).
Proof.
  unfold PartialNaturalEarthFeature.__init__,
    PartialNaturalEarthFeature.make_partial.
  read_only_auto.
Qed.

Lemma read_only_PSF_init (geoms : list G) (crs : string)
    (georange : option (list Q)) :
  read_only (PSF_init geoms crs georange).
Proof.
  unfold PartialShapelyFeature.__init__, PartialShapelyFeature.make_partial.
  read_only_auto.
Qed.

(** C7. The constructors are functions of their arguments and of the world
    they read, and they leave that world, the upstream collections
    included, as it was: a second call with the same arguments, made after
    the first, returns the same result (the same geometries in the same
    order, or the same exception). *)
Theorem build_deterministic_and_read_only
    (category name scale crs : string) (georange : option (list Q))
    (geoms : list G) (w : World G) :
  let first := PNE_init category name scale georange w in
  let second := PNE_init category name scale georange (snd first) in
  let first' := PSF_init geoms crs georange w in
  let second' := PSF_init geoms crs georange (snd first') in
  (snd first = w ∧ shapefiles (snd first) = shapefiles w ∧
   fst second = fst first ∧ snd second = w) ∧
  (snd first' = w ∧ fst second' = fst first' ∧ snd second' = w).
Proof.
  intros first second first' second'.
  assert (snd first = w) as H1 by apply read_only_PNE_init.
  assert (snd first' = w) as H1' by apply read_only_PSF_init.
  subst second second'. rewrite H1, H1'. by split_and!.
Qed.

(** ** Queries *)

(** C9. [intersecting_geometries] of both partial features ignores its
    extent: whatever the two extents, it yields the same sequence, the one
    stored in [_geoms] by the constructor.  It does not take the spatial
    predicate at all. *)
Theorem intersecting_geometries_ignores_extent
    (ne : @PartialNaturalEarthFeature.t G) (sf : @PartialShapelyFeature.t G)
    (e1 e2 : list Q) :
  PartialNaturalEarthFeature.intersecting_geometries ne e1 =
    PartialNaturalEarthFeature.intersecting_geometries ne e2 ∧
  PartialNaturalEarthFeature.intersecting_geometries ne e1 =
    PartialNaturalEarthFeature._geoms ne ∧
  PartialShapelyFeature.intersecting_geometries sf e1 =
    PartialShapelyFeature.intersecting_geometries sf e2 ∧
  PartialShapelyFeature.intersecting_geometries sf e1 =
    PartialShapelyFeature._geoms sf.
Proof. done. Qed.
End ReadOnly.

(** ** [MapSet.from_natural_earth] *)

Section FromNaturalEarth.
Context {G : Type}.
Variable box_intersects : Q → Q → Q → Q → G → bool.

Abbreviation PNE_init := (PartialNaturalEarthFeature.__init__ box_intersects).

(** One call of the constructor inside [from_natural_earth]: its result, in
    a world that it does not change. *)
Lemma PNE_init_cases (category name scale : string)
    (georange : option (list Q)) (w : World G) :
  PNE_init category name scale georange w =
    (fst (PNE_init category name scale georange w), w).
Proof.
  rewrite <-(read_only_PNE_init box_intersects category name scale georange w)
    at 3.
  by destruct (PNE_init category name scale georange w).
Qed.

(** C10. With the default flags ([coastline=True], [country=True],
    [land=False], [ocean=False]), a [georange] of four numbers and the two
    datasets present, [from_natural_earth] returns a [MapSet] whose
    [coastline] and [country] are the partial features built for that
    [georange] from ['physical'/'coastline'] and
    ['cultural'/'admin_0_boundary_lines_land'] at the given scale, and whose
    [land] and [ocean] are [None].  Whatever the flags, a returned [MapSet]
    has [province], [city] and [county] equal to [None], and [land] or
    [ocean] is [None] unless its flag is [True], in which case it is the
    feature built from ['physical'/'land'] or ['physical'/'ocean']. *)
Theorem from_natural_earth_default_flags
    (scale path_c path_k : string) (proj : option string)
    (proj_params : option (list (string * Q)))
    (latMin latMax lonMin lonMax : Q) (all_c all_k : list G) (w : World G) :
  natural_earth_paths w !! (scale, "physical", "coastline") = Some path_c →
  shapefiles w !! path_c = Some all_c →
  natural_earth_paths w !! (scale, "cultural", "admin_0_boundary_lines_land")
    = Some path_k →
  shapefiles w !! path_k = Some all_k →
  let georange := Some [latMin; latMax; lonMin; lonMax] in
  (∃ f_c f_k,
     PNE_init "physical" "coastline" scale georange w = (inr f_c, w) ∧
     PNE_init "cultural" "admin_0_boundary_lines_land" scale georange w =
       (inr f_k, w) ∧
     MapSet.from_natural_earth box_intersects georange scale proj
         true true false false proj_params w =
       (inr (MapSet.mk proj georange (Some scale) (Some f_c) (Some f_k)
               None None None None None proj_params), w)) ∧
  (∀ georange' scale' proj' (coastline country land ocean : bool)
     proj_params' w' m w'',
     MapSet.from_natural_earth box_intersects georange' scale' proj'
         coastline country land ocean proj_params' w' = (inr m, w'') →
     MapSet.province m = None ∧ MapSet.city m = None ∧
     MapSet.county m = None ∧
     (if land then
        ∃ f, MapSet.land m = Some f ∧
             fst (PNE_init "physical" "land" scale' georange' w') = inr f
      else MapSet.land m = None) ∧
     (if ocean then
        ∃ f, MapSet.ocean m = Some f ∧
             fst (PNE_init "physical" "ocean" scale' georange' w') = inr f
      else MapSet.ocean m = None)).
Proof.
  intros Hpc Hsc Hpk Hsk georange. split.
  - eexists _, _. split_and!.
    + by apply PNE_init_run with path_c.
    + by apply PNE_init_run with path_k.
    + unfold MapSet.from_natural_earth, bind, ret. subst georange.
      rewrite (PNE_init_run _ _ _ _ path_c _ _ _ _ all_c) by done.
      by rewrite (PNE_init_run _ _ _ _ path_k _ _ _ _ all_k) by done.
  - intros georange' scale' proj' coastline country land ocean proj_params'
      w' m w''.
    unfold MapSet.from_natural_earth, bind, ret.
    destruct coastline, country, land, ocean;
      repeat match goal with
        | |- context [PNE_init ?c ?n ?s ?g ?w0] =>
            rewrite (PNE_init_cases c n s g w0);
            destruct (fst (PNE_init c n s g w0)) as [?|?] eqn:?
        end;
      intros [= <- <-]; simpl; eauto 10; try done.
Qed.
End FromNaturalEarth.

(** ** Saving and loading *)

Section Persistence.
Context {G : Type}.
Variable pickle_dumps : @MapSet.pyobj G → list Byte.byte.
Variable pickle_loads : list Byte.byte → option (@MapSet.pyobj G).

Abbreviation save := (MapSet.save pickle_dumps).
Abbreviation load := (MapSet.load pickle_loads).

(** [load] in closed form: the three exits. *)
Lemma load_run (filename : string) (w : World G) :
  load filename w =
    match files w !! filename with
    | None => (inl FileNotFoundError, w)
    | Some content =>
        match pickle_loads content with
        | None => (inl UnpicklingError, w)
        | Some obj => (inr obj, w)
        end
    end.
Proof.
  unfold MapSet.load, open_rb, bind, get, put, ret, raise.
  destruct (files w !! filename) as [content|]; [|done].
  unfold try_finally, MapSet.pickle_load, close, bind, get, put, ret, raise.
  destruct (pickle_loads content); simpl; by destruct w.
Qed.

(** [save] in closed form: the three behaviours of the operating system. *)
Lemma save_run (io : io_fault) (self : @MapSet.t G) (filename : string)
    (w : World G) :
  save io self filename w =
    match io with
    | NoFault =>
        (inr (),
         set_files w
           (<[filename := pickle_dumps (MapSet.PyMapSet self)]> (files w))
           (open_handles w))
    | OpenFails => (inl OSError, w)
    | WriteFailsAfter k =>
        (inl OSError,
         set_files w
           (<[filename := take k (pickle_dumps (MapSet.PyMapSet self))]>
              (files w))
           (open_handles w))
    end.
Proof.
  unfold MapSet.save, open_wb, try_finally, MapSet.pickle_dump, write, close,
    bind, get, put, ret, raise.
  destruct io; simpl; [|done|];
    by rewrite lookup_insert_eq, insert_insert_eq.
Qed.

(** C3. When [pickle.loads] inverts [pickle.dumps], a [MapSet] that [save]
    wrote is what [load] returns from the same path: the same object, so the
    same [georange], the same features with the same category, name and
    scale, and the same geometry sequences in the same order. *)
Theorem load_save_roundtrip (io : io_fault) (self : @MapSet.t G)
    (filename : string) (w : World G) :
  (∀ obj, pickle_loads (pickle_dumps obj) = Some obj) →
  fst (save io self filename w) = inr () →
  let w' := snd (save io self filename w) in
  load filename w' = (inr (MapSet.PyMapSet self), w').
Proof.
  intros Hpickle Hsaved w'. subst w'. revert Hsaved.
  rewrite save_run, load_run. destruct io; simpl; [|done..].
  intros _. by rewrite lookup_insert_eq, Hpickle.
Qed.

(** C6, as the code has it.  [save] writes in place: it opens the target
    path, which truncates the file, and streams the pickle into it; there
    is no temporary file.  When the file cannot be opened nothing changes;
    when the write fails after [k] bytes the file holds the first [k] bytes
    of the new content and the previous content is gone; when the write
    completes the file holds the new content.  In the three cases the
    handle is closed and no other file is touched. *)
Theorem save_writes_in_place (io : io_fault) (self : @MapSet.t G)
    (filename : string) (w : World G) :
  let new := pickle_dumps (MapSet.PyMapSet self) in
  let w' := snd (save io self filename w) in
  match io with
  | NoFault =>
      fst (save io self filename w) = inr () ∧
      files w' !! filename = Some new
  | OpenFails =>
      fst (save io self filename w) = inl OSError ∧
      files w' !! filename = files w !! filename
  | WriteFailsAfter k =>
      fst (save io self filename w) = inl OSError ∧
      files w' !! filename = Some (take k new)
  end ∧
  open_handles w' = open_handles w ∧
  (∀ other, other ≠ filename → files w' !! other = files w !! other) ∧
  natural_earth_paths w' = natural_earth_paths w ∧
  shapefiles w' = shapefiles w.
Proof.
  intros new w'. subst new w'. rewrite save_run.
  destruct io; simpl; split_and!; try done;
    try apply lookup_insert_eq; intros other Hne; by apply lookup_insert_ne.
Qed.

(** C8, as the code has it.  [load] raises [FileNotFoundError] when no
    file exists at the path, and the unpickling error when the bytes at the
    path are not a stream that [pickle.loads] decodes; it returns no object
    in these two cases.  These are its only failures: it does not check
    what the stream decodes to, and returns the decoded object whatever it
    is, so that the pickle of an object that is no [MapSet], an integer or
    [None], is loaded without an error.  The world is as it was in every
    case. *)
Theorem load_fails_only_on_missing_or_undecodable (filename : string)
    (w : World G) :
  (files w !! filename = None →
   load filename w = (inl FileNotFoundError, w)) ∧
  (∀ content,
     files w !! filename = Some content → pickle_loads content = None →
     load filename w = (inl UnpicklingError, w)) ∧
  (∀ content obj,
     files w !! filename = Some content → pickle_loads content = Some obj →
     load filename w = (inr obj, w)) ∧
  ((∀ obj, pickle_loads (pickle_dumps obj) = Some obj) →
   ∀ obj, files w !! filename = Some (pickle_dumps obj) →
     load filename w = (inr obj, w)).
Proof.
  rewrite load_run. split_and!.
  - by intros ->.
  - by intros content -> ->.
  - by intros content obj -> ->.
  - intros Hpickle obj ->. by rewrite Hpickle.
Qed.
End Persistence.

(** ** The stand-in codec is lawful *)

Lemma loads_dumps {G : Type} `{Codec.Serial G} (obj : @MapSet.pyobj G) :
  Codec.loads (Codec.dumps obj) = Some obj.
Proof.
  unfold Codec.loads, Codec.dumps.
  rewrite <-(app_nil_r (Codec.put_ obj)). by rewrite Codec.get_put.
Qed.

(** * The properties on the example world *)

Import Example.

(** The region of longitudes 170 to 200 and latitudes 0 to 30: the
    rectangle that spans all longitudes is stored twice. *)
Lemma straddling_build_example :
  PartialNaturalEarthFeature.__init__ Rect.intersects
      "physical" "coastline" "50m" (Some [0; 30; 170; 200]%Q) world =
    (inr (PartialNaturalEarthFeature.mk "physical" "coastline" "50m"
            [170; 200; 0; 30]%Q [g_both; g_west; g_both; g_east]), world) ∧
  PartialShapelyFeature.__init__ Rect.intersects
      coastlines "PlateCarree" (Some [0; 30; 170; 200]%Q) world =
    (inr (PartialShapelyFeature.mk "PlateCarree"
            [170; 200; 0; 30]%Q [g_both; g_west; g_both; g_east]), world) ∧
  ∃ i j, (i < j)%nat ∧
    [g_both; g_west; g_both; g_east] !! i = Some g_both ∧
    [g_both; g_west; g_both; g_east] !! j = Some g_both.
Proof.
  pose proof (straddling_build_concatenates_two_passes Rect.intersects
    "physical" "coastline" "50m" "ne_50m_coastline.shp" "PlateCarree"
    0 30 170 200 coastlines world eq_refl eq_refl eq_refl eq_refl)
    as (Hne & Hsf & Htwice).
  split_and!; [exact Hne | exact Hsf |].
  apply (Htwice g_both); [|reflexivity..].
  apply list_elem_of_further, list_elem_of_here.
Defined.

(** The region of longitudes 110 to 135 and latitudes 5 to 35. *)
Lemma ordinary_build_example :
  PartialNaturalEarthFeature.__init__ Rect.intersects
      "physical" "coastline" "50m" (Some [5; 35; 110; 135]%Q) world =
    (inr (PartialNaturalEarthFeature.mk "physical" "coastline" "50m"
            [110; 135; 5; 35]%Q [g_asia; g_both]), world) ∧
  [g_asia; g_both] `sublist_of` coastlines.
Proof.
  assert (¬ ((110 < 180)%Q ∧ (180 < 135)%Q)) as Hord
    by (intros [_ H]; discriminate H).
  pose proof (ordinary_build_single_pass Rect.intersects
    "physical" "coastline" "50m" "ne_50m_coastline.shp" "PlateCarree"
    5 35 110 135 coastlines world eq_refl eq_refl Hord)
    as (Hne & _ & _ & Hsub).
  split; [exact Hne | exact Hsub].
Defined.

(** The [MapSet] of the example, saved and loaded again with the stand-in
    codec. *)
Lemma load_save_roundtrip_example :
  let w' := snd (MapSet.save Codec.dumps NoFault mapset "cache.pkl" world) in
  MapSet.load Codec.loads "cache.pkl" w' = (inr (MapSet.PyMapSet mapset), w').
Proof.
  exact (load_save_roundtrip Codec.dumps Codec.loads NoFault mapset
           "cache.pkl" world loads_dumps eq_refl).
Defined.

(** On the dataset of coastlines and the region of longitudes 170 to 200:
    the rectangle [g_both], which overlaps both halves of the region, is at
    two positions of the stored sequence. *)
Lemma stored_geometries_example :
  ∃ stored,
    PartialNaturalEarthFeature.__init__ Rect.intersects
        "physical" "coastline" "50m" (Some [0; 30; 170; 200]%Q) world =
      (inr (PartialNaturalEarthFeature.mk "physical" "coastline" "50m"
              [170; 200; 0; 30]%Q stored), world) ∧
    stored = [g_both; g_west; g_both; g_east] ∧
    ∃ i j, (i < j)%nat ∧ stored !! i = Some g_both ∧
           stored !! j = Some g_both.
Proof.
  destruct (stored_geometries_overlap_region_or_half Rect.intersects
    "physical" "coastline" "50m" "ne_50m_coastline.shp" "PlateCarree"
    0 30 170 200 coastlines world eq_refl eq_refl)
    as (stored & Hne & _ & _ & Htwice & _).
  exists stored. split_and!; [exact Hne|by injection Hne|].
  apply Htwice; [reflexivity..| |reflexivity|reflexivity].
  apply list_elem_of_further, list_elem_of_here.
Defined.

(** C4 as stated fails: on the dataset of coastlines, which has no
    duplicate, the feature built for the region of longitudes 170 to 200
    and latitudes 0 to 30 stores [g_both] twice; and it stores [g_east],
    which the box of the unsplit region does not overlap. *)
Lemma stored_sequence_has_duplicates :
  NoDup coastlines ∧
  ∃ f,
    PartialNaturalEarthFeature.__init__ Rect.intersects
        "physical" "coastline" "50m" (Some [0; 30; 170; 200]%Q) world =
      (inr f, world) ∧
    PartialNaturalEarthFeature._geoms f = [g_both; g_west; g_both; g_east] ∧
    ¬ NoDup (PartialNaturalEarthFeature._geoms f) ∧
    g_east ∈ PartialNaturalEarthFeature._geoms f ∧
    Rect.intersects 170 0 200 30 g_east = false.
Proof.
  split.
  - repeat (apply NoDup_cons_2; [by rewrite !list_elem_of_In; intros H;
      repeat (destruct H as [H|H]; [discriminate H|])|]).
    apply NoDup_nil_2.
  - eexists. split_and!; [reflexivity | reflexivity | | | reflexivity].
    + simpl. intros Hnd. apply NoDup_cons_1_1 in Hnd. apply Hnd.
      apply list_elem_of_further, list_elem_of_here.
    + simpl. do 3 apply list_elem_of_further. apply list_elem_of_here.
Qed.

(** The inverted latitude bounds of the specification's example, and
    inverted longitude bounds. *)
Lemma build_does_not_validate_region_example :
  PartialNaturalEarthFeature.__init__ Rect.intersects
      "physical" "coastline" "50m" (Some [10; 5; 110; 135]%Q) world =
    (inr (PartialNaturalEarthFeature.mk "physical" "coastline" "50m"
            [110; 135; 10; 5]%Q [g_asia; g_both]), world) ∧
  PartialShapelyFeature.__init__ Rect.intersects
      coastlines "PlateCarree" (Some [10; 5; 110; 135]%Q) world =
    (inr (PartialShapelyFeature.mk "PlateCarree"
            [110; 135; 10; 5]%Q [g_asia; g_both]), world).
Proof.
  exact (build_does_not_validate_region Rect.intersects
    "physical" "coastline" "50m" "ne_50m_coastline.shp" "PlateCarree"
    10 5 110 135 coastlines world eq_refl eq_refl).
Defined.

(** C5 as stated fails: with [latMin = 10] and [latMax = 5], and with
    [lonMin = 135] and [lonMax = 110], the constructor returns a feature;
    it raises nothing. *)
Lemma malformed_region_is_accepted :
  (5 <= 10)%Q ∧
  PartialNaturalEarthFeature.__init__ Rect.intersects
      "physical" "coastline" "50m" (Some [10; 5; 110; 135]%Q) world =
    (inr (PartialNaturalEarthFeature.mk "physical" "coastline" "50m"
            [110; 135; 10; 5]%Q [g_asia; g_both]), world) ∧
  (110 <= 135)%Q ∧
  PartialNaturalEarthFeature.__init__ Rect.intersects
      "physical" "coastline" "50m" (Some [5; 35; 135; 110]%Q) world =
    (inr (PartialNaturalEarthFeature.mk "physical" "coastline" "50m"
            [135; 110; 5; 35]%Q [g_asia; g_both]), world).
Proof. split_and!; [discriminate | reflexivity | discriminate | reflexivity]. Qed.

(** C6 as stated fails: a write error after 3 bytes leaves, at a path that
    held a file, 3 bytes that are neither the previous content nor the new
    content, and the next [load] reads them. *)
Lemma failed_save_leaves_partial_file :
  let w' :=
    snd (MapSet.save Codec.dumps (WriteFailsAfter 3) mapset "old.pkl" world) in
  fst (MapSet.save Codec.dumps (WriteFailsAfter 3) mapset "old.pkl" world) =
    inl OSError ∧
  files world !! "old.pkl" =
    Some [Byte.x01; Byte.x00; Byte.x01; Byte.x01] ∧
  files w' !! "old.pkl" = Some [Byte.x00; Byte.x00; Byte.x00] ∧
  files w' !! "old.pkl" ≠ None ∧
  files w' !! "old.pkl" ≠ files world !! "old.pkl" ∧
  files w' !! "old.pkl" ≠ Some (Codec.dumps (MapSet.PyMapSet mapset)) ∧
  MapSet.load Codec.loads "old.pkl" w' = (inl UnpicklingError, w').
Proof.
  split_and!; vm_compute; first [reflexivity | discriminate].
Qed.

(** C8 as stated fails: the file [n.pkl] holds the pickle of the integer
    42, a stream that decodes and is the serialized form of no [MapSet];
    [load] raises nothing and returns the integer.  The same for the pickle
    of [None]. *)
Lemma load_accepts_a_stream_of_another_object :
  let int42 : @MapSet.pyobj Rect.t := MapSet.PyInt 42 in
  let none : @MapSet.pyobj Rect.t := MapSet.PyNone in
  let w :=
    set_files world
      (<["none.pkl" := Codec.dumps none]>
         (<["n.pkl" := Codec.dumps int42]> (files world)))
      (open_handles world) in
  (∀ m, Codec.dumps int42 ≠ Codec.dumps (MapSet.PyMapSet m)) ∧
  (∀ m, Codec.dumps none ≠ Codec.dumps (MapSet.PyMapSet m)) ∧
  MapSet.load Codec.loads "n.pkl" w = (inr int42, w) ∧
  MapSet.load Codec.loads "none.pkl" w = (inr none, w).
Proof.
  intros int42 none w.
  assert (∀ a b : @MapSet.pyobj Rect.t,
            Codec.dumps a = Codec.dumps b → a = b) as Hinj.
  { intros a b Hab. apply (inj Some).
    by rewrite <-(loads_dumps a), <-(loads_dumps b), Hab. }
  split_and!.
  - intros m Hm. by apply Hinj in Hm.
  - intros m Hm. by apply Hinj in Hm.
  - vm_compute; reflexivity.
  - vm_compute; reflexivity.
Qed.

(** A path without a file, a file of bytes that do not decode, and a file
    that holds the pickle of an integer. *)
Lemma load_fails_example :
  let w :=
    set_files world
      (<["n.pkl" := Codec.dumps (MapSet.PyInt 42)]> (files world))
      (open_handles world) in
  MapSet.load Codec.loads "missing.pkl" w = (inl FileNotFoundError, w) ∧
  MapSet.load Codec.loads "garbage.pkl" w = (inl UnpicklingError, w) ∧
  MapSet.load Codec.loads "n.pkl" w = (inr (MapSet.PyInt 42), w).
Proof.
  intros w.
  destruct (load_fails_only_on_missing_or_undecodable Codec.dumps
              Codec.loads "missing.pkl" w) as (Hmissing & _).
  destruct (load_fails_only_on_missing_or_undecodable Codec.dumps
              Codec.loads "garbage.pkl" w) as (_ & Hgarbage & _).
  destruct (load_fails_only_on_missing_or_undecodable Codec.dumps
              Codec.loads "n.pkl" w) as (_ & _ & _ & Hint).
  split_and!.
  - exact (Hmissing eq_refl).
  - exact (Hgarbage [Byte.xff; Byte.x00] eq_refl eq_refl).
  - exact (Hint loads_dumps (MapSet.PyInt 42) eq_refl).
Defined.

(** [from_natural_earth] with the default flags on the example world. *)
Lemma from_natural_earth_example :
  MapSet.from_natural_earth Rect.intersects (Some [5; 35; 110; 135]%Q) "50m"
      (Some "P") true true false false None world =
    (inr (MapSet.mk (Some "P") (Some [5; 35; 110; 135]%Q) (Some "50m")
            (Some (PartialNaturalEarthFeature.mk "physical" "coastline" "50m"
                     [110; 135; 5; 35]%Q [g_asia; g_both]))
            (Some (PartialNaturalEarthFeature.mk "cultural"
                     "admin_0_boundary_lines_land" "50m"
                     [110; 135; 5; 35]%Q [g_asia]))
            None None None None None None), world).
Proof.
  destruct (from_natural_earth_default_flags Rect.intersects "50m"
    "ne_50m_coastline.shp" "ne_50m_admin_0_boundary_lines_land.shp"
    (Some "P") None 5 35 110 135 coastlines borders world
    eq_refl eq_refl eq_refl eq_refl) as [(f_c & f_k & Hc & Hk & Hm) _].
  injection Hc as <-. injection Hk as <-. exact Hm.
Defined.

(** * Further properties of the cache *)

Section BuildEdges.
Context {G : Type}.
Variable box_intersects : Q → Q → Q → Q → G → bool.

Abbreviation PNE_init := (PartialNaturalEarthFeature.__init__ box_intersects).
Abbreviation PSF_init := (PartialShapelyFeature.__init__ box_intersects).
Abbreviation PSF_from_shp :=
  (PartialShapelyFeature.from_shp box_intersects).

Ltac run_build :=
  unfold PartialNaturalEarthFeature.__init__,
    PartialNaturalEarthFeature.make_partial,
    PartialNaturalEarthFeature.set_geoms,
    PartialNaturalEarthFeature.geometries,
    PartialShapelyFeature.from_shp, PartialShapelyFeature.__init__,
    PartialShapelyFeature.make_partial, PartialShapelyFeature.geometries,
    rotate_georange, natural_earth, Reader_geometries, straddles,
    Feature.intersecting_geometries, getitem, bind, get, ret, raise;
  cbn -[Qltb Qminus].

Abbreviation PNE_new := (PartialNaturalEarthFeature.new box_intersects).

(** For a scale of Natural Earth the constructor is its body. *)
Lemma PNE_new_valid (category name scale : string)
    (georange : option (list Q)) (w : World G) :
  scale ∈ NaturalEarthFeature.valid_scales →
  PNE_new category name scale georange w =
    PNE_init category name scale georange w.
Proof.
  intros Hscale.
  unfold PartialNaturalEarthFeature.new, NaturalEarthFeature.__init__, bind.
  by rewrite decide_True.
Qed.

(** X1. The order in which the constructors fail.  For
    [PartialNaturalEarthFeature(category, name, scale, georange=...)]: a
    scale that is not one of ['110m'], ['50m'] and ['10m'] is a
    [ValueError] of the base class, whatever the [georange] and the
    datasets; for one of these scales, a [georange] of [None] is a
    [TypeError] before any dataset is looked up; then an unknown dataset,
    then an unreadable shapefile; a [georange] of fewer than four numbers
    is an [IndexError], raised only after the dataset was read.  For
    [PartialShapelyFeature.from_shp] the shapefile is read first: a missing
    one is reported whatever the [georange].  The world is unchanged in
    every case. *)
Theorem build_error_precedence (category name scale directory : string)
    (w : World G) :
  (scale ∉ NaturalEarthFeature.valid_scales →
   ∀ georange,
     PNE_new category name scale georange w = (inl ValueError, w)) ∧
  (scale ∈ NaturalEarthFeature.valid_scales →
   PNE_new category name scale None w = (inl TypeError, w) ∧
   (∀ g, natural_earth_paths w !! (scale, category, name) = None →
      PNE_new category name scale (Some g) w = (inl DatasetError, w)) ∧
   (∀ g path,
      natural_earth_paths w !! (scale, category, name) = Some path →
      shapefiles w !! path = None →
      PNE_new category name scale (Some g) w = (inl ShapefileError, w)) ∧
   (∀ g path all,
      natural_earth_paths w !! (scale, category, name) = Some path →
      shapefiles w !! path = Some all →
      (length g < 4)%nat →
      PNE_new category name scale (Some g) w = (inl IndexError, w))) ∧
  (∀ georange, shapefiles w !! directory = None →
     PSF_from_shp directory georange w = (inl ShapefileError, w)) ∧
  (∀ all, shapefiles w !! directory = Some all →
     PSF_from_shp directory None w = (inl TypeError, w)) ∧
  (∀ g all, shapefiles w !! directory = Some all → (length g < 4)%nat →
     PSF_from_shp directory (Some g) w = (inl IndexError, w)).
Proof.
  split_and!.
  - intros Hscale georange.
    unfold PartialNaturalEarthFeature.new, NaturalEarthFeature.__init__,
      bind, raise.
    by rewrite decide_False.
  - intros Hscale. split_and!.
    + by rewrite PNE_new_valid.
    + intros g Hpath. rewrite PNE_new_valid by done.
      run_build. by rewrite Hpath.
    + intros g path Hpath Hshp. rewrite PNE_new_valid by done.
      run_build. rewrite Hpath. cbn. by rewrite Hshp.
    + intros g path all Hpath Hshp Hlen. rewrite PNE_new_valid by done.
      run_build. rewrite Hpath. cbn. rewrite Hshp.
      destruct g as [|a [|b [|c [|d rest]]]]; simpl in Hlen; [..|lia];
        cbn -[Qltb Qminus]; repeat case_match; by simplify_eq.
  - intros georange Hshp. run_build. by rewrite Hshp.
  - intros all Hshp. run_build. by rewrite Hshp.
  - intros g all Hshp Hlen. run_build. rewrite Hshp.
    destruct g as [|a [|b [|c [|d rest]]]]; simpl in Hlen; [..|lia];
      cbn -[Qltb Qminus]; repeat case_match; by simplify_eq.
Qed.

(** X2. The size of the cache.  Every stored geometry is a geometry of the
    source; the stored sequence is at most as long as the source for an
    ordinary region and at most twice as long for a region that straddles
    the antimeridian. *)
Theorem stored_sequence_bounds (category name scale path : string)
    (latMin latMax lonMin lonMax : Q) (all : list G) (w : World G) :
  natural_earth_paths w !! (scale, category, name) = Some path →
  shapefiles w !! path = Some all →
  ∃ f,
    PNE_init category name scale (Some [latMin; latMax; lonMin; lonMax]) w =
      (inr f, w) ∧
    (∀ g, g ∈ PartialNaturalEarthFeature._geoms f → g ∈ all) ∧
    (length (PartialNaturalEarthFeature._geoms f) ≤ 2 * length all)%nat ∧
    (¬ ((lonMin < 180)%Q ∧ (180 < lonMax)%Q) →
     (length (PartialNaturalEarthFeature._geoms f) ≤ length all)%nat).
Proof.
  intros Hpath Hshp. eexists. split; [by apply PNE_init_run with path|].
  cbn [PartialNaturalEarthFeature._geoms]. split_and!.
  - intros g. unfold region_matches. case_match.
    + rewrite elem_of_app, !elem_of_List_filter. tauto.
    + rewrite elem_of_List_filter. tauto.
  - unfold region_matches. case_match.
    + rewrite length_app.
      pose proof (List.filter_length_le
        (box_intersects lonMin latMin 180 latMax) all).
      pose proof (List.filter_length_le
        (box_intersects (-180) latMin (lonMax - 360) latMax) all).
      lia.
    + pose proof (List.filter_length_le
        (box_intersects lonMin latMin lonMax latMax) all). lia.
  - intros Hord. rewrite region_matches_ordinary by done.
    apply List.filter_length_le.
Qed.

Lemma List_filter_idemp (f : G → bool) (l : list G) :
  List.filter f (List.filter f l) = List.filter f l.
Proof.
  induction l as [|x l IH]; [done|]. simpl.
  destruct (f x) eqn:Hx; [|done]. simpl. by rewrite Hx, IH.
Qed.

(** X3. Caching is idempotent on ordinary regions: a
    [PartialShapelyFeature] built from the geometries that a partial
    feature stored for a region, with the same region, stores the same
    geometries again. *)
Theorem rebuild_from_stored_is_idempotent (category name scale path crs : string)
    (latMin latMax lonMin lonMax : Q) (all : list G) (w : World G) :
  natural_earth_paths w !! (scale, category, name) = Some path →
  shapefiles w !! path = Some all →
  ¬ ((lonMin < 180)%Q ∧ (180 < lonMax)%Q) →
  let georange := Some [latMin; latMax; lonMin; lonMax] in
  ∃ f,
    PNE_init category name scale georange w = (inr f, w) ∧
    PSF_init (PartialNaturalEarthFeature._geoms f) crs georange w =
      (inr (PartialShapelyFeature.mk crs [lonMin; lonMax; latMin; latMax]
              (PartialNaturalEarthFeature._geoms f)), w).
Proof.
  intros Hpath Hshp Hord georange. subst georange. eexists.
  split; [by apply PNE_init_run with path|].
  cbn [PartialNaturalEarthFeature._geoms]. rewrite PSF_init_run.
  rewrite !region_matches_ordinary by done. by rewrite List_filter_idemp.
Qed.
End BuildEdges.

Section MapSetEdges.
Context {G : Type}.
Variable box_intersects : Q → Q → Q → Q → G → bool.
Variable pickle_dumps : @MapSet.pyobj G → list Byte.byte.
Variable pickle_loads : list Byte.byte → option (@MapSet.pyobj G).

Abbreviation PNE_init := (PartialNaturalEarthFeature.__init__ box_intersects).
Abbreviation save := (MapSet.save pickle_dumps).
Abbreviation load := (MapSet.load pickle_loads).


(** X5. The last [save] at a path wins, and a [save] at another path does
    not disturb it: after saving [m1] and then [m2] at the same path,
    [load] returns [m2]; after saving [m1] and then [m2] at a different
    path, [load] of the first path still returns [m1]. *)
Theorem save_last_write_wins (m1 m2 : @MapSet.t G) (filename other : string)
    (w : World G) :
  (∀ obj, pickle_loads (pickle_dumps obj) = Some obj) →
  other ≠ filename →
  let w1 := snd (save NoFault m1 filename w) in
  let w2 := snd (save NoFault m2 filename w1) in
  let w3 := snd (save NoFault m2 other w1) in
  load filename w2 = (inr (MapSet.PyMapSet m2), w2) ∧
  load filename w3 = (inr (MapSet.PyMapSet m1), w3) ∧
  load other w3 = (inr (MapSet.PyMapSet m2), w3).
Proof.
  intros Hpickle Hne w1 w2 w3. subst w1 w2 w3.
  rewrite !save_run, !load_run. cbn [snd files set_files].
  rewrite !lookup_insert_eq, lookup_insert_ne, lookup_insert_eq by done.
  by rewrite !Hpickle.
Qed.
End MapSetEdges.

(** The cache on a region that lies west of the antimeridian, rebuilt from
    its own geometries. *)
Lemma rebuild_from_stored_example :
  PartialShapelyFeature.__init__ Rect.intersects [g_asia; g_both]
      "PlateCarree" (Some [5; 35; 110; 135]%Q) world =
    (inr (PartialShapelyFeature.mk "PlateCarree" [110; 135; 5; 35]%Q
            [g_asia; g_both]), world).
Proof.
  assert (¬ ((110 < 180)%Q ∧ (180 < 135)%Q)) as Hord
    by (intros [_ H]; discriminate H).
  destruct (rebuild_from_stored_is_idempotent Rect.intersects
    "physical" "coastline" "50m" "ne_50m_coastline.shp" "PlateCarree"
    5 35 110 135 coastlines world eq_refl eq_refl Hord) as (f & Hf & Hre).
  injection Hf as <-. exact Hre.
Defined.

(** The five coastlines and the antimeridian region: four stored
    geometries, fewer than twice five. *)
Lemma stored_sequence_bounds_example :
  ∃ f,
    PartialNaturalEarthFeature.__init__ Rect.intersects
        "physical" "coastline" "50m" (Some [0; 30; 170; 200]%Q) world =
      (inr f, world) ∧
    (length (PartialNaturalEarthFeature._geoms f) ≤ 2 * length coastlines)%nat.
Proof.
  destruct (stored_sequence_bounds Rect.intersects
    "physical" "coastline" "50m" "ne_50m_coastline.shp"
    0 30 170 200 coastlines world eq_refl eq_refl) as (f & Hf & _ & Hlen & _).
  exists f. split; [exact Hf | exact Hlen].
Defined.

(** The scale ['5m'] with a [georange] of [None]; then, at the scale
    ['50m'], a [georange] of [None], a [georange] of three numbers, and
    the dataset of oceans, which the example world does not have. *)
Lemma build_error_precedence_example :
  PartialNaturalEarthFeature.new Rect.intersects
      "physical" "coastline" "5m" None world =
    (inl ValueError, world) ∧
  PartialNaturalEarthFeature.new Rect.intersects
      "physical" "coastline" "50m" None world =
    (inl TypeError, world) ∧
  PartialNaturalEarthFeature.new Rect.intersects
      "physical" "coastline" "50m" (Some [0; 30; 170]%Q) world =
    (inl IndexError, world) ∧
  PartialNaturalEarthFeature.new Rect.intersects
      "physical" "ocean" "50m" (Some [0; 30; 170; 200]%Q) world =
    (inl DatasetError, world) ∧
  PartialShapelyFeature.from_shp Rect.intersects "nowhere.shp" None world =
    (inl ShapefileError, world).
Proof.
  assert ("5m" ∉ NaturalEarthFeature.valid_scales) as Hbad.
  { unfold NaturalEarthFeature.valid_scales. rewrite !not_elem_of_cons.
    split_and!; [discriminate..|apply not_elem_of_nil]. }
  assert ("50m" ∈ NaturalEarthFeature.valid_scales) as Hgood.
  { apply list_elem_of_further, list_elem_of_here. }
  destruct (build_error_precedence Rect.intersects
    "physical" "coastline" "5m" "nowhere.shp" world) as (Hvalue & _).
  destruct (build_error_precedence Rect.intersects
    "physical" "coastline" "50m" "nowhere.shp" world)
    as (_ & Hcoast & Hshp & _).
  destruct (Hcoast Hgood) as (Htype & _ & _ & Hindex).
  destruct (build_error_precedence Rect.intersects
    "physical" "ocean" "50m" "nowhere.shp" world) as (_ & Hocean & _).
  destruct (Hocean Hgood) as (_ & Hdataset & _).
  split_and!.
  - exact (Hvalue Hbad None).
  - exact Htype.
  - apply (Hindex _ "ne_50m_coastline.shp" coastlines eq_refl eq_refl).
    simpl. lia.
  - exact (Hdataset _ eq_refl).
  - exact (Hshp None eq_refl).
Defined.

(** Two saves at one path, and a save at another path. *)
Lemma save_last_write_wins_example :
  let m2 := MapSet.mk None None None None None None None None None None None in
  let w1 := snd (MapSet.save Codec.dumps NoFault mapset "a.pkl" world) in
  let w2 := snd (MapSet.save Codec.dumps NoFault m2 "a.pkl" w1) in
  MapSet.load Codec.loads "a.pkl" w2 = (inr (MapSet.PyMapSet m2), w2).
Proof.
  intros m2 w1 w2.
  assert ("b.pkl" ≠ "a.pkl") as Hne by discriminate.
  exact (proj1 (save_last_write_wins Codec.dumps Codec.loads mapset m2
                  "a.pkl" "b.pkl" world loads_dumps Hne)).
Defined.

(** * Keyword dictionaries and strings *)

(** X6. [merge_dict(a, b)] never overwrites: a key of [a] keeps its value,
    a key that only [b] has gets the value of [b]; so the result is the
    union of the two dictionaries with [a] first, it contains [a], and
    merging [b] a second time changes nothing. *)
Theorem merge_dict_keeps_a {V : Type} (a b : gmap string V) :
  (∀ k, merge_dict a b !! k =
        match a !! k with
        | Some v => Some v
        | None => b !! k
        end) ∧
  merge_dict a b = a ∪ b ∧
  a ⊆ merge_dict a b ∧
  merge_dict (merge_dict a b) b = merge_dict a b.
Proof.
  assert (∀ a b : gmap string V, merge_dict a b = a ∪ b) as Hunion.
  { clear a b. intros a b. unfold merge_dict.
    apply (map_fold_weak_ind (λ r m, r = a ∪ m)).
    - by rewrite (right_id_L ∅ (∪)).
    - intros i x m r Hi ->.
      destruct ((a ∪ m) !! i) as [y|] eqn:Hlook.
      + apply lookup_union_Some_raw in Hlook as [Ha|[_ Hm]]; [|congruence].
        apply map_eq. intros j. rewrite !lookup_union.
        destruct (decide (i = j)) as [<-|Hne].
        * by rewrite Ha, Hi, lookup_insert_eq.
        * by rewrite lookup_insert_ne.
      + apply lookup_union_None in Hlook as [Ha _].
        by rewrite insert_union_r. }
  split_and!.
  - intros k. rewrite Hunion, lookup_union.
    destruct (a !! k), (b !! k); done.
  - apply Hunion.
  - rewrite Hunion. apply map_union_subseteq_l.
  - rewrite !Hunion. rewrite <-(assoc_L (∪)). by rewrite (idemp_L (∪) b).
Qed.

Lemma upper_ascii_idemp (c : Ascii.ascii) :
  upper_ascii (upper_ascii c) = upper_ascii c.
Proof. destruct c as [[] [] [] [] [] [] [] []]; reflexivity. Qed.

Lemma upper_idemp (s : string) : upper (upper s) = upper s.
Proof.
  induction s as [|c s IH]; [done|]. simpl. by rewrite upper_ascii_idemp, IH.
Qed.

Lemma lower_ascii_idemp (c : Ascii.ascii) :
  lower_ascii (lower_ascii c) = lower_ascii c.
Proof. destruct c as [[] [] [] [] [] [] [] []]; reflexivity. Qed.

Lemma lower_is_lower (s : string) : is_lower (lower s).
Proof.
  unfold is_lower. induction s as [|c s IH]; [done|]. simpl.
  by rewrite lower_ascii_idemp, IH.
Qed.

Lemma is_lower_app (s1 s2 : string) :
  is_lower s1 → is_lower s2 → is_lower (s1 +:+ s2).
Proof.
  unfold is_lower. induction s1 as [|c s1 IH]; [done|]. simpl.
  intros [= Hc Hs1] Hs2. by rewrite Hc, IH.
Qed.

Lemma is_lower_String (c : Ascii.ascii) (s : string) :
  is_lower (String c s) ↔ lower_ascii c = c ∧ is_lower s.
Proof.
  unfold is_lower. simpl. split; [by intros [= -> ->]|].
  by intros [-> ->].
Qed.

Lemma chars_app (P : Ascii.ascii → Prop) (s1 s2 : string) :
  chars P (s1 +:+ s2) ↔ chars P s1 ∧ chars P s2.
Proof. induction s1 as [|c s1 IH]; simpl; [tauto|]. rewrite IH. tauto. Qed.

(** Every word of [split] is made of characters of the string. *)
Lemma split_go_chars (P : Ascii.ascii → Prop) (cur : option string)
    (s : string) :
  Forall (chars P) (option_list cur) → chars P s →
  Forall (chars P) (split_go cur s).
Proof.
  revert cur. induction s as [|c s IH]; intros cur Hcur Hs; [done|].
  simpl in *. destruct Hs as [Hc Hs]. destruct (is_whitespace c).
  - apply Forall_app. split; [done|]. by apply IH.
  - apply IH; [|done]. simpl. constructor; [|constructor].
    apply chars_app. split; [|done].
    destruct cur as [w|]; [by inv Hcur|done].
Qed.

(** No word of [split] has white space. *)
Lemma split_go_no_whitespace (cur : option string) (s : string) :
  Forall (chars (λ c, is_whitespace c = false)) (option_list cur) →
  Forall (chars (λ c, is_whitespace c = false)) (split_go cur s).
Proof.
  revert cur. induction s as [|c s IH]; intros cur Hcur; [done|].
  simpl. destruct (is_whitespace c) eqn:Hc.
  - apply Forall_app. split; [done|]. by apply IH.
  - apply IH. simpl. constructor; [|constructor].
    apply chars_app. split; [|done].
    destruct cur as [w|]; [by inv Hcur|done].
Qed.

Lemma chars_is_lower (s : string) :
  chars (λ c, lower_ascii c = c) s ↔ is_lower s.
Proof.
  induction s as [|c s IH]; [done|]. simpl. rewrite is_lower_String. tauto.
Qed.

Lemma chars_no_space (s : string) :
  chars (λ c, is_whitespace c = false) s → contains_space s = false.
Proof.
  induction s as [|c s IH]; [done|]. simpl. intros [Hc Hs].
  rewrite (IH Hs), orb_false_r.
  destruct (Ascii.eqb_spec c (Ascii.ascii_of_nat 32)) as [->|]; [|done].
  discriminate Hc.
Qed.

(** * The plotting methods *)

Section MapKeys.
Context {G C F : Type}.

Abbreviation state := (@Plot.state G C F).

Lemma builtin_map_known (k : string) :
  is_Some (Plot.builtin_map k) ↔ k ∈ map_keys.
Proof.
  unfold Plot.builtin_map, map_keys.
  repeat case_decide; subst;
    rewrite ?is_Some_alt; split; intros Hin; try done;
    try (by repeat first [apply list_elem_of_here | apply list_elem_of_further]).
  repeat (apply elem_of_cons in Hin as [Hin|Hin]; [done|]).
  by apply elem_of_nil in Hin.
Qed.

(** X7. [_from_map_key] returns for nine names only.  For one of them it
    sets [no_parameri] and returns the projection and the keyword arguments
    of the map.  For any other key, a string or not, it leaves
    [no_parameri] false and raises [UnboundLocalError]: the name
    [northpole] that the documentation of [setmap] lists is such a key. *)
Theorem from_map_key_known_or_unbound (key : pyval) (st : state) :
  let known := match key with VStr k => k ∈ map_keys | _ => False end in
  let st_flag (b : bool) :=
    Plot.mkState (Plot.with_no_parameri b (Plot.self st))
      (Plot.calls st) (Plot.world st) in
  (known → ∃ r, Plot._from_map_key key st = (inr r, st_flag true) ∧
                is_Some (Plot._projshort !! r.1) ∧
                is_Some (r.2 !! "georange")) ∧
  (¬ known → Plot._from_map_key key st = (inl UnboundLocalError, st_flag false)) ∧
  "northpole" ∉ map_keys.
Proof.
  intros known st_flag. split_and!.
  - destruct key as [| |k|]; try done. intros Hk.
    apply builtin_map_known in Hk as Hsome. destruct Hsome as [r Hr].
    exists r. unfold Plot._from_map_key, sbind, Plot.modify_self, sret.
    rewrite Hr. split; [done|].
    revert Hr. unfold Plot.builtin_map.
    repeat case_decide; intros [= <-]; split; by vm_compute; eexists.
  - intros Hk. unfold Plot._from_map_key, sbind, Plot.modify_self, sraise.
    destruct key as [| |k|]; try done.
    destruct (Plot.builtin_map k) as [r|] eqn:Hr; [|done].
    destruct Hk. apply builtin_map_known. by eexists.
  - unfold map_keys. intros Hin.
    repeat (apply elem_of_cons in Hin as [Hin|Hin]; [done|]).
    by apply elem_of_nil in Hin.
Qed.

(** X8. The regions of the built-in maps are well formed (the cache does
    not check this itself): four numbers with [latMin < latMax] and
    [lonMin < lonMax], latitudes within -90 and 90.  The region of
    [northpac] is the only one that straddles the antimeridian, so it is
    the only one for which the cache runs two passes. *)
Theorem builtin_regions_well_formed (k : string) (r : string * gmap string pyval) :
  Plot.builtin_map k = Some r →
  ∃ latMin latMax lonMin lonMax,
    r.2 !! "georange" = Some (VTuple [latMin; latMax; lonMin; lonMax]) ∧
    (latMin < latMax)%Q ∧ (lonMin < lonMax)%Q ∧
    (-90 <= latMin)%Q ∧ (latMax <= 90)%Q ∧
    (((lonMin < 180)%Q ∧ (180 < lonMax)%Q) ↔ k = "northpac").
Proof.
  unfold Plot.builtin_map.
  repeat case_decide; intros [= <-]; subst;
    (eexists _, _, _, _; split; [by vm_compute|]);
    (split_and!; [done|done|by vm_compute|by vm_compute|]);
    (split; [intros [Hlo Hhi]; try done; by vm_compute in Hhi
            |intros Hk; try done; by split]).
Qed.
End MapKeys.

Section SetMap.
Context {G C F : Type}.
Variable ccrs_new : string → gmap string pyval → pyexn + C.
Variable crs_name : C → string.
Variable aspect_auto : F → Q → F → Q → F.
Variable aspect_cos : Q → F.
Variable cos_height : F → Q → Q → F → F.

Abbreviation state := (@Plot.state G C F).
Abbreviation setmap :=
  (Plot.setmap (G:=G) ccrs_new crs_name aspect_auto aspect_cos cos_height).

Lemma sbind_ext {S E A B} (c : SE S E A) (k1 k2 : A → SE S E B) (s : S) :
  (∀ x s', c s = (inr x, s') → k1 x s' = k2 x s') →
  sbind c k1 s = sbind c k2 s.
Proof.
  intros H. unfold sbind. destruct (c s) as [[e|x] s'] eqn:Hc; [done|].
  by apply H.
Qed.

(** X9. The [projection] argument of [setmap] counts only when [proj] is
    [None] and no key is given: otherwise two calls that differ in
    [projection] alone do the same.  With [proj=None] and no key, a
    basemap-style name of the table stands for its short name, and any
    other value than [None] raises [PlotError] before anything is assigned
    or drawn.  With [proj=None] and [projection=None] the check is
    skipped: [georange], [map_georange] and the face colour are assigned
    from the keywords, nothing is drawn, and [proj.upper()] raises
    [AttributeError]. *)
Theorem setmap_projection_only_without_proj (key : pyval)
    (proj : Plot.projarg) (projection projection' resolution : pyval)
    (kwargs : gmap string pyval) (st : state) :
  (key ≠ VNone ∨ proj ≠ Plot.ProjNone →
   setmap key proj projection resolution kwargs st =
     setmap key proj projection' resolution kwargs st) ∧
  (∀ name short, Plot._proj_dict !! name = Some short →
     setmap VNone Plot.ProjNone (VStr name) resolution kwargs st =
       setmap VNone (Plot.ProjName short) projection' resolution kwargs st) ∧
  (kwargs !! "resolution" = None → projection ≠ VNone →
   (∀ name, projection = VStr name → Plot._proj_dict !! name = None) →
   setmap VNone Plot.ProjNone projection resolution kwargs st =
     (inl PlotError, st)) ∧
  (kwargs !! "resolution" = None →
   let georange :=
     default (VTuple [-90; 90; -180; 180]%Q) (kwargs !! "georange") in
   let map_georange := default georange (kwargs !! "map_georange") in
   let facecolor :=
     default (Plot.facecolor (Plot.self st)) (kwargs !! "facecolor") in
   setmap VNone Plot.ProjNone VNone resolution kwargs st =
     (inl AttributeError,
      Plot.mkState
        (Plot.with_facecolor facecolor
           (Plot.with_map_georange (Some map_georange)
              (Plot.with_georange (Some georange) (Plot.self st))))
        (Plot.calls st) (Plot.world st))).
Proof.
  split_and!.
  - intros Hkp. unfold Plot.setmap.
    apply sbind_ext. intros kw s1 _.
    apply sbind_ext. intros pk s2 Hpk.
    assert (pk.1 ≠ Plot.ProjNone) as Hproj.
    { destruct key; try (revert Hpk; unfold sbind;
        destruct (Plot._from_map_key _ s1) as [[?|?] ?]; by intros [= <- <-]).
      revert Hpk. intros [= <- <-]. by destruct Hkp. }
    by destruct (pk.1).
  - intros name short Hshort. unfold Plot.setmap.
    apply sbind_ext. intros kw s1 _. unfold sbind at 1 3, sret.
    cbn [fst snd]. rewrite Hshort. unfold sbind at 1 3, sret.
    by destruct projection'.
  - intros Hres Hsome Hnot. unfold Plot.setmap, sbind, sret, sraise.
    rewrite Hres. cbn [fst snd].
    destruct projection as [| |name|]; try done.
    by rewrite (Hnot name eq_refl).
  - intros Hres georange map_georange facecolor.
    subst georange map_georange facecolor.
    unfold Plot.setmap, Plot.modify_self, sbind, sret, sraise.
    rewrite Hres. cbn [fst snd].
    destruct (decide ("georange" = "map_georange")) as [?|Hne1]; [done|].
    rewrite (lookup_delete_ne kwargs "georange" "map_georange") by done.
    rewrite !lookup_delete_ne by done.
    destruct st as [p calls w]. destruct p.
    by destruct (kwargs !! "facecolor").
Qed.

(** X10. The short names of the projections are read without regard to
    case: a name whose upper-case form is a short name is taken like that
    short name. *)
Theorem setmap_short_names_ignore_case (key : pyval) (s : string)
    (projection resolution : pyval) (kwargs : gmap string pyval)
    (st : state) :
  is_Some (Plot._projshort !! upper s) →
  setmap key (Plot.ProjName s) projection resolution kwargs st =
    setmap key (Plot.ProjName (upper s)) projection resolution kwargs st.
Proof.
  intros [name Hname]. unfold Plot.setmap.
  apply sbind_ext. intros kw s1 _.
  destruct key; [|done..].
  assert (default (upper s) (Plot._projshort !! upper (upper s)) =
          default s (Plot._projshort !! upper s)) as Hsame
    by (by rewrite upper_idemp, Hname).
  unfold sbind at 1, sret. cbn [fst snd]. unfold sbind at 1, sret.
  symmetry.
  unfold sbind at 1, sret. cbn [fst snd]. unfold sbind at 1, sret.
  cbv zeta. by rewrite Hsame.
Qed.
End SetMap.

Section MapSetOnPlot.
Context {G C F : Type}.
Variable ccrs_new : string → gmap string pyval → pyexn + C.
Variable crs_name : C → string.
Variable aspect_auto : F → Q → F → Q → F.
Variable aspect_cos : Q → F.
Variable cos_height : F → Q → Q → F → F.
Variable _CountryDir : string.

Abbreviation state := (@Plot.state G C F).
Abbreviation setmap :=
  (Plot.setmap (G:=G) ccrs_new crs_name aspect_auto aspect_cos cos_height).
Abbreviation usemapset :=
  (Plot.usemapset (G:=G) ccrs_new crs_name aspect_auto aspect_cos cos_height).

Ltac pm_unfold :=
  unfold Plot.setmap, Plot.setmap_call, Plot.usemapset, Plot.usefeature,
    Plot.usefeature_opt, Plot.drawcoastline, Plot.drawcountry, Plot.style,
    Plot.add_cached, Plot.add_predefined, Plot.mapset_lakes,
    Plot.mapset_rivers, Plot.or_key, Plot.or_color, Plot.or_scale,
    Plot.get_proj, Plot.the_ax, Plot.getkey, Plot.attr, Plot.subscript,
    Plot.add, Plot.sub, Plot.half, Plot.rotate, Plot.emit, Plot.get_self,
    Plot.modify_self, Plot.lift_world, sbind, sret, sraise.

(** [setmap] with a projection name, a [georange] of four numbers and no
    other keyword, on a plot without face colour and aspect. *)
Lemma setmap_plain_run (s res scale : string) (projection : pyval)
    (latMin latMax lonMin lonMax : Q) (crs : C) (st : state) :
  let name := default s (Plot._projshort !! upper s) in
  let georange := VTuple [latMin; latMax; lonMin; lonMax] in
  ccrs_new name {["central_longitude" := VNum ((lonMin + lonMax) / 2)]} =
    inr crs →
  Plot._scaleshort !! res = Some scale →
  Plot.facecolor (Plot.self st) = VNone →
  Plot.aspect (Plot.self st) = VNone →
  setmap VNone (Plot.ProjName s) projection (VStr res)
      {["georange" := georange]} st =
    ((boundary_outcome (G:=G) (C:=C) (F:=F)
        (Plot.boundary (Plot.self st))).1,
     Plot.mkState
       (Plot.with_scale (Some scale)
          (Plot.with_ax (Some crs)
             (Plot.with_trans
                (Some (negb (bool_decide (name = "PlateCarree"))))
                (Plot.with_proj (Some name)
                   (Plot.with_map_georange (Some georange)
                      (Plot.with_georange (Some georange)
                         (Plot.self st)))))))
       (Plot.calls st ++
        [Plot.PltAxes crs;
         Plot.SetExtent (VTuple [lonMin; lonMax; latMin; latMax])] ++
        (boundary_outcome (Plot.boundary (Plot.self st))).2)
       (Plot.world st)).
Proof.
  intros name georange Hcrs Hscale Hface Haspect.
  rewrite <-insert_empty in Hcrs.
  pm_unfold. rewrite lookup_singleton_ne by done. cbn [fst snd].
  rewrite lookup_singleton_eq, delete_singleton_eq.
  cbn -[upper Plot._projshort Plot._scaleshort].
  rewrite !delete_empty, !lookup_empty.
  cbn -[upper Plot._projshort Plot._scaleshort].
  fold name. rewrite Hcrs. cbn -[upper Plot._projshort Plot._scaleshort].
  rewrite Hface, Hscale. cbn -[upper Plot._projshort Plot._scaleshort].
  rewrite Haspect.
  unfold boundary_outcome.
  destruct (Plot.boundary (Plot.self st)) as [| |b|]; cbn;
    rewrite <-?(assoc_L (++)); try done.
  repeat case_decide; cbn; by rewrite <-?(assoc_L (++)).
Qed.

(** X11. [setmap] looks at the [boundary] of the plot last, after the axes
    were created and the extent set.  With [None] or ['rect'] it sets the
    line width of the outline, 0 or 0.5, and returns.  With ['round'] it
    raises [TypeError]: the call of [set_boundary] passes [linewidth],
    which the method does not take.  With any other boundary it raises
    [PlotError].  When it raises, the plot keeps the new axes, [georange],
    projection and scale, and nothing is drawn for the boundary. *)
Theorem setmap_checks_boundary_last (s res scale : string)
    (projection b : pyval) (latMin latMax lonMin lonMax : Q) (crs : C)
    (st : state) :
  let name := default s (Plot._projshort !! upper s) in
  let georange := VTuple [latMin; latMax; lonMin; lonMax] in
  ccrs_new name {["central_longitude" := VNum ((lonMin + lonMax) / 2)]} =
    inr crs →
  Plot._scaleshort !! res = Some scale →
  Plot.facecolor (Plot.self st) = VNone →
  Plot.aspect (Plot.self st) = VNone →
  Plot.boundary (Plot.self st) = b →
  let result :=
    setmap VNone (Plot.ProjName s) projection (VStr res)
      {["georange" := georange]} st in
  let drawn :=
    Plot.calls st ++
    [Plot.PltAxes crs;
     Plot.SetExtent (VTuple [lonMin; lonMax; latMin; latMax])] in
  Plot.ax (Plot.self result.2) = Some crs ∧
  Plot.georange (Plot.self result.2) = Some georange ∧
  Plot.proj (Plot.self result.2) = Some name ∧
  Plot.scale (Plot.self result.2) = Some scale ∧
  (b = VNone →
   result.1 = inr () ∧
   Plot.calls result.2 = drawn ++ [Plot.PatchSetLinewidth 0]) ∧
  (b = VStr "rect" →
   result.1 = inr () ∧
   Plot.calls result.2 = drawn ++ [Plot.PatchSetLinewidth 0.5]) ∧
  (b = VStr "round" →
   result.1 = inl (Raised TypeError) ∧ Plot.calls result.2 = drawn) ∧
  (b ≠ VNone → b ≠ VStr "rect" → b ≠ VStr "round" →
   result.1 = inl PlotError ∧ Plot.calls result.2 = drawn).
Proof.
  intros name georange Hcrs Hscale Hface Haspect Hb result drawn.
  subst result drawn georange.
  rewrite (setmap_plain_run s res scale projection latMin latMax lonMin lonMax
             crs st Hcrs Hscale Hface Haspect).
  rewrite Hb. cbn [fst snd Plot.self Plot.calls].
  split_and!; try done.
  - intros ->. cbn. by rewrite <-?(assoc_L (++)).
  - intros ->. cbn. by rewrite <-?(assoc_L (++)).
  - intros ->. cbn. by rewrite ?app_nil_r.
  - intros Hnone Hrect Hround.
    assert (boundary_outcome (G:=G) (C:=C) (F:=F) b = (inl PlotError, []))
      as ->.
    { unfold boundary_outcome. destruct b as [| |b'|]; try done.
      repeat case_decide; by subst. }
    cbn. by rewrite ?app_nil_r.
Qed.

(** X12. [usemapset] on a plot without axes sets the map up from the
    mapset: it stores the mapset and calls [setmap] with the projection and
    the [georange] of the mapset.  The scale of the mapset is not passed
    on: the scale of the plot becomes ['50m'], whatever scale the mapset
    was built at. *)
Theorem usemapset_sets_map_but_not_scale (m : @MapSet.t G) (s : string)
    (latMin latMax lonMin lonMax : Q) (crs : C) (st : state) :
  let name := default s (Plot._projshort !! upper s) in
  let georange := VTuple [latMin; latMax; lonMin; lonMax] in
  MapSet.proj m = Some s → s ≠ "" →
  MapSet.georange m = Some [latMin; latMax; lonMin; lonMax] →
  MapSet.proj_params m = None →
  ccrs_new name {["central_longitude" := VNum ((lonMin + lonMax) / 2)]} =
    inr crs →
  Plot.ax (Plot.self st) = None →
  Plot.facecolor (Plot.self st) = VNone →
  Plot.aspect (Plot.self st) = VNone →
  Plot.boundary (Plot.self st) = VNone →
  let result := usemapset m Plot.ProjNone st in
  result.1 = inr () ∧
  Plot.mapset (Plot.self result.2) = Some m ∧
  Plot.scale (Plot.self result.2) = Some "50m" ∧
  Plot.georange (Plot.self result.2) = Some georange ∧
  Plot.proj (Plot.self result.2) = Some name ∧
  Plot.ax (Plot.self result.2) = Some crs ∧
  Plot.calls result.2 =
    Plot.calls st ++
    [Plot.PltAxes crs;
     Plot.SetExtent (VTuple [lonMin; lonMax; latMin; latMax]);
     Plot.PatchSetLinewidth 0].
Proof.
  intros name georange Hproj Hs Hgeo Hparams Hcrs Hax Hface Haspect Hb result.
  subst result georange.
  set (st1 := Plot.mkState (Plot.with_mapset (Some m) (Plot.self st))
                (Plot.calls st) (Plot.world st)).
  assert (usemapset m Plot.ProjNone st =
          setmap VNone (Plot.ProjName s) VNone (VStr "i")
            {["georange" := VTuple [latMin; latMax; lonMin; lonMax]]} st1)
    as ->.
  { unfold Plot.usemapset, Plot.setmap_call, sbind, Plot.modify_self,
      Plot.get_self.
    cbn [Plot.self Plot.ax Plot.with_mapset].
    rewrite Hax, Hproj, Hgeo, Hparams. cbn [Plot.proj_truthy].
    rewrite bool_decide_eq_false_2 by done. cbn [negb Plot.tuple_or_none].
    rewrite !lookup_empty. cbn [default].
    by rewrite !delete_empty, insert_empty. }
  rewrite (setmap_plain_run s "i" "50m" VNone latMin latMax lonMin lonMax
             crs st1 Hcrs); [|done|done|done].
  subst st1. cbn. by rewrite Hb.
Qed.

(** X13. [usemapset] on a plot that has axes already, or with nothing that
    names a projection, only stores the mapset: no map is set up, nothing
    is drawn, [georange] and scale stay as they were. *)
Theorem usemapset_only_stores_mapset (m : @MapSet.t G)
    (proj : Plot.projarg) (st : state) :
  is_Some (Plot.ax (Plot.self st)) ∨
  (Plot.proj_truthy proj = false ∧
   (MapSet.proj m = None ∨ MapSet.proj m = Some "")) →
  usemapset m proj st =
    (inr (),
     Plot.mkState (Plot.with_mapset (Some m) (Plot.self st))
       (Plot.calls st) (Plot.world st)).
Proof.
  intros Hcase. unfold Plot.usemapset, sbind, Plot.modify_self,
    Plot.get_self, sret.
  cbn [Plot.self Plot.ax Plot.with_mapset].
  destruct (Plot.ax (Plot.self st)) as [c|] eqn:Hax; [done|].
  destruct Hcase as [[c Hc]|[Hproj Hm]]; [done|].
  rewrite Hproj. by destruct Hm as [->| ->].
Qed.

Lemma or_key_run {V} (x : option V) (d : gmap string V) (k : string)
    (v : V) (st : state) :
  d !! k = Some v → Plot.or_key x d k st = (inr (default v x), st).
Proof. intros Hk. unfold Plot.or_key, Plot.getkey. rewrite Hk. by destruct x. Qed.

Lemma or_color_run (x : pyval) (d : gmap string pyval) (k : string)
    (v : pyval) (st : state) :
  d !! k = Some v →
  Plot.or_color x d k st = (inr (match x with VNone => v | c => c end), st).
Proof.
  intros Hk. unfold Plot.or_color, Plot.getkey. rewrite Hk. by destruct x.
Qed.

Lemma or_scale_run (res : option string) (scale : string) (st : state) :
  Plot.scale (Plot.self st) = Some scale →
  ∃ r, Plot.or_scale res st = (inr r, st).
Proof.
  intros Hs. unfold Plot.or_scale, sbind, Plot.get_self, Plot.attr.
  destruct res as [[|]|]; cbn; rewrite ?Hs; by eexists.
Qed.

(** X14. [drawcoastline] on a plot whose mapset has a coastline adds that
    cached feature and then raises [AttributeError], whatever its
    arguments: the next line reads [self.mapset.lakes], an attribute that
    [MapSet] does not have. *)
Theorem drawcoastline_with_mapset_raises (m : @MapSet.t G)
    (f : @PartialNaturalEarthFeature.t G)
    (lw_coast lw_river lw_lake : option Q)
    (color_coast color_river color_lake : pyval) (res : option string)
    (rivers lakes : bool) (crs : C) (scale : string)
    (w_coast w_river w_lake : Q) (c_coast c_river c_lake : pyval)
    (st : state) :
  Plot.mapset (Plot.self st) = Some m →
  MapSet.coastline m = Some f →
  Plot.ax (Plot.self st) = Some crs →
  Plot.scale (Plot.self st) = Some scale →
  Plot.linewidth (Plot.self st) !! "coastline" = Some w_coast →
  Plot.linewidth (Plot.self st) !! "rivers" = Some w_river →
  Plot.linewidth (Plot.self st) !! "lakes" = Some w_lake →
  Plot.linecolor (Plot.self st) !! "coastline" = Some c_coast →
  Plot.linecolor (Plot.self st) !! "rivers" = Some c_river →
  Plot.linecolor (Plot.self st) !! "lakes" = Some c_lake →
  let color := match color_coast with VNone => c_coast | c => c end in
  let lw := default w_coast lw_coast in
  Plot.drawcoastline lw_coast lw_river lw_lake
      color_coast color_river color_lake res rivers lakes st =
    (inl AttributeError,
     Plot.mkState (Plot.self st)
       (Plot.calls st ++
        [Plot.UpdateKwargs (Plot.Cached f) (VStr "none") color;
         Plot.AddFeature (Plot.Cached f) {["linewidth" := VNum lw]}])
       (Plot.world st)).
Proof.
  intros Hm Hf Hax Hscale Hw1 Hw2 Hw3 Hc1 Hc2 Hc3 color lw.
  subst color lw. destruct m. cbn in Hf. subst.
  destruct (or_scale_run res scale st Hscale) as [r Hr].
  unfold Plot.drawcoastline, sbind, Plot.get_self.
  rewrite (or_key_run _ _ _ _ _ Hw1), (or_key_run _ _ _ _ _ Hw2),
    (or_key_run _ _ _ _ _ Hw3), (or_color_run _ _ _ _ _ Hc1),
    (or_color_run _ _ _ _ _ Hc2), (or_color_run _ _ _ _ _ Hc3), Hr, Hm.
  unfold Plot.usefeature, Plot.the_ax, Plot.emit, Plot.get_self, Plot.attr,
    Plot.mapset_lakes, sbind, sret, sraise.
  cbn. rewrite Hax. cbn. by rewrite <-(assoc_L (++)).
Qed.

(** X15. [drawcountry] on a plot whose mapset has the borders draws the
    cached feature and reads no shapefile.  Otherwise it reads the
    shapefile of countries of the package at each call: when the
    shapefile cannot be read it raises and draws nothing. *)
Theorem drawcountry_uses_cached_borders (lw : option Q) (color : pyval)
    (res : option string) (crs : C) (scale : string) (w : Q) (c : pyval)
    (st : state) :
  Plot.ax (Plot.self st) = Some crs →
  Plot.scale (Plot.self st) = Some scale →
  Plot.linewidth (Plot.self st) !! "country" = Some w →
  Plot.linecolor (Plot.self st) !! "country" = Some c →
  let color' := match color with VNone => c | x => x end in
  let style : gmap string pyval := {["linewidth" := VNum (default w lw)]} in
  let run := Plot.drawcountry _CountryDir lw color res st in
  (∀ m f, Plot.mapset (Plot.self st) = Some m →
     MapSet.country m = Some f →
     run = (inr (),
            Plot.mkState (Plot.self st)
              (Plot.calls st ++
               [Plot.UpdateKwargs (Plot.Cached f) (VStr "none") color';
                Plot.AddFeature (Plot.Cached f) style])
              (Plot.world st))) ∧
  ((Plot.mapset (Plot.self st) = None ∨
    ∃ m, Plot.mapset (Plot.self st) = Some m ∧ MapSet.country m = None) →
   match shapefiles (Plot.world st) !! _CountryDir with
   | None => run = (inl (Raised ShapefileError), st)
   | Some geoms =>
       run = (inr (),
              Plot.mkState (Plot.self st)
                (Plot.calls st ++
                 [Plot.AddFeature
                    (Plot.Shapely geoms "PlateCarree"
                       (list_to_map [("facecolor", VStr "none");
                                     ("edgecolor", color')]))
                    style])
                (Plot.world st))
   end).
Proof.
  intros Hax Hscale Hw Hc color' style run. subst color' style run.
  split.
  - intros m f Hm Hf. destruct m. cbn in Hf. subst.
    destruct (or_scale_run res scale st Hscale) as [r Hr].
    unfold Plot.drawcountry, sbind, Plot.get_self.
    rewrite (or_key_run _ _ _ _ _ Hw), (or_color_run _ _ _ _ _ Hc), Hr, Hm.
    unfold Plot.usefeature, Plot.the_ax, Plot.emit, Plot.get_self, Plot.attr,
      sbind, sret, sraise.
    cbn. rewrite Hax. cbn. by rewrite <-(assoc_L (++)).
  - intros Hm.
    destruct (or_scale_run res scale st Hscale) as [r Hr].
    assert (∀ A (k1 : @PartialNaturalEarthFeature.t G → A) (k2 : A),
              match Plot.mapset (Plot.self st) with
              | Some (MapSet.mk _ _ _ _ (Some country) _ _ _ _ _ _) =>
                  k1 country
              | _ => k2
              end = k2) as Hbranch.
    { intros A k1 k2.
      destruct Hm as [->|(m & -> & Hk)]; [done|].
      destruct m. cbn in Hk. by subst. }
    unfold Plot.drawcountry, sbind, Plot.get_self.
    rewrite (or_key_run _ _ _ _ _ Hw), (or_color_run _ _ _ _ _ Hc), Hr.
    rewrite Hbranch.
    unfold Plot.the_ax, Plot.emit, Plot.get_self, Plot.attr, Plot.lift_world,
      Reader_geometries, bind, get, ret, raise, sbind, sret, sraise.
    rewrite Hax.
    destruct (shapefiles (Plot.world st) !! _CountryDir) as [geoms|];
      cbn; by destruct st.
Qed.

Lemma style_table_no_county (s ocean land : string)
    (colors : gmap string pyval) (style_colors : list string) :
  Plot.style_table s = Some (ocean, land, colors, style_colors) →
  colors !! "county" = None.
Proof.
  unfold Plot.style_table. repeat case_decide; intros [= <- <- <- <-]; done.
Qed.

(** X16. [style] on a plot that has a mapset raises [AttributeError] for
    each of the four styles: it adds the ocean and the land, cached or
    predefined, and then reads [self.mapset.lakes], which [MapSet] does
    not have.  The line colours of the style are set before. *)
Theorem style_with_mapset_raises (s ocean land scale : string)
    (colors : gmap string pyval) (style_colors : list string)
    (m : @MapSet.t G) (crs : C) (st : state) :
  Plot.style_table s = Some (ocean, land, colors, style_colors) →
  Plot.mapset (Plot.self st) = Some m →
  Plot.ax (Plot.self st) = Some crs →
  Plot.scale (Plot.self st) = Some scale →
  let feature (cached : option (@PartialNaturalEarthFeature.t G))
      (name : string) :=
    match cached with
    | Some f => Plot.Cached f
    | None => Plot.Predefined name scale
    end in
  Plot.style s st =
    (inl AttributeError,
     Plot.mkState
       (Plot.with_style_colors (Some style_colors)
          (Plot.with_linecolor (colors ∪ Plot.linecolor (Plot.self st))
             (Plot.self st)))
       (Plot.calls st ++
        [Plot.AddFeature (feature (MapSet.ocean m) "OCEAN")
           {["color" := VStr ocean]};
         Plot.AddFeature (feature (MapSet.land m) "LAND")
           {["color" := VStr land]}])
       (Plot.world st)).
Proof.
  intros Htable Hm Hax Hscale feature. subst feature.
  unfold Plot.style. rewrite Htable.
  unfold Plot.add_cached, Plot.add_predefined, Plot.mapset_lakes,
    Plot.the_ax, Plot.emit, Plot.get_self, Plot.modify_self, Plot.attr,
    sbind, sret, sraise.
  cbn. rewrite Hm. destruct m as [? ? ? ? ? [l|] [o|] ? ? ? ?];
    do 4 (cbn; rewrite ?Hax, ?Hscale); cbn; by rewrite <-?(assoc_L (++)).
Qed.

(** X17. [style] changes colours only.  Whatever the name and the plot,
    and also when it raises, the line widths, the font sizes, the mapset
    and the world are as before, and so is the colour of the county lines,
    which no style sets.  A name that is not one of the four styles only
    prints a line. *)
Theorem style_changes_colours_only (s : string) (st : state) :
  let st' := (Plot.style s st).2 in
  Plot.linewidth (Plot.self st') = Plot.linewidth (Plot.self st) ∧
  Plot.fontsize (Plot.self st') = Plot.fontsize (Plot.self st) ∧
  Plot.mapset (Plot.self st') = Plot.mapset (Plot.self st) ∧
  Plot.linecolor (Plot.self st') !! "county" =
    Plot.linecolor (Plot.self st) !! "county" ∧
  Plot.world st' = Plot.world st ∧
  (s ∉ ["jma"; "bom"; "fnmoc"; "blackBGRadar"] →
   ∃ msg, Plot.style s st =
            (inr (), Plot.mkState (Plot.self st)
                       (Plot.calls st ++ [Plot.Print msg]) (Plot.world st))).
Proof.
  intros st'. subst st'.
  destruct (Plot.style_table s) as [[[[ocean land] colors] style_colors]|]
    eqn:Htable.
  - pose proof (style_table_no_county _ _ _ _ _ Htable) as Hcounty.
    assert (s ∈ ["jma"; "bom"; "fnmoc"; "blackBGRadar"]) as Hin.
    { revert Htable. unfold Plot.style_table.
      repeat case_decide; subst; intros; try done;
        by repeat first [apply list_elem_of_here | apply list_elem_of_further]. }
    unfold Plot.style. rewrite Htable.
    unfold Plot.add_cached, Plot.add_predefined, Plot.mapset_lakes,
      Plot.the_ax, Plot.emit, Plot.get_self, Plot.modify_self, Plot.attr,
      sbind, sret, sraise.
    cbn. repeat case_match; simplify_eq; cbn;
      rewrite ?lookup_union, ?Hcounty, ?(left_id_L None union);
      split_and!; try done; by intros [].
  - unfold Plot.style. rewrite Htable. cbn. split_and!; try done.
    intros _. by eexists.
Qed.
End MapSetOnPlot.

Section Draw.
Context {G C F : Type}.
Variable _CountryDir : string.
Variable _CN_CityDir _CN_CityTWDir _US_CityDir _CN_CountyDir : string.
Variable drawprovince drawparameri : @Plot.PM G C F ().

Abbreviation draw :=
  (Plot.draw _CountryDir _CN_CityDir _CN_CityTWDir _US_CityDir _CN_CountyDir
     drawprovince drawparameri).
Abbreviation draw_command :=
  (Plot.draw_command _CountryDir _CN_CityDir _CN_CityTWDir _US_CityDir
     _CN_CountyDir drawprovince drawparameri).

Lemma for_each_ext {S E A} (l : list A) (f g : A → SE S E ()) :
  Forall (λ x, f x = g x) l → for_each l f = for_each l g.
Proof.
  induction 1 as [|x l Hx _ IH]; [done|]. simpl. by rewrite Hx, IH.
Qed.

(** A word in lower case and without space is one command. *)
Lemma draw_one_command (limit : nat) (w : string) :
  is_lower w → contains_space w = false →
  draw (S limit) w = draw_command w.
Proof. intros Hlow Hspace. simpl. by rewrite Hlow, Hspace. Qed.

(** The closed form of [draw] for a recursion limit of two or more. *)
Lemma draw_closed_form (limit : nat) (cmd : string) :
  draw (S (S limit)) cmd =
    if contains_space (lower cmd)
    then for_each (split (lower cmd)) draw_command
    else draw_command (lower cmd).
Proof.
  cbn [Plot.draw]. destruct (contains_space (lower cmd)); [|done].
  apply for_each_ext.
  pose proof (split_go_chars (λ c, lower_ascii c = c) None (lower cmd)) as Hl.
  pose proof (split_go_no_whitespace None (lower cmd)) as Hs.
  specialize (Hl (Forall_nil_2 _)). specialize (Hs (Forall_nil_2 _)).
  specialize (Hl (proj2 (chars_is_lower _) (lower_is_lower cmd))).
  unfold split. induction (split_go None (lower cmd)) as [|w ws IH];
    [done|].
  inv Hl. inv Hs. constructor; [|by apply IH].
  apply draw_one_command; [by apply chars_is_lower|by apply chars_no_space].
Qed.

(** X18. [draw] never calls itself more than once in a row: whatever the
    command string, a recursion limit of two gives its result, which is
    the same for every larger limit.  The commands are the words of the
    string in lower case; they are run from left to right, and a word that
    is no command prints a line and does not stop the others. *)
Theorem draw_runs_the_words_in_order (limit : nat) (cmd : string) :
  draw (S (S limit)) cmd =
    (if contains_space (lower cmd)
     then for_each (split (lower cmd)) draw_command
     else draw_command (lower cmd)) ∧
  draw (S (S limit)) cmd = draw 2 cmd ∧
  (∀ w, w ∉ ["coastline"; "coastlines"; "country"; "countries"; "province";
             "provinces"; "city"; "cities"; "county"; "counties";
             "parameri"; "meripara"] →
        draw_command w = Plot.emit (Plot.Print ("Illegal draw command: " +:+ w))).
Proof.
  split_and!.
  - apply draw_closed_form.
  - by rewrite (draw_closed_form limit), (draw_closed_form 0%nat).
  - intros w Hw. unfold Plot.draw_command.
    repeat (rewrite bool_decide_eq_false_2;
            [|intros [->| ->]; apply Hw;
              by repeat first [apply list_elem_of_here
                              | apply list_elem_of_further]]).
    done.
Qed.

Lemma is_whitespace_lower (c : Ascii.ascii) :
  is_whitespace (lower_ascii c) = is_whitespace c.
Proof. destruct c as [[] [] [] [] [] [] [] []]; reflexivity. Qed.

Lemma lower_app (a b : string) : lower (a +:+ b) = lower a +:+ lower b.
Proof. induction a as [|c a IH]; [done|]. simpl. by rewrite IH. Qed.

Lemma lower_concat (ws : list string) :
  lower (String.concat " " ws) = String.concat " " (lower <$> ws).
Proof.
  induction ws as [|w [|w' ws] IH]; [done..|].
  change (lower (w +:+ " " +:+ String.concat " " (w' :: ws)) =
          lower w +:+ " " +:+ String.concat " " (lower <$> w' :: ws)).
  by rewrite !lower_app, IH.
Qed.

Lemma string_app_nil_r (s : string) : s +:+ "" = s.
Proof.
  induction s as [|c s IH]; [done|].
  change (String c (s +:+ "") = String c s). by rewrite IH.
Qed.

Lemma string_app_assoc (a b c : string) : (a +:+ b) +:+ c = a +:+ b +:+ c.
Proof.
  induction a as [|x a IH]; [done|].
  change (String x ((a +:+ b) +:+ c) = String x (a +:+ b +:+ c)).
  by rewrite IH.
Qed.

Lemma word_lower (w : string) : word w → word (lower w).
Proof.
  intros [Hne Hws]. split; [by destruct w|].
  clear Hne. induction w as [|c w IH]; [done|]. simpl in *.
  destruct Hws as [Hc Hw]. rewrite is_whitespace_lower. auto.
Qed.

Lemma split_go_word (cur : option string) (w rest : string) :
  word w →
  split_go cur (w +:+ rest) = split_go (Some (default "" cur +:+ w)) rest.
Proof.
  intros [Hne Hws]. revert cur.
  induction w as [|c w IH]; intros cur; [done|]. clear Hne.
  simpl in Hws. destruct Hws as [Hc Hw]. simpl. rewrite Hc.
  destruct w as [|d w].
  - done.
  - rewrite IH by done. simpl default.
    by rewrite string_app_assoc.
Qed.

Lemma split_go_space (cur : option string) (rest : string) :
  split_go cur (" " +:+ rest) = option_list cur ++ split_go None rest.
Proof. reflexivity. Qed.

Lemma split_concat (ws : list string) :
  Forall word ws → split (String.concat " " ws) = ws.
Proof.
  unfold split. induction 1 as [|w ws Hw Hws IH]; [done|].
  destruct ws as [|w' ws].
  - simpl. rewrite <-(string_app_nil_r w) at 1.
    by rewrite split_go_word.
  - change (split_go None (w +:+ " " +:+ String.concat " " (w' :: ws)) =
            w :: w' :: ws).
    rewrite split_go_word, split_go_space by done. by rewrite IH.
Qed.

Lemma contains_space_app (a b : string) :
  contains_space (a +:+ b) = contains_space a || contains_space b.
Proof.
  induction a as [|c a IH]; [done|]. simpl. by rewrite IH, orb_assoc.
Qed.

Lemma for_each_fmap {S E A B} (h : A → B) (l : list A) (f : B → SE S E ()) :
  for_each (h <$> l) f = for_each l (λ x, f (h x)).
Proof. induction l as [|x l IH]; [done|]. cbn. by rewrite <-IH. Qed.

(** X19. Commands joined by single spaces are run one after the other,
    each in lower case: for two or more words without white space, [draw]
    of the joined string is the sequence of their commands; a single such
    word is its command. *)
Theorem draw_of_joined_words (limit : nat) (w1 w2 : string)
    (ws : list string) :
  Forall word (w1 :: w2 :: ws) →
  draw (S (S limit)) (String.concat " " (w1 :: w2 :: ws)) =
    for_each (w1 :: w2 :: ws) (λ w, draw_command (lower w)) ∧
  draw (S limit) w1 = draw_command (lower w1).
Proof.
  intros Hwords. split.
  - rewrite draw_closed_form.
    rewrite lower_concat.
    assert (contains_space
              (String.concat " " (lower <$> w1 :: w2 :: ws)) = true) as ->.
    { change (contains_space
                (lower w1 +:+ " " +:+
                 String.concat " " (lower <$> w2 :: ws)) = true).
      rewrite contains_space_app. simpl. apply orb_true_r. }
    rewrite split_concat.
    + apply for_each_fmap.
    + apply Forall_fmap. clear -Hwords.
      induction Hwords as [|w l Hw _ IH]; constructor; [|done].
      by apply word_lower.
  - inv Hwords. cbn [Plot.draw].
    assert (contains_space (lower w1) = false) as ->; [|done].
    apply chars_no_space. by apply word_lower.
Qed.
End Draw.

Section DrawCity.
Context {G C F : Type}.
Variable _CN_CityDir _CN_CityTWDir _US_CityDir : string.

Lemma add_shapefile_run (directory : string) (color : pyval) (lw : Q)
    (crs : C) (st : @Plot.state G C F) :
  Plot.ax (Plot.self st) = Some crs →
  Plot.add_shapefile directory color lw st =
    match shapefiles (Plot.world st) !! directory with
    | Some geoms =>
        (inr (),
         Plot.mkState (Plot.self st)
           (Plot.calls st ++
            [Plot.AddFeature
               (Plot.Shapely geoms "PlateCarree"
                  (list_to_map [("facecolor", VStr "none");
                                ("edgecolor", color)]))
               {["linewidth" := VNum lw]}])
           (Plot.world st))
    | None => (inl (Raised ShapefileError), st)
    end.
Proof.
  intros Hax.
  unfold Plot.add_shapefile, Plot.the_ax, Plot.emit, Plot.get_self,
    Plot.attr, Plot.lift_world, Reader_geometries, bind, get, ret, raise,
    sbind, sret, sraise.
  rewrite Hax.
  destruct (shapefiles (Plot.world st) !! directory); cbn; by destruct st.
Qed.

(** X20. [drawcity] is not all-or-nothing.  It reads the three shapefiles
    of cities in the order of the source and adds each one to the axes as
    soon as it is read: when a shapefile cannot be read the call raises,
    and the features of the shapefiles before it stay on the axes.  The
    plot's attributes and the files are unchanged in every case. *)
Theorem drawcity_stops_at_first_unreadable (lw : option Q) (color : pyval)
    (crs : C) (w : Q) (c : pyval) (st : @Plot.state G C F) :
  Plot.ax (Plot.self st) = Some crs →
  Plot.linewidth (Plot.self st) !! "city" = Some w →
  Plot.linecolor (Plot.self st) !! "city" = Some c →
  let color' := match color with VNone => c | x => x end in
  let feat (geoms : list G) :=
    Plot.AddFeature
      (Plot.Shapely geoms "PlateCarree"
         (list_to_map [("facecolor", VStr "none"); ("edgecolor", color')]))
      {["linewidth" := VNum (default w lw)]} in
  let after (drawn : list (list G)) :=
    Plot.mkState (Plot.self st) (Plot.calls st ++ (feat <$> drawn))
      (Plot.world st) in
  let file (directory : string) :=
    shapefiles (Plot.world st) !! directory in
  Plot.drawcity _CN_CityDir _CN_CityTWDir _US_CityDir lw color st =
    match file _CN_CityDir, file _CN_CityTWDir, file _US_CityDir with
    | Some g1, Some g2, Some g3 => (inr (), after [g1; g2; g3])
    | Some g1, Some g2, None => (inl (Raised ShapefileError), after [g1; g2])
    | Some g1, None, _ => (inl (Raised ShapefileError), after [g1])
    | None, _, _ => (inl (Raised ShapefileError), after [])
    end.
Proof.
  intros Hax Hw Hc color' feat after file. subst color' feat after file.
  unfold Plot.drawcity, sbind, Plot.get_self.
  rewrite (or_key_run _ _ _ _ _ Hw), (or_color_run _ _ _ _ _ Hc).
  rewrite (add_shapefile_run _ _ _ crs st Hax).
  destruct (shapefiles (Plot.world st) !! _CN_CityDir) as [g1|];
    [|cbn; rewrite app_nil_r; by destruct st].
  rewrite (add_shapefile_run _ _ _ crs) by done. cbn.
  destruct (shapefiles (Plot.world st) !! _CN_CityTWDir) as [g2|]; [|done].
  rewrite (add_shapefile_run _ _ _ crs) by done. cbn.
  destruct (shapefiles (Plot.world st) !! _US_CityDir) as [g3|];
    by rewrite <-?(assoc_L (++)).
Qed.
End DrawCity.

Section TimeStamp.
Context {G C F D : Type}.
Variable strptime : string → pyexn + D.
Variable strftime : D → string.
Variable add_hours : D → Z → pyexn + D.
Variable hour : D → Z.
Variable replace_hour : D → Z → pyexn + D.

Abbreviation timestamp :=
  (Plot.timestamp (G:=G) (C:=C) (F:=F) strptime strftime add_hours hour
     replace_hour).

(** X21. A [duration] other than zero makes [timestamp] ignore [nearest],
    and with an [int] for [fcsthour] it is the same as giving the two ends
    of the window, the smaller one first: [fcsthour] and
    [fcsthour + duration].  With a string, a tuple or a list for
    [fcsthour], a [duration] other than zero raises [TypeError] and
    nothing is written.  ([fcsthour] is an [int], a string, or a tuple or
    list of [int]s here; other numbers are not modelled.) *)
Theorem timestamp_duration_window (base : Plot.basetime_arg)
    (fcsthour : Plot.fcsthour_arg) (duration : Z) (nearest : option Z)
    (st : @Plot.state G C F) :
  duration ≠ 0%Z →
  timestamp base fcsthour duration nearest st =
    timestamp base fcsthour duration None st ∧
  (∀ f, fcsthour = Plot.FcstInt f →
     timestamp base fcsthour duration nearest st =
       timestamp base
         (Plot.FcstSeq [Z.min f (f + duration); Z.max f (f + duration)])
         0 None st) ∧
  (∀ b, base = Plot.BaseTime b →
     (∃ s, fcsthour = Plot.FcstStr s) ∨ (∃ t, fcsthour = Plot.FcstSeq t) →
     timestamp base fcsthour duration nearest st =
       (inl (Raised TypeError), st)).
Proof.
  intros Hd.
  assert (∀ b n, Plot.timestamp_window add_hours hour replace_hour
                   b fcsthour duration n =
                 Plot.timestamp_window (G:=G) (C:=C) (F:=F) add_hours hour
                   replace_hour b fcsthour duration None) as Hwin.
  { intros b n. unfold Plot.timestamp_window. by rewrite !decide_True. }
  split_and!.
  - unfold Plot.timestamp. apply sbind_ext. intros b s' _. cbv beta.
    by rewrite Hwin.
  - intros f ->. unfold Plot.timestamp. apply sbind_ext. intros b s' _.
    cbv beta.
    assert (∀ l, Plot.timestamp_window (G:=G) (C:=C) (F:=F) add_hours hour
                   replace_hour b (Plot.FcstSeq l) 0 None =
                 sret (Plot.FcstSeq l)) as -> by done.
    unfold Plot.timestamp_window. rewrite decide_True by done.
    case_decide.
    + by rewrite Z.min_l, Z.max_r by lia.
    + by rewrite Z.min_r, Z.max_l by lia.
  - intros b -> [[s ->]|[t ->]];
      unfold Plot.timestamp, Plot.timestamp_window, sbind, sret, sraise;
      cbn; by rewrite decide_True.
Qed.

(** X22. With [duration=0], an [int] [fcsthour] and [nearest > 0], the
    time stamp is the one of a window that ends at [fcsthour] and begins
    between one and [nearest] hours before, and never more than 24: the
    beginning is the hour before [fcsthour], moved back to an hour of the
    day that is a multiple of [nearest].  [replace] does not raise.  The
    laws of [datetime] that this rests on are hypotheses: the hour of a
    date is within 0 and 23, [replace(hour=h)] returns a date of hour [h]
    for these [h], and adding [k] hours moves the hour of the day by [k]
    modulo 24. *)
Theorem timestamp_nearest_window (b validtime : D) (f n : Z)
    (st : @Plot.state G C F) :
  (∀ d, 0 ≤ hour d < 24)%Z →
  (∀ d h, (0 ≤ h < 24)%Z →
     ∃ d', replace_hour d h = inr d' ∧ hour d' = h) →
  (∀ d k d', add_hours d k = inr d' → hour d' = ((hour d + k) mod 24)%Z) →
  (0 < n)%Z →
  add_hours b (f - 1) = inr validtime →
  let fromhour := (f - 1 - hour validtime mod n)%Z in
  timestamp (Plot.BaseTime b) (Plot.FcstInt f) 0 (Some n) st =
    timestamp (Plot.BaseTime b) (Plot.FcstSeq [fromhour; f]) 0 None st ∧
  (1 ≤ f - fromhour ≤ n)%Z ∧
  (f - fromhour ≤ 24)%Z ∧
  (∀ fromtime, add_hours b fromhour = inr fromtime →
     hour fromtime = (n * (hour validtime / n))%Z).
Proof.
  intros Hhour Hreplace Hadd Hn Hvalid fromhour. subst fromhour.
  pose proof (Hhour validtime) as Hv.
  pose proof (Z.mod_pos_bound (hour validtime) n Hn) as Hmod.
  pose proof (Z.div_mod (hour validtime) n ltac:(lia)) as Hdiv.
  assert (0 ≤ hour validtime / n)%Z as Hq by (apply Z.div_pos; lia).
  split_and!.
  - destruct (Hreplace validtime (hour validtime / n * n)%Z ltac:(nia))
      as (nearesttime & Hrep & Hnear).
    unfold Plot.timestamp, Plot.timestamp_window, sbind, sret.
    rewrite decide_False by (intros Hne; by apply Hne).
    rewrite decide_True by lia.
    rewrite decide_False by (intros Hne; by apply Hne).
    rewrite Hvalid. cbn. rewrite Hrep. cbn. rewrite Hnear.
    by replace (f + hour validtime / n * n - hour validtime - 1)%Z
      with (f - 1 - hour validtime mod n)%Z by lia.
  - lia.
  - lia.
  - lia.
  - intros fromtime Hfrom.
    rewrite (Hadd _ _ _ Hfrom).
    rewrite (Hadd _ _ _ Hvalid) in *.
    set (x := (hour b + (f - 1))%Z) in *.
    replace (hour b + (f - 1 - x mod 24 mod n))%Z
      with (x - x mod 24 mod n)%Z by lia.
    rewrite Zminus_mod, (Z.mod_small (x mod 24 mod n) 24) by lia.
    rewrite Z.mod_small; lia.
Qed.
End TimeStamp.

Section Notes.
Context {G C F Data : Type}.
Variable nanmax nanmin nanmean : Data → pyexn + F.
Variable format_value : string → F → pyexn + string.

Abbreviation maxminnote :=
  (Plot.maxminnote (G:=G) (C:=C) nanmax nanmin nanmean format_value).

Lemma append_nonempty_r (a b : string) : b ≠ "" → a +:+ b ≠ "".
Proof. intros Hb. destruct a; [done|discriminate]. Qed.

Lemma concat_nonempty (sep : string) (l : list string) :
  Forall (λ s, s ≠ "") l → l ≠ [] → String.concat sep l ≠ "".
Proof.
  intros Hl Hne. destruct l as [|x [|y l]]; [done|..]; inv Hl.
  - done.
  - change (x +:+ sep +:+ String.concat sep (y :: l) ≠ "").
    by destruct x.
Qed.

Lemma concat_snoc (sep x : string) (l : list string) :
  l ≠ [] →
  String.concat sep (l ++ [x]) = String.concat sep l +:+ sep +:+ x.
Proof.
  intros Hne. induction l as [|y [|z l] IH]; [done|done|].
  change (y +:+ sep +:+ String.concat sep ((z :: l) ++ [x]) =
          (y +:+ sep +:+ String.concat sep (z :: l)) +:+ sep +:+ x).
  rewrite IH by done. by rewrite !string_app_assoc.
Qed.

(** X23. The notes of [maxminnote] pile up in [mmnote], in the order of
    the calls and joined by [' | ']: when [mmnote] is the join of the
    notes so far, a call that returns leaves the join of these notes and
    the new one; nothing else of the plot changes and nothing is drawn.
    The [type] is read without regard to case. *)
Theorem maxminnote_joins_the_notes (data : Data)
    (name unit type fmt typestr text : string) (v : F)
    (notes : list string) (st : @Plot.state G C F) :
  Forall (λ s, s ≠ "") notes →
  Plot.mmnote (Plot.self st) = String.concat " | " notes →
  (lower type = "max" ∧ typestr = "Max." ∧ nanmax data = inr v) ∨
  (lower type = "min" ∧ typestr = "Min." ∧ nanmin data = inr v) ∨
  (lower type = "mean" ∧ typestr = "Mean" ∧ nanmean data = inr v) →
  format_value fmt v = inr text →
  let note := Plot.notestr typestr name text unit in
  note ≠ "" ∧
  maxminnote data name unit type fmt st =
    (inr (),
     Plot.mkState
       (Plot.with_mmnote (String.concat " | " (notes ++ [note]))
          (Plot.self st))
       (Plot.calls st) (Plot.world st)).
Proof.
  intros Hnotes Hmm Htype Hfmt note. subst note.
  split.
  { unfold Plot.notestr.
    destruct Htype as [(_ & -> & _)|[(_ & -> & _)|(_ & -> & _)]];
      discriminate. }
  assert (Plot.maxminnote nanmax nanmin nanmean format_value data name unit
            type fmt st =
          sbind Plot.get_self (λ p,
            if decide (Plot.mmnote p ≠ "") then
              Plot.modify_self
                (Plot.with_mmnote
                   (Plot.mmnote p +:+ " | " +:+
                    Plot.notestr typestr name text unit))
            else
              Plot.modify_self
                (Plot.with_mmnote (Plot.notestr typestr name text unit)))
            st) as ->.
  { unfold Plot.maxminnote.
    destruct Htype as [(-> & -> & Hv)|[(-> & -> & Hv)|(-> & -> & Hv)]];
      cbv zeta;
      repeat first [rewrite decide_True by done
                   | rewrite decide_False by done];
      unfold Plot.lib, sbind, sret; rewrite Hv; cbn; by rewrite Hfmt. }
  unfold sbind, Plot.get_self, Plot.modify_self. rewrite Hmm.
  destruct notes as [|n0 notes].
  - by rewrite decide_False by (intros Hne; by apply Hne).
  - rewrite decide_True by (by apply concat_nonempty).
    by rewrite concat_snoc.
Qed.

(** X24. How [maxminnote] fails.  A [type] other than [max], [min] and
    [mean], in any case of the letters, raises [PlotError]; an exception of
    the function of numpy, or of [fmt.format], goes through.  A call that
    raises changes nothing: the state after the exception is the state
    before, so that the notes collected so far are kept. *)
Theorem maxminnote_failure_changes_nothing (data : Data)
    (name unit type fmt : string) (st : @Plot.state G C F) :
  let run := maxminnote data name unit type fmt st in
  let value :=
    if decide (lower type = "max") then Some (nanmax data)
    else if decide (lower type = "min") then Some (nanmin data)
    else if decide (lower type = "mean") then Some (nanmean data)
    else None in
  (lower type ∉ ["max"; "min"; "mean"] → run = (inl PlotError, st)) ∧
  (∀ e, value = Some (inl e) → run = (inl e, st)) ∧
  (∀ v e, value = Some (inr v) → format_value fmt v = inl e →
     run = (inl e, st)) ∧
  (∀ e, run.1 = inl e → run.2 = st).
Proof.
  intros run value. subst run value.
  unfold Plot.maxminnote, Plot.lib, Plot.get_self, Plot.modify_self, sbind,
    sret, sraise.
  split_and!.
  - intros Hty. rewrite !not_elem_of_cons in Hty.
    destruct Hty as (? & ? & ? & _).
    by rewrite !decide_False by done.
  - intros e Hvalue.
    repeat case_decide; simplify_eq/=; by rewrite Hvalue.
  - intros v e Hvalue Hfmt.
    repeat case_decide; simplify_eq/=; rewrite Hvalue; cbn;
      by rewrite Hfmt.
  - intros e Hrun.
    repeat case_decide; repeat case_match; simplify_eq/=; try done;
      repeat case_decide; simplify_eq/=; done.
Qed.
End Notes.

(** * The further properties on the examples *)

(** The key [northpac], and the key [northpole] of the documentation. *)
Lemma from_map_key_example :
  (∃ r, Plot._from_map_key (VStr "northpac") (PlotExample.new_plot VNone) =
          (inr r, Plot.mkState
                    (Plot.with_no_parameri true
                       (Plot.self (PlotExample.new_plot VNone)))
                    [] world) ∧
        is_Some (Plot._projshort !! r.1) ∧ is_Some (r.2 !! "georange")) ∧
  Plot._from_map_key (VStr "northpole") (PlotExample.new_plot VNone) =
    (inl UnboundLocalError, PlotExample.new_plot VNone).
Proof.
  destruct (from_map_key_known_or_unbound (VStr "northpac")
              (PlotExample.new_plot VNone)) as (Hknown & _ & _).
  destruct (from_map_key_known_or_unbound (VStr "northpole")
              (PlotExample.new_plot VNone)) as (_ & Hunknown & Hpole).
  split.
  - apply Hknown. cbn. unfold map_keys.
    do 5 apply list_elem_of_further. apply list_elem_of_here.
  - exact (Hunknown Hpole).
Defined.

(** The region of [northpac] runs from longitude 120 to 250. *)
Lemma builtin_regions_example :
  ∃ latMin latMax lonMin lonMax,
    (list_to_map
       [("georange", VTuple [-5; 70; 120; 250]%Q);
        ("central_longitude", VNum 185);
        ("central_latitude", VNum 42.5);
        ("standard_parallels", VTuple [0; 40]%Q)] : gmap string pyval)
      !! "georange" = Some (VTuple [latMin; latMax; lonMin; lonMax]) ∧
    (lonMin < 180)%Q ∧ (180 < lonMax)%Q.
Proof.
  destruct (builtin_regions_well_formed "northpac" _ eq_refl)
    as (latMin & latMax & lonMin & lonMax & Hgeo & _ & _ & _ & _ & Hstraddle).
  exists latMin, latMax, lonMin, lonMax.
  split; [exact Hgeo|]. by apply Hstraddle.
Defined.

(** [setmap(projection='merc')] is [setmap()]: the default projection
    ['ML'] is kept.  [setmap(proj=None, projection='merc')] is
    [setmap(proj='M')], [setmap(proj=None, projection='polar')] raises
    [PlotError], and [setmap(proj=None)] raises [AttributeError] after
    the default [georange] was assigned. *)
Lemma setmap_projection_example :
  let setmap :=
    Plot.setmap (G:=Rect.t) PlotExample.ccrs_new PlotExample.crs_name
      PlotExample.aspect_auto PlotExample.aspect_cos PlotExample.cos_height in
  let st := PlotExample.new_plot VNone in
  setmap VNone (Plot.ProjName "ML") (VStr "merc") (VStr "i") ∅ st =
    setmap VNone (Plot.ProjName "ML") VNone (VStr "i") ∅ st ∧
  setmap VNone Plot.ProjNone (VStr "merc") (VStr "i") ∅ st =
    setmap VNone (Plot.ProjName "M") VNone (VStr "i") ∅ st ∧
  setmap VNone Plot.ProjNone (VStr "polar") (VStr "i") ∅ st =
    (inl PlotError, st) ∧
  setmap VNone Plot.ProjNone VNone (VStr "i") ∅ st =
    (inl AttributeError,
     Plot.mkState
       (Plot.with_map_georange (Some (VTuple [-90; 90; -180; 180]%Q))
          (Plot.with_georange (Some (VTuple [-90; 90; -180; 180]%Q))
             (Plot.self st)))
       (Plot.calls st) (Plot.world st)).
Proof.
  intros setmap st.
  destruct (setmap_projection_only_without_proj PlotExample.ccrs_new
    PlotExample.crs_name PlotExample.aspect_auto PlotExample.aspect_cos
    PlotExample.cos_height VNone (Plot.ProjName "ML") (VStr "merc") VNone
    (VStr "i") ∅ st) as (Hsame & _ & _).
  destruct (setmap_projection_only_without_proj PlotExample.ccrs_new
    PlotExample.crs_name PlotExample.aspect_auto PlotExample.aspect_cos
    PlotExample.cos_height VNone Plot.ProjNone (VStr "polar") VNone
    (VStr "i") ∅ st) as (_ & Hshort & Hraise & Hnone).
  split_and!.
  - apply Hsame. by right.
  - exact (Hshort "merc" "M" eq_refl).
  - apply Hraise; [reflexivity|discriminate|].
    intros name [= <-]. reflexivity.
  - exact (Hnone eq_refl).
Defined.

(** [setmap(proj='ml')] is [setmap(proj='ML')]. *)
Lemma setmap_short_names_example :
  let setmap :=
    Plot.setmap (G:=Rect.t) PlotExample.ccrs_new PlotExample.crs_name
      PlotExample.aspect_auto PlotExample.aspect_cos PlotExample.cos_height in
  setmap VNone (Plot.ProjName "ml") VNone (VStr "i") ∅
      (PlotExample.new_plot VNone) =
    setmap VNone (Plot.ProjName "ML") VNone (VStr "i") ∅
      (PlotExample.new_plot VNone).
Proof.
  intros setmap.
  apply (setmap_short_names_ignore_case PlotExample.ccrs_new
           PlotExample.crs_name PlotExample.aspect_auto
           PlotExample.aspect_cos PlotExample.cos_height VNone "ml").
  by eexists.
Defined.

(** [Plot(boundary='circle')] and [Plot(boundary='round')], and then
    [setmap(proj='P', georange=(5, 35, 110, 135))]: the error comes after
    the axes. *)
Lemma setmap_checks_boundary_last_example :
  let setmap (b : pyval) :=
    Plot.setmap (G:=Rect.t) PlotExample.ccrs_new PlotExample.crs_name
      PlotExample.aspect_auto PlotExample.aspect_cos PlotExample.cos_height
      VNone (Plot.ProjName "P") VNone (VStr "i")
      {["georange" := VTuple [5; 35; 110; 135]%Q]}
      (PlotExample.new_plot b) in
  (setmap (VStr "circle")).1 = inl PlotError ∧
  (setmap (VStr "round")).1 = inl (Raised TypeError) ∧
  Plot.ax (Plot.self (setmap (VStr "round")).2) = Some "PlateCarree" ∧
  Plot.calls (setmap (VStr "round")).2 =
    [Plot.PltAxes "PlateCarree";
     Plot.SetExtent (VTuple [110; 135; 5; 35]%Q)].
Proof.
  intros setmap. subst setmap. cbv beta.
  destruct (setmap_checks_boundary_last PlotExample.ccrs_new
    PlotExample.crs_name PlotExample.aspect_auto PlotExample.aspect_cos
    PlotExample.cos_height "P" "i" "50m" VNone (VStr "circle")
    5 35 110 135 "PlateCarree" (PlotExample.new_plot (VStr "circle"))
    eq_refl eq_refl eq_refl eq_refl eq_refl)
    as (_ & _ & _ & _ & _ & _ & _ & Hother).
  destruct (setmap_checks_boundary_last PlotExample.ccrs_new
    PlotExample.crs_name PlotExample.aspect_auto PlotExample.aspect_cos
    PlotExample.cos_height "P" "i" "50m" VNone (VStr "round")
    5 35 110 135 "PlateCarree" (PlotExample.new_plot (VStr "round"))
    eq_refl eq_refl eq_refl eq_refl eq_refl)
    as (Hax & _ & _ & _ & _ & _ & Hround & _).
  destruct Hother as [Hraise _]; [discriminate..|].
  destruct (Hround eq_refl) as [Htype Hcalls].
  split_and!; [exact Hraise | exact Htype | exact Hax | exact Hcalls].
Defined.

(** [Plot()] and then [usemapset(mapset)], with the mapset of the example. *)
Lemma usemapset_example :
  Plot.mapset (Plot.self PlotExample.plot_with_mapset) =
    Some PlotExample.mapset ∧
  Plot.scale (Plot.self PlotExample.plot_with_mapset) = Some "50m" ∧
  Plot.proj (Plot.self PlotExample.plot_with_mapset) = Some "PlateCarree" ∧
  Plot.calls PlotExample.plot_with_mapset =
    [Plot.PltAxes "PlateCarree";
     Plot.SetExtent (VTuple [110; 135; 5; 35]%Q);
     Plot.PatchSetLinewidth 0].
Proof.
  assert ("P" ≠ "") as Hp by discriminate.
  destruct (usemapset_sets_map_but_not_scale PlotExample.ccrs_new
    PlotExample.crs_name PlotExample.aspect_auto PlotExample.aspect_cos
    PlotExample.cos_height PlotExample.mapset "P" 5 35 110 135
    "PlateCarree" (PlotExample.new_plot VNone)
    eq_refl Hp eq_refl eq_refl eq_refl eq_refl eq_refl eq_refl eq_refl)
    as (_ & Hm & Hscale & _ & Hproj & _ & Hcalls).
  split_and!; [exact Hm | exact Hscale | exact Hproj | exact Hcalls].
Defined.

(** A second [usemapset] on the plot that has its axes. *)
Lemma usemapset_only_stores_example :
  Plot.usemapset PlotExample.ccrs_new PlotExample.crs_name
      PlotExample.aspect_auto PlotExample.aspect_cos PlotExample.cos_height
      Example.mapset Plot.ProjNone PlotExample.plot_with_mapset =
    (inr (),
     Plot.mkState
       (Plot.with_mapset (Some Example.mapset)
          (Plot.self PlotExample.plot_with_mapset))
       (Plot.calls PlotExample.plot_with_mapset)
       (Plot.world PlotExample.plot_with_mapset)).
Proof.
  apply usemapset_only_stores_mapset. left. by eexists.
Defined.

(** [Plot()], [usemapset(mapset)] and then [drawcoastline()]: the cached
    coastline is added and the call raises. *)
Lemma drawcoastline_with_mapset_example :
  let st := PlotExample.plot_with_mapset in
  ∃ f, MapSet.coastline PlotExample.mapset = Some f ∧
  Plot.drawcoastline None None None VNone VNone VNone None true true st =
    (inl AttributeError,
     Plot.mkState (Plot.self st)
       (Plot.calls st ++
        [Plot.UpdateKwargs (Plot.Cached f) (VStr "none") (VStr "#222222");
         Plot.AddFeature (Plot.Cached f) {["linewidth" := VNum 0.3]}])
       (Plot.world st)).
Proof.
  intros st. eexists. split; [reflexivity|].
  exact (drawcoastline_with_mapset_raises PlotExample.mapset _
           None None None VNone VNone VNone None true true
           "PlateCarree" "50m" 0.3 0.2 0.2
           (VStr "#222222") (VStr "#222222") (VStr "#222222") st
           eq_refl eq_refl eq_refl eq_refl eq_refl eq_refl eq_refl
           eq_refl eq_refl eq_refl).
Defined.

(** [drawcountry()] on the plot with the mapset, which has the borders, and
    on the new plot moved to axes, which reads the shapefile of the
    package. *)
Lemma drawcountry_example :
  let st := PlotExample.plot_with_mapset in
  (∃ f, MapSet.country PlotExample.mapset = Some f ∧
     Plot.drawcountry "borders.shp" None VNone None st =
       (inr (),
        Plot.mkState (Plot.self st)
          (Plot.calls st ++
           [Plot.UpdateKwargs (Plot.Cached f) (VStr "none") (VStr "#222222");
            Plot.AddFeature (Plot.Cached f) {["linewidth" := VNum 0.3]}])
          (Plot.world st))) ∧
  let st0 :=
    Plot.mkState (Plot.with_mapset None (Plot.self st)) (Plot.calls st)
      (Plot.world st) in
  Plot.drawcountry "no such file.shp" None VNone None st0 =
    (inl (Raised ShapefileError), st0).
Proof.
  intros st. split.
  - eexists. split; [reflexivity|].
    exact (proj1 (drawcountry_uses_cached_borders "borders.shp" None VNone
                    None "PlateCarree" "50m" 0.3 (VStr "#222222") st
                    eq_refl eq_refl eq_refl eq_refl)
             PlotExample.mapset _ eq_refl eq_refl).
  - intros st0.
    exact (proj2 (drawcountry_uses_cached_borders "no such file.shp" None
                    VNone None "PlateCarree" "50m" 0.3 (VStr "#222222") st0
                    eq_refl eq_refl eq_refl eq_refl)
             (or_introl eq_refl)).
Defined.

(** [style('jma')] on the plot with the mapset. *)
Lemma style_with_mapset_example :
  let st := PlotExample.plot_with_mapset in
  (Plot.style "jma" st).1 = inl AttributeError ∧
  Plot.calls (Plot.style "jma" st).2 =
    Plot.calls st ++
    [Plot.AddFeature (Plot.Predefined "OCEAN" "50m")
       {["color" := VStr "#87A9D2"]};
     Plot.AddFeature (Plot.Predefined "LAND" "50m")
       {["color" := VStr "#AAAAAA"]}].
Proof.
  intros st.
  rewrite (style_with_mapset_raises "jma" "#87A9D2" "#AAAAAA" "50m" _ _
             PlotExample.mapset "PlateCarree" st
             eq_refl eq_refl eq_refl eq_refl).
  split; reflexivity.
Defined.

(** [style('JMA')]: the names of the styles are case-sensitive. *)
Lemma style_unknown_name_example :
  let st := PlotExample.plot_with_mapset in
  ∃ msg, Plot.style "JMA" st =
           (inr (), Plot.mkState (Plot.self st)
                      (Plot.calls st ++ [Plot.Print msg]) (Plot.world st)).
Proof.
  intros st.
  destruct (style_changes_colours_only "JMA" st) as (_ & _ & _ & _ & _ & Hp).
  apply Hp. rewrite !not_elem_of_cons.
  split_and!; [discriminate..|apply not_elem_of_nil].
Defined.

(** [draw('Country  BOGUS')], with two spaces, is [drawcountry()] and then a
    printed line; the two methods that are not modelled do nothing here. *)
Lemma draw_runs_the_words_example :
  let skip : @Plot.PM Rect.t string Q () := sret () in
  let draw :=
    Plot.draw "borders.shp" "city.shp" "city_tw.shp" "us_city.shp"
      "county.shp" skip skip in
  draw 2%nat "Country  BOGUS" =
    (do+ Plot.drawcountry "borders.shp" None VNone None in
     do+ Plot.emit (Plot.Print "Illegal draw command: bogus") in
     sret ()) ∧
  draw 100%nat "Country  BOGUS" = draw 2%nat "Country  BOGUS".
Proof.
  intros skip draw.
  destruct (draw_runs_the_words_in_order "borders.shp" "city.shp"
              "city_tw.shp" "us_city.shp" "county.shp" skip skip
              98 "Country  BOGUS") as (Hrun & Hlimit & Hillegal).
  subst draw. split; [|exact Hlimit].
  rewrite <-Hlimit, Hrun.
  change (sbind (Plot.draw_command "borders.shp" "city.shp" "city_tw.shp"
                   "us_city.shp" "county.shp" skip skip "country")
            (λ _, sbind (Plot.draw_command "borders.shp" "city.shp"
                           "city_tw.shp" "us_city.shp" "county.shp" skip
                           skip "bogus") (λ _, sret ())) =
          sbind (Plot.drawcountry "borders.shp" None VNone None)
            (λ _, sbind (Plot.emit (Plot.Print "Illegal draw command: bogus"))
                    (λ _, sret ()))).
  rewrite (Hillegal "bogus").
  - reflexivity.
  - rewrite !not_elem_of_cons.
    split_and!; [discriminate..|apply not_elem_of_nil].
Defined.

(** [draw('Coastline country')] on the plot with the mapset: the coastline
    raises, so that the borders are not drawn. *)
Lemma draw_of_joined_words_example :
  let skip : @Plot.PM Rect.t string Q () := sret () in
  let draw :=
    Plot.draw "borders.shp" "city.shp" "city_tw.shp" "us_city.shp"
      "county.shp" skip skip in
  draw 2%nat "Coastline country" =
    (do+ Plot.drawcoastline None None None VNone VNone VNone None false true in
     do+ Plot.drawcountry "borders.shp" None VNone None in
     sret ()) ∧
  (draw 2%nat "Coastline country" PlotExample.plot_with_mapset).1 =
    inl AttributeError.
Proof.
  intros skip draw.
  assert (Forall word ["Coastline"; "country"]) as Hwords.
  { repeat constructor; discriminate. }
  destruct (draw_of_joined_words "borders.shp" "city.shp" "city_tw.shp"
              "us_city.shp" "county.shp" skip skip 0
              "Coastline" "country" [] Hwords) as [Hrun _].
  change (String.concat " " ["Coastline"; "country"])
    with "Coastline country" in Hrun.
  split.
  - subst draw. rewrite Hrun. reflexivity.
  - subst draw. rewrite Hrun. reflexivity.
Defined.

(** [drawcity()] when the first shapefile can be read and the second
    cannot: one feature is added, and the call raises. *)
Lemma drawcity_example :
  let st := PlotExample.plot_with_mapset in
  let run :=
    Plot.drawcity "ne_50m_land.shp" "missing.shp" "ne_50m_coastline.shp"
      None VNone st in
  run.1 = inl (Raised ShapefileError) ∧
  Plot.calls run.2 =
    Plot.calls st ++
    [Plot.AddFeature
       (Plot.Shapely Example.land "PlateCarree"
          (list_to_map [("facecolor", VStr "none");
                        ("edgecolor", VStr "#444444")]))
       {["linewidth" := VNum 0.1]}].
Proof.
  intros st run. subst run.
  rewrite (drawcity_stops_at_first_unreadable "ne_50m_land.shp"
             "missing.shp" "ne_50m_coastline.shp" None VNone "PlateCarree"
             0.1 (VStr "#444444") st eq_refl eq_refl eq_refl).
  split; reflexivity.
Defined.

(** [timestamp(t, 24, duration=-6, nearest=3)] is
    [timestamp(t, (18, 24))], and [timestamp(t, 'an', duration=-6)]
    raises. *)
Lemma timestamp_duration_example :
  let timestamp :=
    Plot.timestamp (G:=Rect.t) (C:=string) (F:=Q) PlotExample.strptime
      PlotExample.strftime PlotExample.add_hours PlotExample.hour
      PlotExample.replace_hour in
  let st := PlotExample.plot_with_mapset in
  timestamp (Plot.BaseTime 0%Z) (Plot.FcstInt 24) (-6)%Z (Some 3%Z) st =
    timestamp (Plot.BaseTime 0%Z) (Plot.FcstSeq [18; 24]%Z) 0%Z None st ∧
  timestamp (Plot.BaseTime 0%Z) (Plot.FcstStr "an") (-6)%Z None st =
    (inl (Raised TypeError), st).
Proof.
  intros timestamp st.
  assert ((-6)%Z ≠ 0%Z) as Hd by discriminate.
  destruct (timestamp_duration_window PlotExample.strptime
              PlotExample.strftime PlotExample.add_hours PlotExample.hour
              PlotExample.replace_hour (Plot.BaseTime 0%Z) (Plot.FcstInt 24)
              (-6)%Z (Some 3%Z) st Hd) as (_ & Hint & _).
  destruct (timestamp_duration_window PlotExample.strptime
              PlotExample.strftime PlotExample.add_hours PlotExample.hour
              PlotExample.replace_hour (Plot.BaseTime 0%Z)
              (Plot.FcstStr "an") (-6)%Z None st Hd) as (_ & _ & Hstr).
  split; [exact (Hint 24%Z eq_refl)|].
  apply (Hstr 0%Z eq_refl). left. by eexists.
Defined.

(** [timestamp(t, 15, nearest=6)] with [t] at midnight: the hour before
    the valid time is 14, and the window is from 12 to 15. *)
Lemma timestamp_nearest_example :
  let timestamp :=
    Plot.timestamp (G:=Rect.t) (C:=string) (F:=Q) PlotExample.strptime
      PlotExample.strftime PlotExample.add_hours PlotExample.hour
      PlotExample.replace_hour in
  let st := PlotExample.plot_with_mapset in
  timestamp (Plot.BaseTime 0%Z) (Plot.FcstInt 15) 0%Z (Some 6%Z) st =
    timestamp (Plot.BaseTime 0%Z) (Plot.FcstSeq [12; 15]%Z) 0%Z None st.
Proof.
  intros timestamp st.
  assert (∀ d, 0 ≤ PlotExample.hour d < 24)%Z as Hhour.
  { intros d. apply Z.mod_pos_bound. lia. }
  assert (∀ d h, (0 ≤ h < 24)%Z →
            ∃ d', PlotExample.replace_hour d h = inr d' ∧
                  PlotExample.hour d' = h) as Hreplace.
  { intros d h Hh. unfold PlotExample.replace_hour, PlotExample.hour.
    rewrite decide_True by done. eexists. split; [reflexivity|].
    rewrite (Z.div_mod d 24) at 1 by lia.
    replace (24 * (d / 24) + d mod 24 - d mod 24 + h)%Z
      with (h + d / 24 * 24)%Z by lia.
    rewrite Z.mod_add by lia. apply Z.mod_small. lia. }
  assert (∀ d k d', PlotExample.add_hours d k = inr d' →
            PlotExample.hour d' = ((PlotExample.hour d + k) mod 24)%Z)
    as Hadd.
  { intros d k d' [= <-]. unfold PlotExample.hour.
    by rewrite Zplus_mod_idemp_l. }
  assert (0 < 6)%Z as Hn by lia.
  destruct (timestamp_nearest_window PlotExample.strptime
              PlotExample.strftime PlotExample.add_hours PlotExample.hour
              PlotExample.replace_hour 0%Z 14%Z 15%Z 6%Z st
              Hhour Hreplace Hadd Hn eq_refl) as (Hrun & _).
  exact Hrun.
Defined.

(** Two calls of [maxminnote], the second with [type='MIN']. *)
Lemma maxminnote_example :
  let maxminnote :=
    Plot.maxminnote (G:=Rect.t) (C:=string) PlotExample.nanmax
      PlotExample.nanmin PlotExample.nanmean PlotExample.format_value in
  let st := PlotExample.new_plot VNone in
  let st1 := (maxminnote [1; 3; 2]%Q "T" "K" "max" "{:.1f}" st).2 in
  Plot.mmnote (Plot.self st1) = "Max. T: 3/1 K" ∧
  Plot.mmnote
    (Plot.self (maxminnote [1; 3; 2]%Q "T" "K" "MIN" "{:.1f}" st1).2) =
    "Max. T: 3/1 K | Min. T: 1/1 K".
Proof.
  intros maxminnote st st1.
  assert (Plot.mmnote (Plot.self st1) = "Max. T: 3/1 K") as Hfirst.
  { subst st1 maxminnote.
    destruct (maxminnote_joins_the_notes PlotExample.nanmax
                PlotExample.nanmin PlotExample.nanmean
                PlotExample.format_value [1; 3; 2]%Q "T" "K" "max" "{:.1f}"
                "Max." "3/1" 3%Q [] st (Forall_nil_2 _) eq_refl
                (or_introl (conj eq_refl (conj eq_refl eq_refl))) eq_refl)
      as [_ ->].
    reflexivity. }
  split; [exact Hfirst|].
  assert (Forall (λ s, s ≠ "") ["Max. T: 3/1 K"]) as Hnotes.
  { repeat constructor. discriminate. }
  subst maxminnote.
  destruct (maxminnote_joins_the_notes PlotExample.nanmax
              PlotExample.nanmin PlotExample.nanmean
              PlotExample.format_value [1; 3; 2]%Q "T" "K" "MIN" "{:.1f}"
              "Min." "1/1" 1%Q ["Max. T: 3/1 K"] st1 Hnotes Hfirst
              (or_intror (or_introl (conj eq_refl (conj eq_refl eq_refl))))
              eq_refl)
    as [_ ->].
  reflexivity.
Defined.

(** [maxminnote(data, 'T', type='median')] after a first note, and
    [maxminnote] of an empty array. *)
Lemma maxminnote_failure_example :
  let maxminnote :=
    Plot.maxminnote (G:=Rect.t) (C:=string) PlotExample.nanmax
      PlotExample.nanmin PlotExample.nanmean PlotExample.format_value in
  let st := (maxminnote [1; 3; 2]%Q "T" "K" "max" "{:.1f}"
               (PlotExample.new_plot VNone)).2 in
  maxminnote [1; 3; 2]%Q "T" "" "median" "{:.1f}" st =
    (inl PlotError, st) ∧
  maxminnote [] "T" "" "Max" "{:.1f}" st = (inl (Raised ValueError), st).
Proof.
  intros maxminnote st. subst maxminnote.
  assert ("median" ∉ ["max"; "min"; "mean"]) as Hty.
  { rewrite !not_elem_of_cons.
    split_and!; [discriminate..|apply not_elem_of_nil]. }
  destruct (maxminnote_failure_changes_nothing PlotExample.nanmax
              PlotExample.nanmin PlotExample.nanmean
              PlotExample.format_value [1; 3; 2]%Q "T" "" "median" "{:.1f}"
              st) as (Hunknown & _).
  destruct (maxminnote_failure_changes_nothing PlotExample.nanmax
              PlotExample.nanmin PlotExample.nanmean
              PlotExample.format_value [] "T" "" "Max" "{:.1f}"
              st) as (_ & Hlib & _).
  split; [exact (Hunknown Hty)|].
  exact (Hlib (Raised ValueError) eq_refl).
Defined.
